(** * The bid simulator of the MEV validator

    A shallow embedding of [miner/bid_simulator.go]: the reward accounting
    of a [BidRuntime], the pending ledger ([CheckPending], [AddPending],
    [sendBid]), the arbiter ([newBidLoop]) and the simulation routine
    ([simBid]).  The janitor ([clearLoop]), the registry of builders and
    the dialing of their clients are not part of it.

    Conventions of the embedding.
    - [*big.Int] is [Z]; [*uint256.Int] is a [Z] in [0, 2^256); a pointer
      that may be nil is an [option].
    - [common.Hash], [common.Address] and [uint64] block numbers are [N].
    - A Go [error] is its message, an [option string] where nil is [None].
    - A Go map is a [gmap]; a map of maps is a [gmap] of [gmap]s, and a
      lookup in a missing (nil) inner map reads as the empty map, while an
      assignment into it panics.
    - A function that can panic returns an [option]; [None] is the panic.
    - Each handler is one atomic step on the simulator's tables; calls to
      the collaborators outside this file (the block executor, the
      consensus engine, the worker, the builders' clients) and channel
      operations are answered by oracles and recorded as [Event]s.
    - The tables hold runtimes by value.  A runtime enters the simulation
      slot when its simulation starts and leaves it when the simulation
      ends, and nothing reads the slot in between within the step; it
      enters the best-bid table as the last act of its simulation and is
      not written afterwards. *)

From Stdlib Require Import ZArith Lia.
From stdpp Require Import gmap strings list pretty.

Local Open Scope Z_scope.

Abbreviation Hash := N (only parsing).
Abbreviation Address := N (only parsing).

(** ** Arbitrary-precision integers, as [math/big] has them *)

Module big.

Definition Add (x y : Z) : Z := x + y.

Definition Mul (x y : Z) : Z := x * y.

(** [Div] is Euclidean division: the remainder is never negative.  (Go
    panics on a zero divisor; the only divisor in this file is 100.) *)
Definition Div (x y : Z) : Z := Z.sgn y * (x / Z.abs y).

(** [Cmp] answers -1, 0 or 1. *)
Definition Cmp (x y : Z) : Z :=
  match x ?= y with
  | Lt => -1
  | Eq => 0
  | Gt => 1
  end.

End big.

(** ** 256-bit unsigned integers, as [holiman/uint256] has them *)

Module uint256.

Definition inRange (z : Z) : Prop := 0 <= z < 2 ^ 256.

Definition Clone (z : Z) : Z := z.

Definition ToBig (z : Z) : Z := z.

Definition CmpBig (z : Z) (b : Z) : Z := big.Cmp z b.

End uint256.

(** ** Data model *)

Inductive TxType := LegacyTxType | BlobTxType.

Inductive ReceiptStatus := ReceiptStatusFailed | ReceiptStatusSuccessful.

#[global] Instance ReceiptStatus_eq_dec : EqDecision ReceiptStatus.
Proof. solve_decision. Defined.

#[global] Instance TxType_eq_dec : EqDecision TxType.
Proof. solve_decision. Defined.

(** A transaction, by what the simulator reads of it.  [txSidecar] is the
    number of blobs of its sidecar, [None] when it carries none. *)
Record Transaction := {
  txHash : Hash;
  txType : TxType;
  txTo : option Address;
  txValue : option Z;
  txSize : Z;
  txSidecar : option Z;
}.

Record Receipt := {
  Status : ReceiptStatus;
  rcBlobGasUsed : Z;
}.

Record Bid := {
  Builder : Address;
  BlockNumber : N;
  ParentHash : Hash;
  Txs : list Transaction;
  UnRevertible : gset Hash;
  GasUsed : Z;
  GasFee : Z;
  NontaxableFee : Z;
  bidHash : Hash;
}.

(** [BlobGasUsed] is a pointer in the Go header, nil before Cancun. *)
Record Header := {
  GasLimit : Z;
  hdGasUsed : Z;
  BlobGasUsed : option Z;
  Number : N;
  Coinbase : Address;
}.

(** The execution state, by what the simulator reads and writes of it. *)
Record StateDB := {
  balances : gmap Address Z;
  txContext : option (Hash * Z);
}.

(** Absent accounts have balance zero. *)
Definition GetBalance (s : StateDB) (a : Address) : Z :=
  default 0 (balances s !! a).

Definition SetTxContext (s : StateDB) (h : Hash) (ti : Z) : StateDB :=
  {| balances := balances s; txContext := Some (h, ti) |}.

Record BlobSidecar := {
  scBlobs : Z;
  scTxIndex : Z;
}.

Record environment := {
  header : Header;
  coinbase : Address;
  gasPool : option Z;
  state : StateDB;
  tcount : Z;
  envSize : Z;
  blobs : Z;
  envTxs : list Transaction;
  receipts : list Receipt;
  sidecars : list BlobSidecar;
}.

(** [finished] and [duration] of the Go struct are a channel and a wall
    clock reading: closing [finished] is an [Event], [duration] is left
    out. *)
Record BidRuntime := {
  bid : Bid;
  env : option environment;
  packedBlockRewardPreBEP95Builder : option Z;
  packedBlockRewardPreBEP95Final : option Z;
  directBribe : Z;
}.

Definition newBidRuntime (b : Bid) : BidRuntime :=
  {| bid := b;
     env := None;
     packedBlockRewardPreBEP95Builder := None;
     packedBlockRewardPreBEP95Final := None;
     directBribe := 0 |}.

(** ** Reward accounting *)

Definition calcRewardAfterBEP95 (preBEP95 : Z) : Z :=
  big.Div (big.Mul preBEP95 99) 100.

Definition directBribeBNB (r : BidRuntime) : Z := directBribe r.

Definition expectedRewardFromBuilder (r : BidRuntime) : Z :=
  big.Add (calcRewardAfterBEP95 (GasFee (bid r))) (NontaxableFee (bid r)).

(** [None]: the packed reward is still nil, and [calcRewardAfterBEP95]
    dereferences it. *)
Definition totalRewardFromBuilder (r : BidRuntime) : option Z :=
  match packedBlockRewardPreBEP95Builder r with
  | Some p => Some (big.Add (calcRewardAfterBEP95 (uint256.ToBig p)) (directBribeBNB r))
  | None => None
  end.

Definition blockReward (r : BidRuntime) : option Z :=
  match packedBlockRewardPreBEP95Final r with
  | Some p => Some (calcRewardAfterBEP95 (uint256.ToBig p))
  | None => None
  end.

Definition totalReward (r : BidRuntime) : option Z :=
  match blockReward r with
  | Some br => Some (big.Add br (directBribeBNB r))
  | None => None
  end.

(** The conjunction is lazy: the packed reward is only read when the
    bribe covers the declared fee. *)
Definition validReward (r : BidRuntime) : option bool :=
  if 0 <=? big.Cmp (directBribeBNB r) (NontaxableFee (bid r)) then
    match packedBlockRewardPreBEP95Builder r with
    | Some p => Some (0 <=? uint256.CmpBig p (GasFee (bid r)))
    | None => None
    end
  else Some false.

Definition isExpectedBetterThanSimulatingBid (r simBid : BidRuntime) : bool :=
  0 <? big.Cmp (expectedRewardFromBuilder r) (expectedRewardFromBuilder simBid).

Definition isExpectedBetterThanBestBid (r bestBid : BidRuntime) : option bool :=
  match totalRewardFromBuilder bestBid with
  | Some t => Some (0 <? big.Cmp (expectedRewardFromBuilder r) t)
  | None => None
  end.

(** [updatePackReward] reads the balance of the system address from the
    state of the runtime's environment; [None] when there is no
    environment. *)
Definition updatePackReward (SystemAddress : Address) (isRawBid : bool)
    (r : BidRuntime) : option BidRuntime :=
  match env r with
  | None => None
  | Some e =>
      let final := GetBalance (state e) SystemAddress in
      Some {| bid := bid r;
              env := env r;
              packedBlockRewardPreBEP95Builder :=
                if isRawBid then Some (uint256.Clone final)
                else packedBlockRewardPreBEP95Builder r;
              packedBlockRewardPreBEP95Final := Some final;
              directBribe := directBribe r |}
  end.

Fixpoint containsAddress (l : list Address) (a : Address) : bool :=
  match l with
  | [] => false
  | x :: l' => if decide (x = a) then true else containsAddress l' a
  end.

Definition checkValidatorBribe (acceptBribeEOAs : list Address)
    (tx : Transaction) (receipt : Receipt) (r : BidRuntime) : BidRuntime :=
  match acceptBribeEOAs with
  | [] => r
  | _ =>
      match txTo tx, txValue tx with
      | Some to, Some v =>
          if decide (Status receipt = ReceiptStatusSuccessful) then
            if 0 <? big.Cmp v 0 then
              if containsAddress acceptBribeEOAs to then
                {| bid := bid r;
                   env := env r;
                   packedBlockRewardPreBEP95Builder := packedBlockRewardPreBEP95Builder r;
                   packedBlockRewardPreBEP95Final := packedBlockRewardPreBEP95Final r;
                   directBribe := big.Add (directBribe r) v |}
              else r
            else r
          else r
      | _, _ => r
      end
  end.

(** ** The simulator's tables *)

(** maxBidPerBuilderPerBlock is the max bid number per builder *)
Definition maxBidPerBuilderPerBlock : nat := 3.

(** Capacity of [newBidCh]. *)
Definition newBidChCap : nat := 100.

(** A new bid and its feedback channel ([None]: the nil channel of a
    recommit). *)
Record newBidPackage := {
  pkgBid : Bid;
  feedback : option nat;
}.

Record MevConfig := {
  Enabled : bool;
  GreedyMergeTx : bool;
  ValidatorBribeEOAs : list Address;
}.

Record bidSimulator := {
  config : MevConfig;
  running : bool;
  bidReceiving : bool;
  newBidCh : list newBidPackage;
  pending : gmap N (gmap Address (gset Hash));
  bestBid : gmap Hash BidRuntime;
  simulatingBid : gmap Hash BidRuntime;
}.

Definition withPending (b : bidSimulator)
    (p : gmap N (gmap Address (gset Hash))) : bidSimulator :=
  {| config := config b; running := running b; bidReceiving := bidReceiving b;
     newBidCh := newBidCh b; pending := p; bestBid := bestBid b;
     simulatingBid := simulatingBid b |}.

Definition withNewBidCh (b : bidSimulator) (ch : list newBidPackage) : bidSimulator :=
  {| config := config b; running := running b; bidReceiving := bidReceiving b;
     newBidCh := ch; pending := pending b; bestBid := bestBid b;
     simulatingBid := simulatingBid b |}.

Definition withBestBid (b : bidSimulator) (m : gmap Hash BidRuntime) : bidSimulator :=
  {| config := config b; running := running b; bidReceiving := bidReceiving b;
     newBidCh := newBidCh b; pending := pending b; bestBid := m;
     simulatingBid := simulatingBid b |}.

Definition withSimulatingBid (b : bidSimulator) (m : gmap Hash BidRuntime) : bidSimulator :=
  {| config := config b; running := running b; bidReceiving := bidReceiving b;
     newBidCh := newBidCh b; pending := pending b; bestBid := bestBid b;
     simulatingBid := m |}.

Definition isRunning (b : bidSimulator) : bool := running b.

Definition receivingBid (b : bidSimulator) : bool := bidReceiving b.

Definition GetBestBid (b : bidSimulator) (prevBlockHash : Hash) : option BidRuntime :=
  bestBid b !! prevBlockHash.

Definition GetSimulatingBid (b : bidSimulator) (prevBlockHash : Hash) : option BidRuntime :=
  simulatingBid b !! prevBlockHash.

Definition SetSimulatingBid (b : bidSimulator) (prevBlockHash : Hash)
    (r : BidRuntime) : bidSimulator :=
  withSimulatingBid b (<[prevBlockHash := r]> (simulatingBid b)).

Definition RemoveSimulatingBid (b : bidSimulator) (prevBlockHash : Hash) : bidSimulator :=
  withSimulatingBid b (delete prevBlockHash (simulatingBid b)).

(** ** The pending ledger *)

Module Pending.

(** [p[blockNumber][builder]] read the way Go reads a map of maps: a
    missing level reads as the empty set. *)
Definition hashesOf (p : gmap N (gmap Address (gset Hash)))
    (blockNumber : N) (builder : Address) : gset Hash :=
  default ∅ (default ∅ (p !! blockNumber) !! builder).

(** The entry for a block and a builder, [None] when either level is
    missing. *)
Definition entry (p : gmap N (gmap Address (gset Hash)))
    (blockNumber : N) (builder : Address) : option (gset Hash) :=
  match p !! blockNumber with
  | Some byBuilder => byBuilder !! builder
  | None => None
  end.

(** [if _, ok := p[blockNumber]; !ok { p[blockNumber] = make(...) }] *)
Definition ensureBlock (p : gmap N (gmap Address (gset Hash)))
    (blockNumber : N) : gmap N (gmap Address (gset Hash)) :=
  match p !! blockNumber with
  | Some _ => p
  | None => <[blockNumber := ∅]> p
  end.

(** [if _, ok := p[blockNumber][builder]; !ok { p[blockNumber][builder] = make(...) }] *)
Definition ensureBuilder (p : gmap N (gmap Address (gset Hash)))
    (blockNumber : N) (builder : Address) : gmap N (gmap Address (gset Hash)) :=
  let byBuilder := default ∅ (p !! blockNumber) in
  match byBuilder !! builder with
  | Some _ => p
  | None => <[blockNumber := <[builder := ∅]> byBuilder]> p
  end.

End Pending.

Definition CheckPending (b : bidSimulator) (blockNumber : N) (builder : Address)
    (bidHash : Hash) : bidSimulator * option string :=
  let p := Pending.ensureBuilder (Pending.ensureBlock (pending b) blockNumber)
             blockNumber builder in
  let b' := withPending b p in
  if decide (bidHash ∈ Pending.hashesOf p blockNumber builder) then
    (b', Some "bid already exists")
  else if decide (maxBidPerBuilderPerBlock ≤ size (Pending.hashesOf p blockNumber builder))%nat then
    (b', Some "too many bids")
  else (b', None).

(** [None]: the assignment goes into a nil map, and Go panics. *)
Definition AddPending (b : bidSimulator) (blockNumber : N) (builder : Address)
    (bidHash : Hash) : option bidSimulator :=
  match pending b !! blockNumber with
  | None => None
  | Some byBuilder =>
      match byBuilder !! builder with
      | None => None
      | Some hashes =>
          Some (withPending b
                  (<[blockNumber := <[builder := {[bidHash]} ∪ hashes]> byBuilder]>
                     (pending b)))
      end
  end.

(** What [sendBid] returns. *)
Inductive sendResult :=
| Replied (reply : option string)
| MevBusy.

(** [sendBid]: the bid goes into [newBidCh] when the channel has room
    within the second the timer gives, and then [AddPending] runs; [reply]
    is what arrives on the feedback channel before the timer fires, if
    anything does.  [None] is a panic. *)
Definition sendBid (b : bidSimulator) (bd : Bid) (replyCh : nat)
    (reply : option (option string)) : option (bidSimulator * sendResult) :=
  if decide (length (newBidCh b) < newBidChCap)%nat then
    let b1 := withNewBidCh b (newBidCh b ++ [{| pkgBid := bd; feedback := Some replyCh |}]) in
    match AddPending b1 (BlockNumber bd) (Builder bd) (bidHash bd) with
    | None => None
    | Some b2 =>
        match reply with
        | Some r => Some (b2, Replied r)
        | None => Some (b2, MevBusy)
        end
    end
  else Some (b, MevBusy).

(** The simulator as [newBidSimulator] builds it. *)
Definition newBidSimulator (cfg : MevConfig) : bidSimulator :=
  {| config := cfg; running := false; bidReceiving := Enabled cfg;
     newBidCh := []; pending := ∅; bestBid := ∅; simulatingBid := ∅ |}.

(** ** Collaborators and constants declared outside this file *)

(** The constants of [params], [consensus] and the worker that the
    simulator reads. *)
Class Params := {
  SystemAddress : Address;
  SystemTxsGas : Z;
  PayBidTxGasLimit : Z;
  blockReserveSize : Z;
  MaxMessageSize : Z;
  BlobTxBlobGasPerBlob : Z;
  MaxBlobGasPerBlock : Z;
  commitInterruptBetterBid : Z;
}.

(** The [bidWorker] interface.  [prepareWork] takes the parent hash and
    the coinbase of [generateParams]; [fillTransactions] works on the
    environment in place and may fail. *)
Class bidWorker := {
  prepareWork : Hash -> Address -> environment + string;
  etherbase : Address;
  fillTransactions : environment -> gset Hash -> environment * option string;
}.

(** [engine.Delay], by the header and by the ordinal of the query inside
    one simulation (the answer depends on the clock). *)
Class Engine := {
  Delay : nat -> Header -> option Z;
}.

(** What [core.ApplyTransaction] leaves behind: it works in place on the
    gas pool, the state and the header's gas counter. *)
Record ApplyResult := {
  arGasPool : option Z;
  arState : StateDB;
  arGasUsed : Z;
  arReceipt : Receipt + string;
}.

Class Executor := {
  ApplyTransaction : Address -> option Z -> StateDB -> Header -> Transaction -> ApplyResult;
}.

(** What a non-blocking [select] on the interrupt and exit channels finds
    at the start of an iteration of the replay loop. *)
Inductive Signal := NoSignal | InterruptSignal | ExitSignal.

Class Channels := {
  poll : nat -> Signal;
}.

(** Calls out of the simulator and channel operations, in the order they
    happen. *)
Inductive Event :=
| EvApplyTransaction (tx : Transaction) (res : Receipt + string)
| EvDiscard (e : environment)
| EvReportIssue (r : BidRuntime) (err : string)
| EvCloseFinished (b : Bid)
| EvLog (msg : string) (err : option string)
| EvInterrupt (ch : nat) (reason : Z)
| EvSimBidReq (ch : nat) (r : BidRuntime)
| EvFeedback (ch : nat) (replyErr : option string).

(** ** Fixed-width arithmetic *)

Definition wrap32 (z : Z) : Z := z mod 2 ^ 32.

Definition wrap64 (z : Z) : Z := z mod 2 ^ 64.

(** A Go [int] on a 64-bit machine. *)
Definition wrapInt (z : Z) : Z := (z + 2 ^ 63) mod 2 ^ 64 - 2 ^ 63.

(** ** Committing one transaction *)

Definition withEnv (r : BidRuntime) (e : environment) : BidRuntime :=
  {| bid := bid r;
     env := Some e;
     packedBlockRewardPreBEP95Builder := packedBlockRewardPreBEP95Builder r;
     packedBlockRewardPreBEP95Final := packedBlockRewardPreBEP95Final r;
     directBribe := directBribe r |}.

Definition withoutEnv (r : BidRuntime) : BidRuntime :=
  {| bid := bid r;
     env := None;
     packedBlockRewardPreBEP95Builder := packedBlockRewardPreBEP95Builder r;
     packedBlockRewardPreBEP95Final := packedBlockRewardPreBEP95Final r;
     directBribe := directBribe r |}.

Definition withState (e : environment) (s : StateDB) : environment :=
  {| header := header e; coinbase := coinbase e; gasPool := gasPool e;
     state := s; tcount := tcount e; envSize := envSize e; blobs := blobs e;
     envTxs := envTxs e; receipts := receipts e; sidecars := sidecars e |}.

Definition withGasPool (e : environment) (g : option Z) : environment :=
  {| header := header e; coinbase := coinbase e; gasPool := g;
     state := state e; tcount := tcount e; envSize := envSize e; blobs := blobs e;
     envTxs := envTxs e; receipts := receipts e; sidecars := sidecars e |}.

Definition withGasUsed (h : Header) (g : Z) : Header :=
  {| GasLimit := GasLimit h; hdGasUsed := g; BlobGasUsed := BlobGasUsed h;
     Number := Number h; Coinbase := Coinbase h |}.

Definition withBlobGasUsed (h : Header) (g : option Z) : Header :=
  {| GasLimit := GasLimit h; hdGasUsed := hdGasUsed h; BlobGasUsed := g;
     Number := Number h; Coinbase := Coinbase h |}.

(** The environment after [core.ApplyTransaction] has run on it. *)
Definition applied (e : environment) (ar : ApplyResult) : environment :=
  {| header := withGasUsed (header e) (arGasUsed ar); coinbase := coinbase e;
     gasPool := arGasPool ar; state := arState ar; tcount := tcount e;
     envSize := envSize e; blobs := blobs e; envTxs := envTxs e;
     receipts := receipts e; sidecars := sidecars e |}.

Definition WithoutBlobTxSidecar (tx : Transaction) : Transaction :=
  {| txHash := txHash tx; txType := txType tx; txTo := txTo tx;
     txValue := txValue tx; txSize := txSize tx; txSidecar := None |}.

Section Simulation.

Context {P : Params} {W : bidWorker} {E : Engine} {X : Executor} {C : Channels}.

(** The bookkeeping of [commitTransaction] once the receipt is accepted.
    [None]: a blob transaction met a header without blob gas counter. *)
Definition recordTx (e : environment) (tx : Transaction) (receipt : Receipt)
    : option environment :=
  match txType tx with
  | BlobTxType =>
      match BlobGasUsed (header e) with
      | None => None
      | Some used =>
          let n := default 0 (txSidecar tx) in
          Some {| header := withBlobGasUsed (header e)
                              (Some (wrap64 (used + rcBlobGasUsed receipt)));
                  coinbase := coinbase e; gasPool := gasPool e; state := state e;
                  tcount := wrapInt (tcount e + 1);
                  envSize := wrap32 (envSize e + wrap32 (txSize tx));
                  blobs := wrapInt (blobs e + n);
                  envTxs := envTxs e ++ [WithoutBlobTxSidecar tx];
                  receipts := receipts e ++ [receipt];
                  sidecars := sidecars e ++
                    [{| scBlobs := n; scTxIndex := Z.of_nat (length (envTxs e)) |}] |}
      end
  | LegacyTxType =>
      Some {| header := header e; coinbase := coinbase e; gasPool := gasPool e;
              state := state e;
              tcount := wrapInt (tcount e + 1);
              envSize := wrap32 (envSize e + wrap32 (txSize tx));
              blobs := blobs e;
              envTxs := envTxs e ++ [tx];
              receipts := receipts e ++ [receipt];
              sidecars := sidecars e |}
  end.

(** The blob checks that come before execution. *)
Definition blobCheck (e : environment) (tx : Transaction) : option string :=
  match txType tx with
  | BlobTxType =>
      match txSidecar tx with
      | None => Some "blob transaction without blobs in miner"
      | Some n =>
          if MaxBlobGasPerBlock <? wrapInt (wrapInt (blobs e + n) * BlobTxBlobGasPerBlob)
          then Some "max data blobs reached"
          else None
      end
  | LegacyTxType => None
  end.

(** [commitTransaction] on the runtime's environment.  The outer [None]
    is a panic (no environment, or [recordTx] panics). *)
Definition commitTransaction (r : BidRuntime) (tx : Transaction) (unRevertible : bool)
    : option (BidRuntime * (Receipt + string) * list Event) :=
  match env r with
  | None => None
  | Some e0 =>
      let e1 := withState e0 (SetTxContext (state e0) (txHash tx) (tcount e0)) in
      match blobCheck e1 tx with
      | Some msg => Some (withEnv r e1, inr msg, [])
      | None =>
          let ar := ApplyTransaction (coinbase e1) (gasPool e1) (state e1) (header e1) tx in
          let e2 := applied e1 ar in
          let ev := [EvApplyTransaction tx (arReceipt ar)] in
          match arReceipt ar with
          | inr msg => Some (withEnv r e2, inr msg, ev)
          | inl receipt =>
              if unRevertible && bool_decide (Status receipt = ReceiptStatusFailed) then
                Some (withEnv r e2, inr "no revertible transaction failed", ev)
              else
                match recordTx e2 tx receipt with
                | None => None
                | Some e3 => Some (withEnv r e3, inl receipt, ev)
                end
          end
      end
  end.

(** ** Replaying the builder's transactions *)

(** The loop over [bid.Txs] of [simBid]; [i] counts the iterations and
    [bidTxLen] is the length of the whole list.  The result carries the
    runtime, the error of the simulation if the loop set one, and the
    events. *)
Fixpoint replayTxs (acceptBribeEOAs : list Address) (bidTxLen : Z) (i : nat)
    (txs : list Transaction) (r : BidRuntime)
    : option (BidRuntime * option string * list Event) :=
  match txs with
  | [] => Some (r, None, [])
  | tx :: rest =>
      match poll i with
      | InterruptSignal => Some (r, Some "simulation abort due to better bid arrived", [])
      | ExitSignal => Some (r, Some "miner exit", [])
      | NoSignal =>
          match env r with
          | None => None
          | Some e =>
              if decide (tcount e = bidTxLen - 1) then Some (r, None, [])
              else
                match commitTransaction r tx
                        (bool_decide (txHash tx ∈ UnRevertible (bid r))) with
                | None => None
                | Some (r1, inr msg, evs) =>
                    Some (r1, Some ("invalid tx in bid, " +:+ msg),
                          evs ++ [EvLog "BidSimulator: failed to commit tx" (Some msg)])
                | Some (r1, inl receipt, evs) =>
                    let r2 := checkValidatorBribe acceptBribeEOAs tx receipt r1 in
                    match replayTxs acceptBribeEOAs bidTxLen (S i) rest r2 with
                    | None => None
                    | Some (r3, err, evs') => Some (r3, err, evs ++ evs')
                    end
                end
          end
      end
  end.

(** ** The simulation routine *)

(** Modelled from the spec: [core.GasPool] is declared outside this file;
    the spec initialises the pool to the gas limit less the gas reserved
    for system transactions and for the pay-bid transaction, and adds the
    latter back before the pay-bid transaction runs. *)
Definition AddGas (g amount : Z) : Z := g + amount.

(** Modelled from the spec: see [AddGas]. *)
Definition SubGas (g amount : Z) : Z := g - amount.

(** What a run of [simBid] leaves: the tables, the runtime, the [err] and
    [success] variables of the routine, and the events in order. *)
Record simResult := {
  srSim : bidSimulator;
  srRuntime : BidRuntime;
  srErr : option string;
  srSuccess : bool;
  srEvents : list Event;
}.

Definition failed (b : bidSimulator) (r : BidRuntime) (msg : string)
    (evs : list Event) : simResult :=
  {| srSim := b; srRuntime := r; srErr := Some msg; srSuccess := false;
     srEvents := evs |}.

(** [SetBestBid] discards the environment of the entry it replaces. *)
Definition SetBestBid (b : bidSimulator) (prevBlockHash : Hash) (r : BidRuntime)
    : bidSimulator * list Event :=
  let evs :=
    match bestBid b !! prevBlockHash with
    | Some last =>
        match env last with
        | Some e => [EvDiscard e]
        | None => []
        end
    | None => []
    end in
  (withBestBid b (<[prevBlockHash := r]> (bestBid b)), evs).

(** A [select] with a send and a [default]: the package goes in when the
    channel has room. *)
Definition trySend (b : bidSimulator) (pkg : newBidPackage) : bidSimulator :=
  if decide (length (newBidCh b) < newBidChCap)%nat
  then withNewBidCh b (newBidCh b ++ [pkg])
  else b.

(** only recommit when newBidCh is empty *)
Definition recommit (b : bidSimulator) (bd : Bid) : bidSimulator :=
  if decide (0 < length (newBidCh b))%nat then b
  else trySend b {| pkgBid := bd; feedback := None |}.

(** The end of [simBid]: the comparison with the best bid of the parent.
    [None]: a packed reward is nil. *)
Definition compareWithBest (b : bidSimulator) (r : BidRuntime) (evs : list Event)
    : option simResult :=
  let parentHash := ParentHash (bid r) in
  match GetBestBid b parentHash with
  | None =>
      let '(b1, evs1) := SetBestBid b parentHash r in
      Some {| srSim := b1; srRuntime := r; srErr := None; srSuccess := true;
              srEvents := evs ++ EvLog "[BID RESULT]" None :: evs1 |}
  | Some best =>
      match totalReward r, totalReward best with
      | Some bidContribute, Some existBidContribute =>
          let shouldUpdateBestBid := 0 <? big.Cmp bidContribute existBidContribute in
          let evLog :=
            if decide (bidHash (bid r) = bidHash (bid best)) then []
            else [EvLog "[BID RESULT]" None] in
          if shouldUpdateBestBid then
            let '(b1, evs1) := SetBestBid b parentHash r in
            Some {| srSim := b1; srRuntime := r; srErr := None; srSuccess := true;
                    srEvents := evs ++ evLog ++ evs1 |}
          else
            Some {| srSim := recommit b (bid best); srRuntime := r; srErr := None;
                    srSuccess := false; srEvents := evs ++ evLog |}
      | _, _ => None
      end
  end.

(** if enable greedy merge, fill bid env with transactions from mempool *)
Definition greedyMerge (b : bidSimulator) (r : BidRuntime) : option BidRuntime :=
  if GreedyMergeTx (config b) then
    match env r with
    | None => None
    | Some e =>
        match Delay 1 (header e) with
        | Some d =>
            if 0 <? d then
              let bidTxsSet : gset Hash := list_to_set (txHash <$> Txs (bid r)) in
              let '(e1, fillErr) := fillTransactions e bidTxsSet in
              updatePackReward SystemAddress false (withEnv r e1)
            else Some r
        | None => Some r
        end
    end
  else Some r.

(** commit payBidTx at the end of the block, check the size, compare. *)
Definition settle (b : bidSimulator) (r : BidRuntime) (payBidTx : Transaction)
    (evs : list Event) : option simResult :=
  match env r with
  | None => None
  | Some e =>
      match gasPool e with
      | None => None
      | Some g =>
          let r1 := withEnv r (withGasPool e (Some (AddGas g PayBidTxGasLimit))) in
          match commitTransaction r1 payBidTx true with
          | None => None
          | Some (r2, inr msg, evs1) =>
              Some (failed b r2 ("invalid tx in bid, " +:+ msg)
                      (evs ++ evs1 ++
                       [EvLog "BidSimulator: failed to commit tx" (Some msg)]))
          | Some (r2, inl _, evs1) =>
              match env r2 with
              | None => None
              | Some e2 =>
                  if MaxMessageSize <? wrap32 (envSize e2 + blockReserveSize) then
                    Some (failed b r2 "invalid bid size"
                            (evs ++ evs1 ++
                             [EvLog "BidSimulator: failed to check bid size" None]))
                  else compareWithBest b r2 (evs ++ evs1)
              end
          end
      end
  end.

(** check if bid reward is valid, then merge and settle. *)
Definition checkReward (b : bidSimulator) (r : BidRuntime) (payBidTx : Transaction)
    (evs : list Event) : option simResult :=
  match updatePackReward SystemAddress true r with
  | None => None
  | Some r1 =>
      match validReward r1 with
      | None => None
      | Some false => Some (failed b r1 "reward does not achieve the expectation" evs)
      | Some true =>
          match greedyMerge b r1 with
          | None => None
          | Some r2 => settle b r2 payBidTx evs
          end
      end
  end.

(** if the left time is not enough to do simulation, return *)
Definition noTime (delay : option Z) : bool :=
  match delay with
  | None => true
  | Some d => d <=? 0
  end.

(** The pool of a fresh environment. *)
Definition initGasPool (e : environment) : environment :=
  match gasPool e with
  | Some _ => e
  | None =>
      withGasPool e
        (Some (SubGas (SubGas (AddGas 0 (GasLimit (header e))) SystemTxsGas)
                 PayBidTxGasLimit))
  end.

(** The body of [simBid] between the registration of the deferred call
    and its run. *)
Definition simBidBody (b : bidSimulator) (r : BidRuntime) (payBidTx : Transaction)
    : option simResult :=
  match prepareWork (ParentHash (bid r)) etherbase with
  | inr msg =>
      Some {| srSim := b; srRuntime := withoutEnv r; srErr := Some msg;
              srSuccess := false; srEvents := [] |}
  | inl e0 =>
      if noTime (Delay 0 (header e0)) then
        Some {| srSim := b; srRuntime := withEnv r e0; srErr := None;
                srSuccess := false;
                srEvents :=
                  [EvLog "BidSimulator: abort commit, not enough time to simulate" None] |}
      else
        let e1 := initGasPool e0 in
        let r1 := withEnv r e1 in
        if default 0 (gasPool e1) <? GasUsed (bid r) then
          Some (failed b r1 "gas used exceeds gas limit" [])
        else
          match replayTxs (ValidatorBribeEOAs (config b))
                  (Z.of_nat (length (Txs (bid r)))) 0 (Txs (bid r)) r1 with
          | None => None
          | Some (r2, Some msg, evs) => Some (failed b r2 msg evs)
          | Some (r2, None, evs) => checkReward b r2 payBidTx evs
          end
  end.

(** The deferred function of [simBid]. *)
Definition simBidDeferred (parentHash : Hash) (res : simResult) : simResult :=
  let r := srRuntime res in
  let evDiscard :=
    match env r with
    | Some e =>
        if bool_decide (is_Some (srErr res)) || negb (srSuccess res)
        then [EvDiscard e] else []
    | None => []
    end in
  let evReport :=
    match srErr res with
    | Some msg =>
        [EvLog "BidSimulator: simulation failed" (Some msg); EvReportIssue r msg]
    | None => []
    end in
  let b1 := RemoveSimulatingBid (srSim res) parentHash in
  let b2 := if srSuccess res then recommit b1 (bid r) else b1 in
  {| srSim := b2; srRuntime := r; srErr := srErr res; srSuccess := srSuccess res;
     srEvents := srEvents res ++ evDiscard ++ evReport ++ [EvCloseFinished (bid r)] |}.

(** [simBid].  [None] is a panic; a run that returns at once, because the
    simulator is stopped or not receiving, changes nothing. *)
Definition simBid (b : bidSimulator) (r : BidRuntime) : option simResult :=
  if negb (isRunning b) || negb (receivingBid b) then
    Some {| srSim := b; srRuntime := r; srErr := None; srSuccess := false;
            srEvents := [] |}
  else
    match last (Txs (bid r)) with
    | None => None
    | Some payBidTx =>
        let parentHash := ParentHash (bid r) in
        let b1 := SetSimulatingBid b parentHash r in
        match simBidBody b1 r payBidTx with
        | None => None
        | Some res => Some (simBidDeferred parentHash res)
        end
    end.

(** ** The arbiter *)

(** The interrupt channel that [newBidLoop] holds, and the name the next
    [make] gives a channel. *)
Record arbiter := {
  interruptCh : option nat;
  nextCh : nat;
}.

(** What one iteration of [newBidLoop] leaves. *)
Record loopResult := {
  lrArbiter : arbiter;
  lrReplyErr : option string;
  lrEvents : list Event;
}.

(** commit aborts in-flight bid execution with given signal and resubmits
    a new one.  [exiting] tells which case of the [select] fires: the exit
    channel, or the send on [simBidCh]. *)
Definition commit (a : arbiter) (exiting : bool) (reason : Z) (r : BidRuntime)
    : arbiter * list Event :=
  let evs :=
    match interruptCh a with
    | Some ch => [EvInterrupt ch reason]
    | None => []
    end in
  let ch := nextCh a in
  ({| interruptCh := Some ch; nextCh := S ch |},
   if exiting then evs
   else evs ++ [EvSimBidReq ch r; EvLog "BidSimulator: commit" None]).

Definition discardError (best : Z) : string :=
  "bid is discarded, current best is " +:+ pretty best +:+ " [after BEP95]".

(** The verdict of the arbiter on a bid, before the feedback is sent.
    [None]: the best bid's packed reward is nil. *)
Definition judge (b : bidSimulator) (a : arbiter) (exiting : bool)
    (bidRuntime : BidRuntime) : option loopResult :=
  let parentHash := ParentHash (bid bidRuntime) in
  match GetSimulatingBid b parentHash with
  | Some simulating =>
      if isExpectedBetterThanSimulatingBid bidRuntime simulating then
        let '(a1, evs) := commit a exiting commitInterruptBetterBid bidRuntime in
        Some {| lrArbiter := a1; lrReplyErr := None; lrEvents := evs |}
      else
        Some {| lrArbiter := a;
                lrReplyErr :=
                  Some (discardError (expectedRewardFromBuilder simulating));
                lrEvents := [] |}
  | None =>
      match GetBestBid b parentHash with
      | None =>
          let '(a1, evs) := commit a exiting commitInterruptBetterBid bidRuntime in
          Some {| lrArbiter := a1; lrReplyErr := None; lrEvents := evs |}
      | Some best =>
          match isExpectedBetterThanBestBid bidRuntime best with
          | None => None
          | Some true =>
              let '(a1, evs) := commit a exiting commitInterruptBetterBid bidRuntime in
              Some {| lrArbiter := a1; lrReplyErr := None; lrEvents := evs |}
          | Some false =>
              match totalRewardFromBuilder best with
              | None => None
              | Some t =>
                  Some {| lrArbiter := a; lrReplyErr := Some (discardError t);
                          lrEvents := [] |}
              end
          end
      end
  end.

(** One bid taken from [newBidCh]: dropped when the simulator is not
    running, judged otherwise, and the verdict sent on the feedback
    channel when there is one. *)
Definition handleNewBid (b : bidSimulator) (a : arbiter) (exiting : bool)
    (newBid : newBidPackage) : option loopResult :=
  if negb (isRunning b) then
    Some {| lrArbiter := a; lrReplyErr := None; lrEvents := [] |}
  else
    match judge b a exiting (newBidRuntime (pkgBid newBid)) with
    | None => None
    | Some res =>
        match feedback newBid with
        | Some ch =>
            Some {| lrArbiter := lrArbiter res; lrReplyErr := lrReplyErr res;
                    lrEvents := lrEvents res ++
                      [EvFeedback ch (lrReplyErr res);
                       EvLog "[BID ARRIVED]" (lrReplyErr res)] |}
        | None => Some res
        end
    end.

(** One turn of [newBidLoop] on the head of [newBidCh]; with an empty
    channel the loop waits. *)
Definition newBidLoop (b : bidSimulator) (a : arbiter) (exiting : bool)
    : option (bidSimulator * loopResult) :=
  match newBidCh b with
  | [] => Some (b, {| lrArbiter := a; lrReplyErr := None; lrEvents := [] |})
  | newBid :: rest =>
      match handleNewBid (withNewBidCh b rest) a exiting newBid with
      | None => None
      | Some res => Some (withNewBidCh b rest, res)
      end
  end.



(** The tables after any number of simulations, one after the other. *)
Inductive simulated : bidSimulator -> bidSimulator -> Prop :=
| simulated_refl b : simulated b b
| simulated_step b r res b' :
    simBid b r = Some res -> simulated (srSim res) b' -> simulated b b'.


End Simulation.

(** ** How a simulation can leave the best-bid table *)

(** The table is as it was, and the run did not succeed. *)
Definition bestBidKept (b : bidSimulator) (res : simResult) : Prop :=
  srSuccess res = false /\ bestBid (srSim res) = bestBid b.

(** The runtime went into the table under its parent hash: the slot was
    empty, or held a bid of strictly lower [totalReward]. *)
Definition bestBidWon (b : bidSimulator) (res : simResult) : Prop :=
  let r := srRuntime res in
  let parentHash := ParentHash (bid r) in
  srErr res = None /\ srSuccess res = true /\
  bestBid (srSim res) = <[parentHash := r]> (bestBid b) /\
  (bestBid b !! parentHash = None \/
   exists best t t',
     bestBid b !! parentHash = Some best /\
     totalReward best = Some t /\ totalReward r = Some t' /\ t < t').

(** Every bid of the table has been through the raw-bid checkpoint of a
    simulation: its packed rewards are set. *)
Definition bestBidPacked (b : bidSimulator) : Prop :=
  forall parentHash best, bestBid b !! parentHash = Some best ->
    is_Some (packedBlockRewardPreBEP95Builder best) /\
    is_Some (packedBlockRewardPreBEP95Final best).

(** ** A small world to run the simulator in *)

Module Demo.

(** Constants in the size of the chain's. *)
Definition params : Params :=
  {| SystemAddress := 65534%N;
     SystemTxsGas := 5000000;
     PayBidTxGasLimit := 25000;
     blockReserveSize := 102400;
     MaxMessageSize := 10485760;
     BlobTxBlobGasPerBlob := 131072;
     MaxBlobGasPerBlock := 786432;
     commitInterruptBetterBid := 5 |}.

(** The fee a transaction pays to the system address, by its hash. *)
Definition feeOf (h : Hash) : Z :=
  match h with
  | 11%N => 1000000
  | 13%N => 600000
  | 21%N => 2000000
  | _ => 0
  end.

(** The transaction with hash 13 reverts; every other one succeeds. *)
Definition statusOf (h : Hash) : ReceiptStatus :=
  if decide (h = 13%N) then ReceiptStatusFailed else ReceiptStatusSuccessful.

Definition credit (st : StateDB) (a : Address) (amount : Z) : StateDB :=
  {| balances := <[a := GetBalance st a + amount]> (balances st);
     txContext := txContext st |}.

Definition executor : Executor :=
  {| ApplyTransaction := fun _ gp st hd tx =>
       {| arGasPool := (fun g => g - 21000) <$> gp;
          arState := credit st 65534%N (feeOf (txHash tx));
          arGasUsed := hdGasUsed hd + 21000;
          arReceipt := inl {| Status := statusOf (txHash tx); rcBlobGasUsed := 0 |} |} |}.

Definition freshEnv : environment :=
  {| header := {| GasLimit := 30000000; hdGasUsed := 0; BlobGasUsed := Some 0;
                  Number := 100%N; Coinbase := 7%N |};
     coinbase := 7%N;
     gasPool := None;
     state := {| balances := ∅; txContext := None |};
     tcount := 0; envSize := 0; blobs := 0;
     envTxs := []; receipts := []; sidecars := [] |}.

(** The greedy merge of this worker brings 150000 more to the system
    address. *)
Definition worker : bidWorker :=
  {| prepareWork := fun _ _ => inl freshEnv;
     etherbase := 7%N;
     fillTransactions := fun e _ =>
       (withState e (credit (state e) 65534%N 150000), None) |}.

(** An engine with time left, and one without. *)
Definition engine : Engine := {| Delay := fun _ _ => Some 300 |}.

Definition lateEngine : Engine := {| Delay := fun _ _ => Some 0 |}.

Definition quiet : Channels := {| poll := fun _ => NoSignal |}.

Definition transfer (h : Hash) (to : Address) (v : Z) : Transaction :=
  {| txHash := h; txType := LegacyTxType; txTo := Some to; txValue := Some v;
     txSize := 120; txSidecar := None |}.

Definition payBid (h : Hash) : Transaction := transfer h 9%N 0.

(** Bid A: a declared gas fee of 1000000 and a tip of 10 to the validator's
    account 7. *)
Definition bidA : Bid :=
  {| Builder := 1%N; BlockNumber := 100%N; ParentHash := 42%N;
     Txs := [transfer 11%N 7%N 10; payBid 12%N];
     UnRevertible := ∅; GasUsed := 42000;
     GasFee := 1000000; NontaxableFee := 10; bidHash := 1001%N |}.

(** Bid B: a declared gas fee of 2000000. *)
Definition bidB : Bid :=
  {| Builder := 2%N; BlockNumber := 100%N; ParentHash := 42%N;
     Txs := [transfer 21%N 8%N 0; payBid 22%N];
     UnRevertible := ∅; GasUsed := 42000;
     GasFee := 2000000; NontaxableFee := 0; bidHash := 1002%N |}.

(** Bid C: its transaction 13 is unrevertible, and reverts. *)
Definition bidC : Bid :=
  {| Builder := 3%N; BlockNumber := 100%N; ParentHash := 42%N;
     Txs := [transfer 13%N 8%N 0; payBid 14%N];
     UnRevertible := {[13%N]}; GasUsed := 42000;
     GasFee := 600000; NontaxableFee := 0; bidHash := 1003%N |}.

Definition cfg : MevConfig :=
  {| Enabled := true; GreedyMergeTx := true; ValidatorBribeEOAs := [7%N] |}.

(** A running simulator with empty tables. *)
Definition started : bidSimulator :=
  {| config := cfg; running := true; bidReceiving := true; newBidCh := [];
     pending := ∅; bestBid := ∅; simulatingBid := ∅ |}.

Definition noResult : simResult :=
  {| srSim := started; srRuntime := newBidRuntime bidA; srErr := None;
     srSuccess := false; srEvents := [] |}.

(** The simulation of bid A on the empty tables, and what it leaves. *)
Definition resA : simResult :=
  default noResult
    (@simBid params worker engine executor quiet started (newBidRuntime bidA)).

Definition afterA : bidSimulator := withNewBidCh (srSim resA) [].

(** The simulation of bid B after that. *)
Definition resB : simResult :=
  default noResult
    (@simBid params worker engine executor quiet afterA (newBidRuntime bidB)).

(** The simulation of bid C after bid A. *)
Definition resC : simResult :=
  default noResult
    (@simBid params worker engine executor quiet afterA (newBidRuntime bidC)).

(** Bid A in the simulation slot, nothing in the best-bid table. *)
Definition simulatingA : bidSimulator :=
  SetSimulatingBid started 42%N (newBidRuntime bidA).

Definition arb : arbiter := {| interruptCh := Some 0%nat; nextCh := 1%nat |}.

(** A runtime at the raw-bid checkpoint: the system address holds
    1000000. *)
Definition atCheckpoint : BidRuntime :=
  withEnv (newBidRuntime bidA)
    (withGasPool (withState freshEnv (credit (state freshEnv) 65534%N 1000000))
       (Some 24000000)).

(** A ledger in which builder 1 has two bids for block 100. *)
Definition twoBids : bidSimulator :=
  withPending started {[100%N := {[1%N := ({[501%N; 502%N]} : gset Hash)]}]}.

(** A caller that admits a bid the way the ledger asks: [CheckPending]
    first, [AddPending] when it passes. *)
Definition checkThenAdd (b : bidSimulator) (blockNumber : N) (builder : Address)
    (h : Hash) : bidSimulator * option string :=
  let '(b1, verdict) := CheckPending b blockNumber builder h in
  match verdict with
  | Some _ => (b1, verdict)
  | None => (default b1 (AddPending b1 blockNumber builder h), None)
  end.

End Demo.

(** ** The janitor *)

(** Subtraction of [uint64]s. *)
Definition sub64 (x y : N) : N := Z.to_N ((Z.of_N x - Z.of_N y) mod 2 ^ 64).

(** [chain.TriesInMemory()]. *)
Class Chain := {
  TriesInMemory : N;
}.

Section Janitor.

Context {CH : Chain}.

(** [v.bid.BlockNumber <= blockNumber-b.chain.TriesInMemory()] *)
Definition staleAt (blockNumber : N) (v : BidRuntime) : Prop :=
  (BlockNumber (bid v) <= sub64 blockNumber TriesInMemory)%N.

#[global] Instance staleAt_dec blockNumber v : Decision (staleAt blockNumber v).
Proof. unfold staleAt. apply _. Defined.

(** The environments that a sweep of a table discards: one call of
    [discard] per stale entry, on the entry's [env] pointer, nil or not.
    (Go ranges over a map in no fixed order; the list is in the order of
    [map_to_list].) *)
Definition sweepDiscards (blockNumber : N) (m : gmap Hash BidRuntime)
    : list (option environment) :=
  (fun kv : Hash * BidRuntime => env kv.2) <$>
    map_to_list (filter (fun kv : Hash * BidRuntime => staleAt blockNumber kv.2) m).

Definition sweep (blockNumber : N) (m : gmap Hash BidRuntime) : gmap Hash BidRuntime :=
  filter (fun kv : Hash * BidRuntime => ~ staleAt blockNumber kv.2) m.

(** [clearFn] of [clearLoop]: the tables after it, and the receivers of the
    calls of [discard] it makes. *)
Definition clearFn (b : bidSimulator) (parentHash : Hash) (blockNumber : N)
    : bidSimulator * list (option environment) :=
  let d1 :=
    match bestBid b !! parentHash with
    | Some v => [env v]
    | None => []
    end in
  let best1 := delete parentHash (bestBid b) in
  ({| config := config b; running := running b; bidReceiving := bidReceiving b;
      newBidCh := newBidCh b;
      pending := delete blockNumber (pending b);
      bestBid := sweep blockNumber best1;
      simulatingBid := sweep blockNumber (simulatingBid b) |},
   d1 ++ sweepDiscards blockNumber best1
      ++ sweepDiscards blockNumber (simulatingBid b)).

(** One chain head taken by [clearLoop], by the parent hash and the number
    of its block. *)
Definition clearLoop (b : bidSimulator) (headParent : Hash) (headNumber : N)
    : bidSimulator * list (option environment) :=
  if negb (isRunning b) then (b, []) else clearFn b headParent headNumber.

End Janitor.

(** ** The switches *)

Definition withRunning (b : bidSimulator) (x : bool) : bidSimulator :=
  {| config := config b; running := x; bidReceiving := bidReceiving b;
     newBidCh := newBidCh b; pending := pending b; bestBid := bestBid b;
     simulatingBid := simulatingBid b |}.

Definition withBidReceiving (b : bidSimulator) (x : bool) : bidSimulator :=
  {| config := config b; running := running b; bidReceiving := x;
     newBidCh := newBidCh b; pending := pending b; bestBid := bestBid b;
     simulatingBid := simulatingBid b |}.

Definition start (b : bidSimulator) : bidSimulator := withRunning b true.

Definition stop (b : bidSimulator) : bidSimulator := withRunning b false.

Definition stopReceivingBid (b : bidSimulator) : bidSimulator :=
  withBidReceiving b false.

(** ** The registry of builders *)

(** [builderclient.DialOptions], by the url. *)
Class Dialer := {
  DialOptions : string -> nat + string;
}.

(** The sentry's client and the clients of the builders; a client is a
    name, nil is [None]. *)
Record registry := {
  sentryCli : option nat;
  builders : gmap Address (option nat);
}.

Definition withBuilder (reg : registry) (builder : Address) (cli : option nat)
    : registry :=
  {| sentryCli := sentryCli reg; builders := <[builder := cli]> (builders reg) |}.

Section Registry.

Context {D : Dialer}.

Definition AddBuilder (reg : registry) (builder : Address) (url : string)
    : registry * option string :=
  match sentryCli reg with
  | Some cli => (withBuilder reg builder (Some cli), None)
  | None =>
      if decide (url = EmptyString) then (withBuilder reg builder None, None)
      else
        match DialOptions url with
        | inr err => (reg, Some err)
        | inl cli => (withBuilder reg builder (Some cli), None)
        end
  end.

Definition RemoveBuilder (reg : registry) (builder : Address)
    : registry * option string :=
  ({| sentryCli := sentryCli reg; builders := delete builder (builders reg) |}, None).

Definition ExistBuilder (reg : registry) (builder : Address) : bool :=
  bool_decide (is_Some (builders reg !! builder)).

(** [dialSentryAndBuilders], on the sentry url and the builders of the
    configuration. *)
Definition dialSentryAndBuilders (reg : registry) (sentryURL : string)
    (configured : list (Address * string)) : registry :=
  let sentry :=
    if decide (sentryURL = EmptyString) then None
    else
      match DialOptions sentryURL with
      | inl cli => Some cli
      | inr _ => None
      end in
  foldl (fun acc v => (AddBuilder acc v.1 v.2).1)
    {| sentryCli := sentry; builders := builders reg |} configured.

End Registry.

(** What [reportIssue] sends. *)
Record BidIssue := {
  issValidator : Address;
  issBuilder : Address;
  issBidHash : Hash;
  issMessage : string;
}.

(** [reportIssue]: the calls of [ReportIssue] it makes, each with the client
    it goes to.  [None]: the runtime has no environment to read the
    validator from, and there is a client to report to. *)
Definition reportIssue (reg : registry) (r : BidRuntime) (err : string)
    : option (list (nat * BidIssue)) :=
  match builders reg !! Builder (bid r) with
  | Some (Some cli) =>
      match env r with
      | Some e =>
          Some [(cli, {| issValidator := Coinbase (header e);
                         issBuilder := Builder (bid r);
                         issBidHash := bidHash (bid r);
                         issMessage := err |})]
      | None => None
      end
  | _ => Some []
  end.

(** ** The events of one kind *)

Definition isApply (ev : Event) : bool :=
  match ev with EvApplyTransaction _ _ => true | _ => false end.

(** The events that release or report: discards, reports of issues,
    closings of [finished]. *)
Definition isEffect (ev : Event) : bool :=
  match ev with
  | EvDiscard _ | EvReportIssue _ _ | EvCloseFinished _ => true
  | _ => false
  end.

Definition isFeedback (ev : Event) : bool :=
  match ev with EvFeedback _ _ => true | _ => false end.

(** ** More of what the tables keep *)

(** Every bid of the table is filed under its own parent hash and has
    passed [validReward]. *)
Definition bestBidValid (b : bidSimulator) : Prop :=
  forall parentHash best, bestBid b !! parentHash = Some best ->
    ParentHash (bid best) = parentHash /\
    validReward best = Some true /\
    is_Some (packedBlockRewardPreBEP95Final best).

(** No builder has more than the quota of bids recorded for a block. *)
Definition quotaKept (b : bidSimulator) : Prop :=
  forall blockNumber builder,
    (size (Pending.hashesOf (pending b) blockNumber builder)
     <= maxBidPerBuilderPerBlock)%nat.

(** The transaction as [commitTransaction] appends it to the environment. *)
Definition packedAs (tx : Transaction) : Transaction :=
  match txType tx with
  | BlobTxType => WithoutBlobTxSidecar tx
  | LegacyTxType => tx
  end.

(** Transactions and receipts go in pairs, the counter counts them, and
    every sidecar points at a blob transaction of the list. *)
Definition aligned (e : environment) : Prop :=
  length (receipts e) = length (envTxs e) /\
  forall sc, In sc (sidecars e) ->
    exists tx, envTxs e !! Z.to_nat (scTxIndex sc) = Some tx /\
               txType tx = BlobTxType /\ txSidecar tx = None.

(** The channel that the arbiter holds was made before the next one will
    be. *)
Definition arbiterOk (a : arbiter) : Prop :=
  forall ch, interruptCh a = Some ch -> (ch < nextCh a)%nat.

(** The discard that [SetBestBid] makes of the entry it replaces. *)
Definition replacedDiscard (b : bidSimulator) (parentHash : Hash) : list Event :=
  match bestBid b !! parentHash with
  | Some last =>
      match env last with
      | Some e => [EvDiscard e]
      | None => []
      end
  | None => []
  end.

(** The tables of [b] with another best-bid table and another channel. *)
Definition retabled (b : bidSimulator) (best : gmap Hash BidRuntime)
    (ch : list newBidPackage) : bidSimulator :=
  withNewBidCh (withBestBid b best) ch.

Section Loops.

Context {P : Params} {W : bidWorker} {E : Engine} {X : Executor} {C : Channels}.

(** The request that [commit] sends to [mainLoop]. *)
Record simBidReq := {
  reqBid : BidRuntime;
  reqInterruptCh : nat;
}.

(** One request taken by [mainLoop]. *)
Definition mainLoop (b : bidSimulator) (req : simBidReq) : option simResult :=
  if negb (isRunning b) then
    Some {| srSim := b; srRuntime := reqBid req; srErr := None;
            srSuccess := false; srEvents := [] |}
  else simBid b (reqBid req).

End Loops.

(** ** More of the small world *)

Module Cases.

Definition chain : Chain := {| TriesInMemory := 128%N |}.

(** A dialer that reaches every url but "down". *)
Definition dialer : Dialer :=
  {| DialOptions := fun url =>
       if decide (url = "down") then inr "connection refused"
       else inl (String.length url) |}.

Definition noRegistry : registry := {| sentryCli := None; builders := ∅ |}.

(** Builder 3 has the client 5. *)
Definition oneBuilder : registry :=
  {| sentryCli := None; builders := {[3%N := Some 5%nat]} |}.

(** A worker whose [prepareWork] fails. *)
Definition brokenWorker : bidWorker :=
  {| prepareWork := fun _ _ => inr "parent not found";
     etherbase := 7%N;
     fillTransactions := fun e _ => (e, None) |}.

(** A better bid has arrived before the first transaction. *)
Definition interrupted : Channels := {| poll := fun _ => InterruptSignal |}.

Definition cfgPlain : MevConfig :=
  {| Enabled := true; GreedyMergeTx := false; ValidatorBribeEOAs := [7%N] |}.

(** A running simulator without greedy merge. *)
Definition plain : bidSimulator :=
  {| config := cfgPlain; running := true; bidReceiving := true; newBidCh := [];
     pending := ∅; bestBid := ∅; simulatingBid := ∅ |}.

Definition resPlain : simResult :=
  default Demo.noResult
    (@simBid Demo.params Demo.worker Demo.engine Demo.executor Demo.quiet
       plain (newBidRuntime Demo.bidA)).

Definition resBroken : simResult :=
  default Demo.noResult
    (@simBid Demo.params brokenWorker Demo.engine Demo.executor Demo.quiet
       Demo.started (newBidRuntime Demo.bidC)).

Definition resInterrupted : simResult :=
  default Demo.noResult
    (@simBid Demo.params Demo.worker Demo.engine Demo.executor interrupted
       Demo.afterA (newBidRuntime Demo.bidB)).

(** The tables after bid A, with the runtime of bid B filed as the best of
    another parent. *)
Definition twoParents : bidSimulator :=
  withBestBid Demo.afterA
    (<[43%N := srRuntime Demo.resB]> (bestBid Demo.afterA)).

End Cases.

(** * Properties *)

(** ** Big integers *)

Lemma big_Cmp_gt x y : (0 <? big.Cmp x y) = true <-> y < x.
Proof.
  unfold big.Cmp. destruct (Z.compare_spec x y); rewrite Z.ltb_lt; lia.
Qed.

Lemma big_Cmp_ge x y : (0 <=? big.Cmp x y) = true <-> y <= x.
Proof.
  unfold big.Cmp. destruct (Z.compare_spec x y); rewrite Z.leb_le; lia.
Qed.

Lemma big_Div_pos_floor x y : 0 < y -> big.Div x y = x / y.
Proof.
  intros Hy. unfold big.Div.
  rewrite Z.sgn_pos, Z.abs_eq by lia. lia.
Qed.

(** ** Reward accounting *)

Lemma calcRewardAfterBEP95_div x : calcRewardAfterBEP95 x = x * 99 / 100.
Proof.
  unfold calcRewardAfterBEP95, big.Mul. apply big_Div_pos_floor. lia.
Qed.

Lemma calcRewardAfterBEP95_mono x y :
  x <= y -> calcRewardAfterBEP95 x <= calcRewardAfterBEP95 y.
Proof.
  intros Hxy. rewrite !calcRewardAfterBEP95_div.
  apply Z.div_le_mono; lia.
Qed.

(** C3: for every non-negative [x] the burn adjustment
    [calcRewardAfterBEP95 x] is the floor of [x * 99 / 100], computed by an
    exact multiplication by 99 followed by an integer division by 100; it is
    the function applied to the declared gas fee in
    [expectedRewardFromBuilder], to the builder's packed reward in
    [totalRewardFromBuilder] and to the final packed reward in
    [totalReward]. *)
Theorem calcRewardAfterBEP95_floor (x : Z) (r : BidRuntime) :
  0 <= x ->
  calcRewardAfterBEP95 x = big.Div (big.Mul x 99) 100 /\
  calcRewardAfterBEP95 x = x * 99 / 100 /\
  100 * calcRewardAfterBEP95 x <= x * 99 < 100 * (calcRewardAfterBEP95 x + 1) /\
  expectedRewardFromBuilder r =
    calcRewardAfterBEP95 (GasFee (bid r)) + NontaxableFee (bid r) /\
  totalRewardFromBuilder r =
    (fun p => calcRewardAfterBEP95 p + directBribe r) <$>
      packedBlockRewardPreBEP95Builder r /\
  totalReward r =
    (fun p => calcRewardAfterBEP95 p + directBribe r) <$>
      packedBlockRewardPreBEP95Final r.
Proof.
  intros Hx. split; [reflexivity|].
  pose proof (calcRewardAfterBEP95_div x) as Hdiv.
  split; [exact Hdiv|]. split.
  - rewrite Hdiv.
    pose proof (Z.div_mod (x * 99) 100 ltac:(lia)) as Hdm.
    pose proof (Z.mod_pos_bound (x * 99) 100 ltac:(lia)) as Hb. lia.
  - split; [reflexivity|]. split.
    + unfold totalRewardFromBuilder.
      destruct (packedBlockRewardPreBEP95Builder r); reflexivity.
    + unfold totalReward, blockReward.
      destruct (packedBlockRewardPreBEP95Final r); reflexivity.
Qed.

Lemma validReward_true r :
  validReward r = Some true <->
  exists p, packedBlockRewardPreBEP95Builder r = Some p /\
            NontaxableFee (bid r) <= directBribe r /\ GasFee (bid r) <= p.
Proof.
  unfold validReward, directBribeBNB, uint256.CmpBig.
  destruct (0 <=? big.Cmp (directBribe r) (NontaxableFee (bid r))) eqn:Hb.
  - apply big_Cmp_ge in Hb.
    destruct (packedBlockRewardPreBEP95Builder r) as [p|].
    + split.
      * intros [= Hp]. apply big_Cmp_ge in Hp. eauto.
      * intros (p' & [= <-] & _ & Hp). f_equal. by apply big_Cmp_ge.
    + split; [discriminate|]. intros (p' & Hp & _). discriminate.
  - split; [discriminate|]. intros (p & _ & Hle & _).
    apply big_Cmp_ge in Hle. congruence.
Qed.

(** C4: a runtime whose [validReward] check passes, that is, whose direct
    bribe covers the declared nontaxable fee and whose builder packed reward
    covers the declared gas fee, has a [totalRewardFromBuilder] of at least
    the burn-adjusted declared gas fee plus the declared nontaxable fee. *)
Theorem validReward_total_ge_expected (r : BidRuntime) :
  validReward r = Some true ->
  exists p, packedBlockRewardPreBEP95Builder r = Some p /\
    totalRewardFromBuilder r = Some (calcRewardAfterBEP95 p + directBribe r) /\
    calcRewardAfterBEP95 (GasFee (bid r)) + NontaxableFee (bid r)
      <= calcRewardAfterBEP95 p + directBribe r.
Proof.
  intros Hv. apply validReward_true in Hv as (p & Hp & Hbribe & Hgas).
  exists p. split; [exact Hp|]. split.
  - unfold totalRewardFromBuilder. rewrite Hp. reflexivity.
  - pose proof (calcRewardAfterBEP95_mono _ _ Hgas). lia.
Qed.

(** ** The pending ledger *)

Lemma hashesOf_entry p blockNumber builder :
  Pending.hashesOf p blockNumber builder =
  default ∅ (Pending.entry p blockNumber builder).
Proof.
  unfold Pending.hashesOf, Pending.entry.
  destruct (p !! blockNumber); reflexivity.
Qed.

Lemma entry_ensureBlock p blockNumber bn builder :
  Pending.entry (Pending.ensureBlock p blockNumber) bn builder =
  Pending.entry p bn builder.
Proof.
  unfold Pending.ensureBlock, Pending.entry.
  destruct (p !! blockNumber) eqn:Hp; [reflexivity|].
  destruct (decide (blockNumber = bn)) as [->|Hne].
  - rewrite lookup_insert_eq, Hp. apply lookup_empty.
  - by rewrite lookup_insert_ne.
Qed.

Lemma entry_ensureBuilder_eq p blockNumber builder :
  Pending.entry (Pending.ensureBuilder p blockNumber builder) blockNumber builder =
  Some (default ∅ (Pending.entry p blockNumber builder)).
Proof.
  unfold Pending.ensureBuilder, Pending.entry.
  destruct (p !! blockNumber) as [byBuilder|] eqn:Hp; simpl.
  - destruct (byBuilder !! builder) eqn:Hb.
    + by rewrite Hp, Hb.
    + by rewrite !lookup_insert_eq.
  - rewrite lookup_empty. by rewrite !lookup_insert_eq.
Qed.

Lemma entry_ensureBuilder_ne p blockNumber builder bn bu :
  (bn, bu) ≠ (blockNumber, builder) ->
  Pending.entry (Pending.ensureBuilder p blockNumber builder) bn bu =
  Pending.entry p bn bu.
Proof.
  intros Hne. unfold Pending.ensureBuilder, Pending.entry.
  destruct (default ∅ (p !! blockNumber) !! builder) eqn:Hb; [reflexivity|].
  destruct (decide (blockNumber = bn)) as [->|Hbn].
  - rewrite lookup_insert_eq.
    rewrite lookup_insert_ne by congruence.
    destruct (p !! bn); [reflexivity|apply lookup_empty].
  - by rewrite lookup_insert_ne.
Qed.

Lemma CheckPending_pending b blockNumber builder bidHash :
  (CheckPending b blockNumber builder bidHash).1 =
  withPending b
    (Pending.ensureBuilder (Pending.ensureBlock (pending b) blockNumber)
       blockNumber builder).
Proof.
  unfold CheckPending. repeat case_decide; reflexivity.
Qed.

Lemma CheckPending_entry_eq b blockNumber builder bidHash :
  Pending.entry (pending (CheckPending b blockNumber builder bidHash).1)
    blockNumber builder =
  Some (Pending.hashesOf (pending b) blockNumber builder).
Proof.
  rewrite CheckPending_pending. simpl.
  rewrite entry_ensureBuilder_eq, entry_ensureBlock.
  by rewrite hashesOf_entry.
Qed.

Lemma CheckPending_hashesOf b blockNumber builder :
  Pending.hashesOf
    (Pending.ensureBuilder (Pending.ensureBlock (pending b) blockNumber)
       blockNumber builder) blockNumber builder =
  Pending.hashesOf (pending b) blockNumber builder.
Proof.
  rewrite hashesOf_entry, entry_ensureBuilder_eq, entry_ensureBlock. simpl.
  by rewrite hashesOf_entry.
Qed.

(** The verdict of [CheckPending], by the hashes recorded before the
    call. *)
Lemma CheckPending_decides b blockNumber builder bidHash :
  (CheckPending b blockNumber builder bidHash).2 =
  if decide (bidHash ∈ Pending.hashesOf (pending b) blockNumber builder)
  then Some "bid already exists"
  else if decide (3 ≤ size (Pending.hashesOf (pending b) blockNumber builder))%nat
       then Some "too many bids"
       else None.
Proof.
  unfold CheckPending. rewrite CheckPending_hashesOf.
  unfold maxBidPerBuilderPerBlock. repeat case_decide; reflexivity.
Qed.

(** C5: [CheckPending] answers the duplicate error when the hash is
    already recorded for the block and the builder, the quota error when
    the hash is new and the builder has three or more hashes recorded for
    the block, and no error otherwise; so a builder's third distinct bid
    for a block passes and the fourth is refused with the quota error. *)
Theorem CheckPending_verdict (b : bidSimulator) (blockNumber : N)
    (builder : Address) (bidHash : Hash) :
  let recorded := Pending.hashesOf (pending b) blockNumber builder in
  (bidHash ∈ recorded ->
     (CheckPending b blockNumber builder bidHash).2 = Some "bid already exists") /\
  (bidHash ∉ recorded -> (3 ≤ size recorded)%nat ->
     (CheckPending b blockNumber builder bidHash).2 = Some "too many bids") /\
  (bidHash ∉ recorded -> (size recorded < 3)%nat ->
     (CheckPending b blockNumber builder bidHash).2 = None) /\
  (bidHash ∉ recorded -> size recorded = 2%nat ->
     (CheckPending b blockNumber builder bidHash).2 = None) /\
  (bidHash ∉ recorded -> size recorded = 3%nat ->
     (CheckPending b blockNumber builder bidHash).2 = Some "too many bids").
Proof.
  intros recorded. subst recorded.
  rewrite CheckPending_decides.
  repeat split; intros; repeat case_decide; try reflexivity; try lia; done.
Qed.

Lemma lookup_ensureBlock_ne p blockNumber bn :
  bn ≠ blockNumber -> Pending.ensureBlock p blockNumber !! bn = p !! bn.
Proof.
  intros Hne. unfold Pending.ensureBlock.
  destruct (p !! blockNumber); [reflexivity|]. by rewrite lookup_insert_ne.
Qed.

Lemma lookup_ensureBuilder_ne p blockNumber builder bn :
  bn ≠ blockNumber -> Pending.ensureBuilder p blockNumber builder !! bn = p !! bn.
Proof.
  intros Hne. unfold Pending.ensureBuilder.
  destruct (default ∅ (p !! blockNumber) !! builder); [reflexivity|].
  by rewrite lookup_insert_ne.
Qed.

Lemma entry_Some_lookup p blockNumber builder hashes :
  Pending.entry p blockNumber builder = Some hashes <->
  exists byBuilder, p !! blockNumber = Some byBuilder /\
                    byBuilder !! builder = Some hashes.
Proof.
  unfold Pending.entry. destruct (p !! blockNumber) as [m|].
  - split; [eauto|]. by intros (m' & [= <-] & Hm).
  - split; [discriminate|]. by intros (m' & [=] & _).
Qed.

(** A pair that is already in the ledger makes [CheckPending] a pure
    read. *)
Lemma CheckPending_present_readonly b blockNumber builder bidHash hashes :
  Pending.entry (pending b) blockNumber builder = Some hashes ->
  (CheckPending b blockNumber builder bidHash).1 = b.
Proof.
  intros He. rewrite CheckPending_pending.
  apply entry_Some_lookup in He as (m & Hm & Hb).
  unfold Pending.ensureBlock. rewrite Hm.
  unfold Pending.ensureBuilder. rewrite Hm. simpl. rewrite Hb.
  by destruct b.
Qed.

(** A pair that is not yet in the ledger is always let through. *)
Lemma CheckPending_fresh_accepts b blockNumber builder bidHash :
  Pending.entry (pending b) blockNumber builder = None ->
  (CheckPending b blockNumber builder bidHash).2 = None.
Proof.
  intros He. rewrite CheckPending_decides, hashesOf_entry, He.
  change (default ∅ None) with (∅ : gset N).
  rewrite decide_False by set_solver.
  rewrite decide_False; [reflexivity|].
  rewrite size_empty. lia.
Qed.

(** C10: [CheckPending] writes to the ledger.  A call for a block number
    and builder that the ledger does not hold yet leaves, whatever verdict
    it returns, an entry for the block number and under it an entry for
    the builder with no hash; every other entry of the ledger, and the
    rest of the simulator, is as before. *)
Theorem CheckPending_inserts_entries (b b' : bidSimulator) (blockNumber : N)
    (builder : Address) (bidHash : Hash) (verdict : option string) :
  Pending.entry (pending b) blockNumber builder = None ->
  CheckPending b blockNumber builder bidHash = (b', verdict) ->
  (exists byBuilder, pending b' !! blockNumber = Some byBuilder /\
                     byBuilder !! builder = Some ∅) /\
  pending b' ≠ pending b /\
  (forall bn bu, (bn, bu) ≠ (blockNumber, builder) ->
     Pending.entry (pending b') bn bu = Pending.entry (pending b) bn bu) /\
  (forall bn, bn ≠ blockNumber -> pending b' !! bn = pending b !! bn) /\
  (forall bn bu, Pending.hashesOf (pending b') bn bu =
                 Pending.hashesOf (pending b) bn bu) /\
  b' = withPending b (pending b').
Proof.
  intros Hfresh Hcall.
  assert (Hb' : b' = (CheckPending b blockNumber builder bidHash).1)
    by (by rewrite Hcall).
  rewrite CheckPending_pending in Hb'. subst b'. simpl.
  assert (Hnew : Pending.entry
            (Pending.ensureBuilder (Pending.ensureBlock (pending b) blockNumber)
               blockNumber builder) blockNumber builder = Some ∅).
  { rewrite entry_ensureBuilder_eq, entry_ensureBlock, Hfresh. reflexivity. }
  assert (Hother : forall bn bu, (bn, bu) ≠ (blockNumber, builder) ->
            Pending.entry
              (Pending.ensureBuilder (Pending.ensureBlock (pending b) blockNumber)
                 blockNumber builder) bn bu = Pending.entry (pending b) bn bu).
  { intros bn bu Hne. by rewrite entry_ensureBuilder_ne, entry_ensureBlock. }
  split; [by apply entry_Some_lookup|].
  split; [intros Heq; rewrite Heq in Hnew; congruence|].
  split; [exact Hother|].
  split.
  { intros bn Hne. by rewrite lookup_ensureBuilder_ne, lookup_ensureBlock_ne. }
  split; [|reflexivity].
  intros bn bu. rewrite !hashesOf_entry.
  destruct (decide ((bn, bu) = (blockNumber, builder))) as [[= -> ->]|Hne].
  - by rewrite Hnew, Hfresh.
  - by rewrite Hother.
Qed.

Lemma AddPending_Some b blockNumber builder bidHash b' :
  AddPending b blockNumber builder bidHash = Some b' <->
  exists byBuilder hashes,
    pending b !! blockNumber = Some byBuilder /\
    byBuilder !! builder = Some hashes /\
    b' = withPending b
           (<[blockNumber := <[builder := {[bidHash]} ∪ hashes]> byBuilder]>
              (pending b)).
Proof.
  unfold AddPending.
  destruct (pending b !! blockNumber) as [m|]; [|split; [done|]].
  - destruct (m !! builder) as [hs|] eqn:Hm; [|split; [done|]].
    + split.
      * intros [= <-]. eauto.
      * intros (m' & hs' & [= <-] & Hm' & ->). rewrite Hm in Hm'.
        by injection Hm' as <-.
    + intros (m' & hs' & [= <-] & Hm' & _). congruence.
  - by intros (m' & hs' & [=] & _).
Qed.

Lemma AddPending_entry b blockNumber builder bidHash b' bn bu :
  AddPending b blockNumber builder bidHash = Some b' ->
  Pending.entry (pending b') bn bu =
  if decide ((bn, bu) = (blockNumber, builder))
  then Some ({[bidHash]} ∪ Pending.hashesOf (pending b) blockNumber builder)
  else Pending.entry (pending b) bn bu.
Proof.
  intros (m & hs & Hm & Hb & ->)%AddPending_Some. simpl.
  unfold Pending.entry, Pending.hashesOf.
  destruct (decide ((bn, bu) = (blockNumber, builder))) as [[= -> ->]|Hne].
  - rewrite !lookup_insert_eq, Hm. simpl. by rewrite Hb.
  - destruct (decide (blockNumber = bn)) as [->|Hbn].
    + rewrite lookup_insert_eq, Hm. rewrite lookup_insert_ne by congruence. done.
    + by rewrite lookup_insert_ne.
Qed.

(** C9: [AddPending] assigns into [pending[blockNumber][builder]] without
    making the inner maps: it returns exactly when the ledger already has an
    entry for the block number and the builder, and panics on the nil map
    otherwise.  Of the operations of the ledger only [CheckPending] makes
    such an entry: after it [AddPending] always returns, while [AddPending]
    itself leaves the set of entries as it was.  [sendBid] calls
    [AddPending] right after the send on the channel, with no
    [CheckPending] of its own, and so panics when the entry is missing. *)
Theorem AddPending_needs_entry (b : bidSimulator) (blockNumber : N)
    (builder : Address) (bidHash : Hash) :
  (is_Some (AddPending b blockNumber builder bidHash) <->
   is_Some (Pending.entry (pending b) blockNumber builder)) /\
  (Pending.entry (pending b) blockNumber builder = None ->
   AddPending b blockNumber builder bidHash = None) /\
  (forall b', AddPending b blockNumber builder bidHash = Some b' ->
     forall bn bu, is_Some (Pending.entry (pending b') bn bu) <->
                   is_Some (Pending.entry (pending b) bn bu)) /\
  is_Some (AddPending (CheckPending b blockNumber builder bidHash).1
             blockNumber builder bidHash) /\
  (forall bd replyCh reply,
     BlockNumber bd = blockNumber -> Builder bd = builder ->
     (length (newBidCh b) < newBidChCap)%nat ->
     Pending.entry (pending b) blockNumber builder = None ->
     sendBid b bd replyCh reply = None).
Proof.
  assert (Hiff : forall b0, is_Some (AddPending b0 blockNumber builder bidHash) <->
                 is_Some (Pending.entry (pending b0) blockNumber builder)).
  { intros b0. unfold AddPending, Pending.entry.
    destruct (pending b0 !! blockNumber) as [m|]; [|done].
    destruct (m !! builder); split; intros [x Hx]; eauto; discriminate. }
  split; [apply Hiff|]. split.
  { intros Hnone. destruct (AddPending b blockNumber builder bidHash) eqn:Ha;
      [|reflexivity].
    assert (is_Some (Pending.entry (pending b) blockNumber builder)) as [x Hx]
      by (apply Hiff; eauto).
    congruence. }
  split.
  { intros b' Ha bn bu. rewrite (AddPending_entry _ _ _ _ _ bn bu Ha).
    case_decide as Heq; [|done].
    injection Heq as -> ->. split; [intros _|eauto].
    apply Hiff. eauto. }
  split.
  { apply Hiff. rewrite CheckPending_entry_eq. eauto. }
  intros bd replyCh reply <- <- Hroom Hnone. unfold sendBid.
  rewrite decide_True by exact Hroom.
  unfold AddPending, Pending.entry in *. simpl.
  destruct (pending b !! BlockNumber bd) as [m|]; [|reflexivity].
  by rewrite Hnone.
Qed.

(** ** Committing and replaying transactions *)

Section SimulationFacts.

Context {P : Params} {W : bidWorker} {E : Engine} {X : Executor} {C : Channels}.

(** The fields of a runtime that executing transactions leaves alone. *)
Lemma commitTransaction_frame r tx unRevertible r' res evs :
  commitTransaction r tx unRevertible = Some (r', res, evs) ->
  bid r' = bid r /\
  packedBlockRewardPreBEP95Builder r' = packedBlockRewardPreBEP95Builder r /\
  packedBlockRewardPreBEP95Final r' = packedBlockRewardPreBEP95Final r /\
  directBribe r' = directBribe r /\
  is_Some (env r').
Proof.
  unfold commitTransaction. intros Hc.
  repeat case_match; simplify_eq; simpl; eauto 10.
Qed.

(** What [commitTransaction] asks of the executor, and what it makes of a
    failed receipt. *)
Lemma commitTransaction_events r tx unRevertible r' res evs :
  commitTransaction r tx unRevertible = Some (r', res, evs) ->
  forall tx' rc, In (EvApplyTransaction tx' (inl rc)) evs ->
    tx' = tx /\
    evs = [EvApplyTransaction tx (inl rc)] /\
    (if unRevertible && bool_decide (Status rc = ReceiptStatusFailed)
     then res = inr "no revertible transaction failed"
     else res = inl rc).
Proof.
  unfold commitTransaction. intros Hc tx' rc Hin.
  destruct (env r) as [e0|]; [|done].
  destruct (blobCheck _ tx); [by simplify_eq|].
  destruct (arReceipt _) as [receipt|msg] eqn:Hres.
  - destruct (unRevertible && bool_decide (Status receipt = ReceiptStatusFailed))
      eqn:Hflag.
    + simplify_eq. destruct Hin as [Hin|[]]. simplify_eq.
      by rewrite Hflag.
    + destruct (recordTx _ tx receipt); [|done].
      simplify_eq. destruct Hin as [Hin|[]]. simplify_eq.
      by rewrite Hflag.
  - simplify_eq. by destruct Hin as [Hin|[]].
Qed.

Lemma checkValidatorBribe_frame eoas tx receipt r :
  bid (checkValidatorBribe eoas tx receipt r) = bid r /\
  env (checkValidatorBribe eoas tx receipt r) = env r /\
  packedBlockRewardPreBEP95Builder (checkValidatorBribe eoas tx receipt r) =
    packedBlockRewardPreBEP95Builder r /\
  packedBlockRewardPreBEP95Final (checkValidatorBribe eoas tx receipt r) =
    packedBlockRewardPreBEP95Final r.
Proof.
  unfold checkValidatorBribe. repeat case_match; simpl; auto.
Qed.

Lemma replayTxs_frame eoas bidTxLen txs : forall i r r' err evs,
  replayTxs eoas bidTxLen i txs r = Some (r', err, evs) ->
  bid r' = bid r /\
  packedBlockRewardPreBEP95Builder r' = packedBlockRewardPreBEP95Builder r /\
  packedBlockRewardPreBEP95Final r' = packedBlockRewardPreBEP95Final r /\
  (is_Some (env r) -> is_Some (env r')).
Proof.
  induction txs as [|tx rest IH]; intros i r r' err evs Hr; simpl in Hr.
  - by simplify_eq.
  - destruct (poll i); [|by simplify_eq..].
    destruct (env r) as [e|] eqn:He; [|done].
    case_decide; [by simplify_eq|].
    destruct (commitTransaction r tx _) as [[[r1 res] evs1]|] eqn:Hc; [|done].
    apply commitTransaction_frame in Hc as (Hb & Hpb & Hpf & _ & Henv).
    destruct res as [receipt|msg].
    + destruct (replayTxs eoas bidTxLen (S i) rest _) as [[[r3 err3] evs3]|] eqn:Hrest;
        [|done].
      simplify_eq.
      apply IH in Hrest as (Hb3 & Hpb3 & Hpf3 & Henv3).
      pose proof (checkValidatorBribe_frame eoas tx receipt r1) as (Hcb & Hce & Hcpb & Hcpf).
      rewrite Hb3, Hpb3, Hpf3, Hcb, Hcpb, Hcpf.
      repeat split; try done. intros _. apply Henv3. by rewrite Hce.
    + by simplify_eq.
Qed.

(** Decide the test of [commitTransaction] on a receipt known to have
    failed. *)
Ltac unrevertible_failed H Hst :=
  rewrite Hst in H; simpl in H;
  try rewrite bool_decide_eq_true_2 in H by done.

(** A failed receipt of an unrevertible transaction stops the replay with
    the error of [commitTransaction], wrapped. *)
Lemma replayTxs_unrevertible eoas bidTxLen txs : forall i r r' err evs tx rc,
  replayTxs eoas bidTxLen i txs r = Some (r', err, evs) ->
  In (EvApplyTransaction tx (inl rc)) evs ->
  Status rc = ReceiptStatusFailed ->
  txHash tx ∈ UnRevertible (bid r) ->
  err = Some "invalid tx in bid, no revertible transaction failed" /\
  In (EvLog "BidSimulator: failed to commit tx"
        (Some "no revertible transaction failed")) evs.
Proof.
  induction txs as [|tx0 rest IH]; intros i r r' err evs tx rc Hr Hin Hst Hun;
    simpl in Hr.
  - by simplify_eq.
  - destruct (poll i); [|by simplify_eq..].
    destruct (env r) as [e|] eqn:He; [|done].
    case_decide; [by simplify_eq|].
    destruct (commitTransaction r tx0 _) as [[[r1 res] evs1]|] eqn:Hc; [|done].
    pose proof (commitTransaction_events _ _ _ _ _ _ Hc) as Hev.
    pose proof (commitTransaction_frame _ _ _ _ _ _ Hc) as (Hb & _).
    destruct res as [receipt|msg].
    + destruct (replayTxs eoas bidTxLen (S i) rest _) as [[[r3 err3] evs3]|] eqn:Hrest;
        [|done].
      simplify_eq. apply in_app_or in Hin as [Hin|Hin].
      * destruct (Hev _ _ Hin) as (-> & _ & Hres).
        rewrite Hst, bool_decide_eq_true_2 in Hres by done.
        rewrite bool_decide_eq_true_2 in Hres by done. done.
      * pose proof (checkValidatorBribe_frame eoas tx0 receipt r1) as (Hcb & _).
        destruct (IH _ _ _ _ _ _ _ Hrest Hin Hst) as [-> Hlog].
        { by rewrite Hcb, Hb. }
        split; [done|]. apply in_or_app. by right.
    + simplify_eq. apply in_app_or in Hin as [Hin|Hin].
      * destruct (Hev _ _ Hin) as (-> & _ & Hres).
        rewrite Hst, bool_decide_eq_true_2 in Hres by done.
        rewrite bool_decide_eq_true_2 in Hres by done.
        injection Hres as ->. split; [done|].
        apply in_or_app. right. by left.
      * by destruct Hin as [|[]].
Qed.

(** ** The end of a simulation *)

Lemma recommit_bestBid b bd : bestBid (recommit b bd) = bestBid b.
Proof. unfold recommit, trySend. repeat case_decide; reflexivity. Qed.

Lemma recommit_pending b bd : pending (recommit b bd) = pending b.
Proof. unfold recommit, trySend. repeat case_decide; reflexivity. Qed.

Lemma compareWithBest_spec b r evs res :
  compareWithBest b r evs = Some res ->
  srRuntime res = r /\ srErr res = None /\
  (bestBidKept b res \/ bestBidWon b res) /\
  (forall tx rs, In (EvApplyTransaction tx rs) (srEvents res) ->
                 In (EvApplyTransaction tx rs) evs).
Proof.
  unfold compareWithBest, GetBestBid, SetBestBid. intros Hc.
  destruct (bestBid b !! ParentHash (bid r)) as [best|] eqn:Hbest.
  - destruct (totalReward r) as [t'|] eqn:Hr; [|done].
    destruct (totalReward best) as [t|] eqn:Ht; [|done].
    destruct (0 <? big.Cmp t' t) eqn:Hcmp; simplify_eq; simpl.
    + apply big_Cmp_gt in Hcmp.
      repeat split; try done.
      * right. unfold bestBidWon. simpl. repeat split; try done.
        right. exists best, t, t'. done.
      * intros tx rs Hin.
        apply in_app_or in Hin as [Hin|Hin]; [done|].
        apply in_app_or in Hin as [Hin|Hin].
        -- case_decide; [done|]. by destruct Hin as [|[]].
        -- destruct (env best); [by destruct Hin as [|[]]|done].
    + repeat split; try done.
      * left. split; [done|]. simpl. apply recommit_bestBid.
      * intros tx rs Hin.
        apply in_app_or in Hin as [Hin|Hin]; [done|].
        case_decide; [done|]. by destruct Hin as [|[]].
  - simplify_eq. simpl. repeat split; try done.
    + right. unfold bestBidWon. simpl. repeat split; try done. by left.
    + intros tx rs Hin.
      apply in_app_or in Hin as [Hin|Hin]; [done|].
      by destruct Hin as [|[]].
Qed.

Lemma failed_kept b r msg evs : bestBidKept b (failed b r msg evs).
Proof. by split. Qed.

Lemma settle_spec b r payBidTx evs res :
  settle b r payBidTx evs = Some res ->
  bid (srRuntime res) = bid r /\
  packedBlockRewardPreBEP95Builder (srRuntime res) =
    packedBlockRewardPreBEP95Builder r /\
  packedBlockRewardPreBEP95Final (srRuntime res) =
    packedBlockRewardPreBEP95Final r /\
  (bestBidKept b res \/ bestBidWon b res) /\
  (is_Some (srErr res) -> srSim res = b) /\
  (forall tx rc, In (EvApplyTransaction tx (inl rc)) (srEvents res) ->
     Status rc = ReceiptStatusFailed ->
     In (EvApplyTransaction tx (inl rc)) evs \/
     (srErr res = Some "invalid tx in bid, no revertible transaction failed" /\
      In (EvLog "BidSimulator: failed to commit tx"
            (Some "no revertible transaction failed")) (srEvents res))).
Proof.
  unfold settle. intros Hs.
  destruct (env r) as [e|]; [|done].
  destruct (gasPool e) as [g|]; [|done].
  destruct (commitTransaction _ payBidTx true) as [[[r2 cres] evs1]|] eqn:Hc;
    [|done].
  pose proof (commitTransaction_frame _ _ _ _ _ _ Hc) as (Hb & Hpb & Hpf & _ & _).
  pose proof (commitTransaction_events _ _ _ _ _ _ Hc) as Hev.
  simpl in Hb, Hpb, Hpf.
  destruct cres as [receipt|msg].
  - destruct (env r2) as [e2|]; [|done].
    destruct (MaxMessageSize <? _).
    + simplify_eq. simpl. repeat split; try done.
      * left. apply failed_kept.
      * intros tx rc Hin Hst.
        apply in_app_or in Hin as [Hin|Hin]; [by left|].
        apply in_app_or in Hin as [Hin|Hin]; [|by destruct Hin as [|[]]].
        destruct (Hev _ _ Hin) as (_ & _ & Hres).
        unrevertible_failed Hres Hst. done.
    + apply compareWithBest_spec in Hs as (Hr & Herr & Hout & Happ).
      rewrite Hr, Herr. repeat split; try done.
      intros tx rc Hin Hst. apply Happ in Hin.
        apply in_app_or in Hin as [Hin|Hin]; [by left|].
        destruct (Hev _ _ Hin) as (_ & _ & Hres).
        unrevertible_failed Hres Hst. done.
  - simplify_eq. simpl. repeat split; try done.
    + left. apply failed_kept.
    + intros tx rc Hin Hst.
      apply in_app_or in Hin as [Hin|Hin]; [by left|].
      apply in_app_or in Hin as [Hin|Hin]; [|by destruct Hin as [|[]]].
      destruct (Hev _ _ Hin) as (_ & _ & Hres).
      unrevertible_failed Hres Hst.
      injection Hres as ->. right. split; [done|].
      apply in_or_app. right. apply in_or_app. right. by left.
Qed.

(** ** The reward checkpoints *)

Lemma updatePackReward_spec isRawBid r e :
  env r = Some e ->
  exists r', updatePackReward SystemAddress isRawBid r = Some r' /\
    packedBlockRewardPreBEP95Final r' = Some (GetBalance (state e) SystemAddress) /\
    packedBlockRewardPreBEP95Builder r' =
      (if isRawBid then Some (GetBalance (state e) SystemAddress)
       else packedBlockRewardPreBEP95Builder r) /\
    bid r' = bid r /\ env r' = env r /\ directBribe r' = directBribe r.
Proof.
  intros He. unfold updatePackReward. rewrite He.
  eexists. split; [reflexivity|]. simpl. by destruct isRawBid.
Qed.

Lemma updatePackReward_Some isRawBid r r' :
  updatePackReward SystemAddress isRawBid r = Some r' ->
  exists e, env r = Some e.
Proof.
  unfold updatePackReward. destruct (env r); [eauto|done].
Qed.

(** The greedy merge leaves the builder's packed reward alone, and the
    final packed reward is the balance of the system address in the state
    the runtime ends with. *)
Lemma greedyMerge_spec b r r2 e :
  greedyMerge b r = Some r2 ->
  env r = Some e ->
  packedBlockRewardPreBEP95Final r = Some (GetBalance (state e) SystemAddress) ->
  bid r2 = bid r /\ directBribe r2 = directBribe r /\
  packedBlockRewardPreBEP95Builder r2 = packedBlockRewardPreBEP95Builder r /\
  exists e2, env r2 = Some e2 /\
    packedBlockRewardPreBEP95Final r2 = Some (GetBalance (state e2) SystemAddress).
Proof.
  unfold greedyMerge. intros Hg He Hfinal.
  destruct (GreedyMergeTx (config b)); [|simplify_eq; eauto 10].
  rewrite He in Hg.
  destruct (Delay 1 (header e)) as [d|]; [|simplify_eq; eauto 10].
  destruct (0 <? d); [|simplify_eq; eauto 10].
  destruct (fillTransactions e _) as [e1 fillErr].
  destruct (updatePackReward_spec false (withEnv r e1) e1 eq_refl)
    as (r' & Hu & Hf & Hb & Hbid & Henv & Hbribe).
  rewrite Hu in Hg. simplify_eq. rewrite Hb, Hbid, Hbribe, Henv. simpl.
  eauto 10.
Qed.

Lemma checkReward_spec b r payBidTx evs res :
  checkReward b r payBidTx evs = Some res ->
  exists e, env r = Some e /\
  bid (srRuntime res) = bid r /\
  packedBlockRewardPreBEP95Builder (srRuntime res) =
    Some (GetBalance (state e) SystemAddress) /\
  is_Some (packedBlockRewardPreBEP95Final (srRuntime res)) /\
  (bestBidKept b res \/ bestBidWon b res) /\
  (is_Some (srErr res) -> srSim res = b) /\
  (forall tx rc, In (EvApplyTransaction tx (inl rc)) (srEvents res) ->
     Status rc = ReceiptStatusFailed ->
     In (EvApplyTransaction tx (inl rc)) evs \/
     (srErr res = Some "invalid tx in bid, no revertible transaction failed" /\
      In (EvLog "BidSimulator: failed to commit tx"
            (Some "no revertible transaction failed")) (srEvents res))).
Proof.
  unfold checkReward. intros Hc.
  destruct (updatePackReward SystemAddress true r) as [r1|] eqn:Hu; [|done].
  destruct (updatePackReward_Some _ _ _ Hu) as [e He]. exists e.
  destruct (updatePackReward_spec true r e He)
    as (r1' & Hu' & Hf & Hb & Hbid & Henv & Hbribe).
  rewrite Hu in Hu'. injection Hu' as <-.
  split; [done|].
  destruct (validReward r1) as [[|]|]; [| |done].
  - destruct (greedyMerge b r1) as [r2|] eqn:Hg; [|done].
    destruct (greedyMerge_spec b r1 r2 e Hg) as (Hb2 & _ & Hpb2 & e2 & He2 & Hf2).
    { by rewrite Henv. }
    { done. }
    apply settle_spec in Hc as (Hb3 & Hpb3 & Hpf3 & Hout & Herr & Hev).
    rewrite Hb3, Hpb3, Hpf3, Hb2, Hpb2, Hf2, Hb, Hbid. eauto 10.
  - simplify_eq. simpl. rewrite Hf, Hb, Hbid.
    repeat split; eauto using failed_kept.
Qed.

(** ** The whole routine *)

Lemma simBidBody_spec b r payBidTx res :
  simBidBody b r payBidTx = Some res ->
  bid (srRuntime res) = bid r /\
  (bestBidKept b res \/ bestBidWon b res) /\
  (is_Some (srErr res) -> srSim res = b) /\
  (srSuccess res = true ->
     is_Some (packedBlockRewardPreBEP95Builder (srRuntime res)) /\
     is_Some (packedBlockRewardPreBEP95Final (srRuntime res))) /\
  (forall tx rc, In (EvApplyTransaction tx (inl rc)) (srEvents res) ->
     Status rc = ReceiptStatusFailed ->
     txHash tx ∈ UnRevertible (bid r) ->
     srErr res = Some "invalid tx in bid, no revertible transaction failed" /\
     In (EvLog "BidSimulator: failed to commit tx"
           (Some "no revertible transaction failed")) (srEvents res)).
Proof.
  unfold simBidBody. intros Hb.
  destruct (prepareWork _ _) as [e0|msg].
  - destruct (noTime _).
    + simplify_eq. simpl.
      split; [done|]. split; [by left|]. split; [done|]. split; [done|].
      intros tx rc Hin. simpl in Hin. intuition discriminate.
    + destruct (_ <? GasUsed (bid r)).
      * simplify_eq. simpl.
        split; [done|]. split; [left; apply failed_kept|].
        split; [done|]. split; [done|]. intros tx rc [].
      * destruct (replayTxs _ _ _ _ _) as [[[r2 [msg|]] evs]|] eqn:Hr; [| |done].
        -- simplify_eq. simpl.
           pose proof (replayTxs_frame _ _ _ _ _ _ _ _ Hr) as (Hbid & _).
           split; [done|]. split; [left; apply failed_kept|].
           split; [done|]. split; [done|].
           intros tx rc Hin Hst Hun.
           destruct (replayTxs_unrevertible _ _ _ _ _ _ _ _ _ _ Hr Hin Hst)
             as [Hm Hlog]; [done|].
           by rewrite Hm.
        -- pose proof (replayTxs_frame _ _ _ _ _ _ _ _ Hr) as (Hbid & _).
           apply checkReward_spec in Hb
             as (e & He & Hbid' & Hpb & Hpf & Hout & Herr & Hev).
           rewrite Hbid', Hpb.
           split; [done|]. split; [done|]. split; [done|].
           split; [eauto|].
           intros tx rc Hin Hst Hun.
           destruct (Hev _ _ Hin Hst) as [Hin'|[? ?]]; [|done].
           by destruct (replayTxs_unrevertible _ _ _ _ _ _ _ _ _ _ Hr Hin' Hst).
  - simplify_eq. simpl.
    split; [done|]. split; [by left|]. split; [done|]. split; [done|].
    intros tx rc [].
Qed.

Lemma simBidDeferred_spec parentHash res :
  srRuntime (simBidDeferred parentHash res) = srRuntime res /\
  srErr (simBidDeferred parentHash res) = srErr res /\
  srSuccess (simBidDeferred parentHash res) = srSuccess res /\
  bestBid (srSim (simBidDeferred parentHash res)) = bestBid (srSim res) /\
  pending (srSim (simBidDeferred parentHash res)) = pending (srSim res) /\
  (forall ev, In ev (srEvents res) -> In ev (srEvents (simBidDeferred parentHash res))) /\
  (forall tx rs, In (EvApplyTransaction tx rs) (srEvents (simBidDeferred parentHash res)) ->
                 In (EvApplyTransaction tx rs) (srEvents res)) /\
  (forall msg, srErr res = Some msg ->
     In (EvLog "BidSimulator: simulation failed" (Some msg))
        (srEvents (simBidDeferred parentHash res)) /\
     In (EvReportIssue (srRuntime res) msg)
        (srEvents (simBidDeferred parentHash res))).
Proof.
  unfold simBidDeferred. simpl.
  split; [done|]. split; [done|]. split; [done|].
  split; [destruct (srSuccess res); [by rewrite recommit_bestBid|done]|].
  split; [destruct (srSuccess res); [by rewrite recommit_pending|done]|].
  split; [intros ev Hin; apply in_or_app; by left|].
  split.
  - intros tx rs Hin. apply in_app_or in Hin as [Hin|Hin]; [done|].
    apply in_app_or in Hin as [Hin|Hin].
    { destruct (env (srRuntime res)); [|done].
      destruct (_ || _); [|done]. simpl in Hin. intuition discriminate. }
    apply in_app_or in Hin as [Hin|Hin].
    { destruct (srErr res); [|done]. simpl in Hin. intuition discriminate. }
    simpl in Hin. intuition discriminate.
  - intros msg ->. split; apply in_or_app; right; apply in_or_app; right;
      apply in_or_app; left; simpl; auto.
Qed.

Lemma compareWithBest_pending b r evs res :
  compareWithBest b r evs = Some res -> pending (srSim res) = pending b.
Proof.
  unfold compareWithBest, SetBestBid. intros Hc.
  repeat case_match; simplify_eq; simpl; try done; apply recommit_pending.
Qed.

Lemma settle_pending b r payBidTx evs res :
  settle b r payBidTx evs = Some res -> pending (srSim res) = pending b.
Proof.
  unfold settle. intros Hs.
  repeat case_match; simplify_eq; simpl; try done.
  by eapply compareWithBest_pending.
Qed.

Lemma simBidBody_pending b r payBidTx res :
  simBidBody b r payBidTx = Some res -> pending (srSim res) = pending b.
Proof.
  unfold simBidBody, checkReward. intros Hs.
  repeat case_match; simplify_eq; simpl; try done.
  by eapply settle_pending.
Qed.

(** The simulation never writes to the pending ledger. *)
Lemma simBid_pending b r res :
  simBid b r = Some res -> pending (srSim res) = pending b.
Proof.
  unfold simBid. intros Hs.
  repeat case_match; simplify_eq; simpl; try done.
  match goal with H : simBidBody _ _ _ = Some ?r0 |- _ =>
    destruct (simBidDeferred_spec (ParentHash (bid r)) r0)
      as (_ & _ & _ & _ & Hp & _);
    apply simBidBody_pending in H
  end.
  unfold simBidDeferred in Hp. simpl in Hp. by rewrite Hp.
Qed.

Lemma simBid_spec b r res :
  simBid b r = Some res ->
  bid (srRuntime res) = bid r /\
  (bestBidKept b res \/ bestBidWon b res) /\
  (srSuccess res = true ->
     is_Some (packedBlockRewardPreBEP95Builder (srRuntime res)) /\
     is_Some (packedBlockRewardPreBEP95Final (srRuntime res))) /\
  (forall msg, srErr res = Some msg ->
     In (EvLog "BidSimulator: simulation failed" (Some msg)) (srEvents res) /\
     In (EvReportIssue (srRuntime res) msg) (srEvents res)) /\
  (forall tx rc, In (EvApplyTransaction tx (inl rc)) (srEvents res) ->
     Status rc = ReceiptStatusFailed ->
     txHash tx ∈ UnRevertible (bid r) ->
     srErr res = Some "invalid tx in bid, no revertible transaction failed" /\
     In (EvLog "BidSimulator: failed to commit tx"
           (Some "no revertible transaction failed")) (srEvents res)).
Proof.
  unfold simBid. intros Hs.
  destruct (negb (isRunning b) || negb (receivingBid b)).
  { simplify_eq. simpl.
    split; [done|]. split; [by left|]. split; [done|].
    split; [done|]. intros tx rc []. }
  destruct (last (Txs (bid r))) as [payBidTx|]; [|done].
  destruct (simBidBody _ r payBidTx) as [res0|] eqn:Hbody; [|done].
  injection Hs as <-.
  apply simBidBody_spec in Hbody as (Hbid & Hout & Herr & Hpacked & Hev).
  destruct (simBidDeferred_spec (ParentHash (bid r)) res0)
    as (Hr & He & Hsucc & Hbest & Hpend & Hmono & Happ & Hrep).
  rewrite Hr, He, Hsucc.
  split; [done|]. split.
  { destruct Hout as [[Hf Hk]|(Hn & Ht & Hins & Hcmp)].
    - left. split; [by rewrite Hsucc|]. by rewrite Hbest, Hk.
    - right. unfold bestBidWon. rewrite Hr, He, Hsucc, Hbest. done. }
  split; [done|]. split; [done|].
  intros tx rc Hin Hst Hun. apply Happ in Hin.
  destruct (Hev _ _ Hin Hst Hun) as [Hm Hlog]. split; [done|]. by apply Hmono.
Qed.

(** The table keeps holding simulated bids only. *)
Lemma simBid_bestBidPacked b r res :
  bestBidPacked b -> simBid b r = Some res -> bestBidPacked (srSim res).
Proof.
  intros Hinv Hs.
  apply simBid_spec in Hs as (_ & Hout & Hpacked & _).
  intros parentHash best.
  destruct Hout as [[_ ->]|(_ & Ht & -> & _)]; [apply Hinv|].
  destruct (decide (ParentHash (bid (srRuntime res)) = parentHash)) as [<-|Hne].
  - rewrite lookup_insert_eq. intros [= <-]. by apply Hpacked.
  - rewrite lookup_insert_ne by done. apply Hinv.
Qed.

Lemma simBid_bestBid_step b r res parentHash old :
  simBid b r = Some res ->
  bestBid b !! parentHash = Some old ->
  bestBid (srSim res) !! parentHash = Some old \/
  exists t t',
    bestBid (srSim res) !! parentHash = Some (srRuntime res) /\
    parentHash = ParentHash (bid r) /\
    totalReward old = Some t /\ totalReward (srRuntime res) = Some t' /\
    t < t'.
Proof.
  intros Hs Hold.
  apply simBid_spec in Hs as (Hbid & Hout & _).
  destruct Hout as [[_ ->]|(_ & _ & -> & Hcmp)]; [by left|].
  rewrite Hbid in *.
  destruct (decide (ParentHash (bid r) = parentHash)) as [<-|Hne].
  - right. rewrite lookup_insert_eq.
    destruct Hcmp as [Hnone|(best & t & t' & Hbest & Ht & Ht' & Hlt)];
      [congruence|].
    rewrite Hold in Hbest. injection Hbest as <-. eauto 10.
  - left. by rewrite lookup_insert_ne.
Qed.

Lemma newBidSimulator_bestBidPacked cfg :
  bestBidPacked (newBidSimulator cfg).
Proof. intros parentHash best Hbest. simpl in Hbest. by rewrite lookup_empty in Hbest. Qed.

Lemma CheckPending_bestBid b blockNumber builder bidHash :
  bestBid (CheckPending b blockNumber builder bidHash).1 = bestBid b.
Proof. by rewrite CheckPending_pending. Qed.

Lemma AddPending_bestBid b blockNumber builder bidHash b' :
  AddPending b blockNumber builder bidHash = Some b' -> bestBid b' = bestBid b.
Proof. by intros (m & hs & _ & _ & ->)%AddPending_Some. Qed.

(** C2: across a simulation the best bid of a parent hash either stays or
    is replaced by the bid that was simulated, and then the new entry's
    [totalReward] is strictly greater than the old entry's: for a fixed
    parent hash the [totalReward] of the table's entry strictly increases
    with every replacement. *)
Theorem simBid_bestBid_increasing (b : bidSimulator) (r : BidRuntime)
    (res : simResult) (parentHash : Hash) (old : BidRuntime) :
  simBid b r = Some res ->
  bestBid b !! parentHash = Some old ->
  bestBid (srSim res) !! parentHash = Some old \/
  exists t t',
    bestBid (srSim res) !! parentHash = Some (srRuntime res) /\
    parentHash = ParentHash (bid r) /\
    totalReward old = Some t /\ totalReward (srRuntime res) = Some t' /\
    t < t'.
Proof.
  intros Hs Hold. exact (simBid_bestBid_step _ _ _ _ _ Hs Hold).
Qed.

(** Over any number of simulations the best bid of a parent hash never
    loses [totalReward], and a different entry has strictly more. *)
Lemma simulated_bestBid_monotone b b' :
  simulated b b' ->
  bestBidPacked b ->
  forall parentHash old, bestBid b !! parentHash = Some old ->
  exists new t t',
    bestBid b' !! parentHash = Some new /\
    totalReward old = Some t /\ totalReward new = Some t' /\
    (new = old \/ t < t').
Proof.
  induction 1 as [b|b r res b' Hstep Hrest IH]; intros Hinv parentHash old Hold.
  - destruct (Hinv _ _ Hold) as [_ [p Hp]].
    exists old, (calcRewardAfterBEP95 p + directBribe old),
      (calcRewardAfterBEP95 p + directBribe old).
    unfold totalReward, blockReward. rewrite Hp. eauto.
  - pose proof (simBid_bestBidPacked _ _ _ Hinv Hstep) as Hinv'.
    destruct (simBid_bestBid_step _ _ _ _ _ Hstep Hold)
      as [Hkeep|(t & t' & Hnew & _ & Ht & Ht' & Hlt)].
    + apply (IH Hinv' _ _ Hkeep).
    + destruct (IH Hinv' _ _ Hnew) as (new & u & u' & Hb' & Hu & Hu' & Hcmp).
      rewrite Ht' in Hu. injection Hu as <-.
      exists new, t, u'. split; [done|]. split; [done|]. split; [done|].
      right. destruct Hcmp as [->|Hlt']; [|lia].
      rewrite Ht' in Hu'. injection Hu' as <-. done.
Qed.

(** ** The routine returns *)







(** C6: when the consensus engine answers the delay query with no
    duration, or with a duration that is not positive, [simBid] returns
    with its error unset, so that no issue is reported, and with the
    best-bid table as it was; what it leaves is the tables without the
    bid's entry in the simulation slot, the discard of the prepared
    environment and the closing of the bid's [finished] channel. *)
Theorem simBid_no_time (b : bidSimulator) (r : BidRuntime) (e : environment)
    (payBidTx : Transaction) :
  isRunning b = true -> receivingBid b = true ->
  last (Txs (bid r)) = Some payBidTx ->
  prepareWork (ParentHash (bid r)) etherbase = inl e ->
  (Delay 0 (header e) = None \/ exists d, Delay 0 (header e) = Some d /\ d <= 0) ->
  exists res, simBid b r = Some res /\
    srErr res = None /\
    (forall r' msg, ~ In (EvReportIssue r' msg) (srEvents res)) /\
    bestBid (srSim res) = bestBid b /\
    srSim res = RemoveSimulatingBid b (ParentHash (bid r)) /\
    srEvents res =
      [EvLog "BidSimulator: abort commit, not enough time to simulate" None;
       EvDiscard e; EvCloseFinished (bid r)].
Proof.
  intros Hrun Hrecv Hlast Hprep Hdelay.
  assert (HnoTime : noTime (Delay 0 (header e)) = true).
  { destruct Hdelay as [->|(d & -> & Hd)]; [done|]. simpl. lia. }
  unfold simBid, simBidBody. rewrite Hrun, Hrecv, Hlast. simpl.
  rewrite Hprep, HnoTime.
  eexists. split; [reflexivity|]. simpl.
  split; [done|]. split.
  { intros r' msg Hin. intuition discriminate. }
  split; [done|]. split; [|done].
  unfold RemoveSimulatingBid, withSimulatingBid. simpl.
  by rewrite delete_insert_eq.
Qed.

(** C7 (as the code has it): when, in a simulation, the executor returns
    a receipt with failure status for a transaction whose hash is in the
    bid's unrevertible set, the simulation ends with the error
    "invalid tx in bid, no revertible transaction failed", which is the
    error of [commitTransaction] wrapped by [simBid]; this wrapped error is
    logged by the deferred function and handed to [reportIssue], the
    unwrapped one appears only in the log line of the failed commit, and
    the best-bid table is as before. *)
Theorem simBid_unrevertible_failed (b : bidSimulator) (r : BidRuntime)
    (res : simResult) (tx : Transaction) (rc : Receipt) :
  simBid b r = Some res ->
  In (EvApplyTransaction tx (inl rc)) (srEvents res) ->
  Status rc = ReceiptStatusFailed ->
  txHash tx ∈ UnRevertible (bid r) ->
  srErr res = Some "invalid tx in bid, no revertible transaction failed" /\
  srSuccess res = false /\
  In (EvReportIssue (srRuntime res)
        "invalid tx in bid, no revertible transaction failed") (srEvents res) /\
  In (EvLog "BidSimulator: simulation failed"
        (Some "invalid tx in bid, no revertible transaction failed"))
     (srEvents res) /\
  In (EvLog "BidSimulator: failed to commit tx"
        (Some "no revertible transaction failed")) (srEvents res) /\
  bestBid (srSim res) = bestBid b.
Proof.
  intros Hs Hin Hst Hun.
  apply simBid_spec in Hs as (_ & Hout & _ & Hrep & Hev).
  destruct (Hev _ _ Hin Hst Hun) as [Herr Hlog].
  destruct (Hrep _ Herr) as [Hlog' Hreport].
  destruct Hout as [[Hf Hk]|(Hn & _)]; [|congruence].
  done.
Qed.

(** C8: [updatePackReward] always stores the balance of the system address
    in the final packed reward; with [isRawBid] it stores a copy in the
    builder's packed reward as well, and without it leaves the builder's
    packed reward alone.  So after the raw-bid checkpoint the builder's
    packed reward stays at the balance read there, through the greedy merge
    (which updates the final packed reward to the balance of the merged
    state) and to the end of the simulation. *)
Theorem updatePackReward_frozen (isRawBid : bool) (r : BidRuntime)
    (e : environment) :
  env r = Some e ->
  exists r', updatePackReward SystemAddress isRawBid r = Some r' /\
    packedBlockRewardPreBEP95Final r' = Some (GetBalance (state e) SystemAddress) /\
    packedBlockRewardPreBEP95Builder r' =
      (if isRawBid then Some (GetBalance (state e) SystemAddress)
       else packedBlockRewardPreBEP95Builder r) /\
    (forall b r1 r2,
       updatePackReward SystemAddress true r = Some r1 ->
       greedyMerge b r1 = Some r2 ->
       packedBlockRewardPreBEP95Builder r2 =
         Some (GetBalance (state e) SystemAddress) /\
       exists e2, env r2 = Some e2 /\
         packedBlockRewardPreBEP95Final r2 =
           Some (GetBalance (state e2) SystemAddress)) /\
    (forall b payBidTx evs res,
       checkReward b r payBidTx evs = Some res ->
       packedBlockRewardPreBEP95Builder (srRuntime res) =
         Some (GetBalance (state e) SystemAddress)).
Proof.
  intros He.
  destruct (updatePackReward_spec isRawBid r e He)
    as (r' & Hu & Hf & Hb & _).
  exists r'. split; [done|]. split; [done|]. split; [done|]. split.
  - intros b r1 r2 Hu1 Hg.
    destruct (updatePackReward_spec true r e He)
      as (r1' & Hu1' & Hf1 & Hb1 & _ & Henv1 & _).
    rewrite Hu1 in Hu1'. injection Hu1' as <-.
    destruct (greedyMerge_spec b r1 r2 e Hg) as (_ & _ & Hpb & e2 & He2 & Hf2);
      [by rewrite Henv1|done|].
    rewrite Hpb, Hb1. eauto.
  - intros b payBidTx evs res Hc.
    apply checkReward_spec in Hc as (e' & He' & _ & Hpb & _).
    rewrite He in He'. by injection He' as <-.
Qed.

(** ** The arbiter *)







End SimulationFacts.

(** * The properties at work *)

Example burn_of_a_million : calcRewardAfterBEP95 1000000 = 990000.
Proof. reflexivity. Qed.

Example burn_rounds_down : calcRewardAfterBEP95 101 = 99.
Proof. reflexivity. Qed.

(** Bid A wins the empty slot; the builder's share is 990010, and the
    greedy merge lifts the total to 1138510. *)
Example first_bid_wins :
  srSuccess Demo.resA = true /\
  totalRewardFromBuilder (srRuntime Demo.resA) = Some 990010 /\
  packedBlockRewardPreBEP95Builder (srRuntime Demo.resA) = Some 1000000 /\
  packedBlockRewardPreBEP95Final (srRuntime Demo.resA) = Some 1150000 /\
  totalReward (srRuntime Demo.resA) = Some 1138510.
Proof. vm_compute. repeat split. Qed.

(** Three bids of a builder for a block are admitted, the fourth is not,
    and a repeated hash is a duplicate. *)
Example quota_of_three :
  let b1 := (Demo.checkThenAdd Demo.started 100 1 501).1 in
  let b2 := (Demo.checkThenAdd b1 100 1 502).1 in
  let b3 := (Demo.checkThenAdd b2 100 1 503).1 in
  (Demo.checkThenAdd Demo.started 100 1 501).2 = None /\
  (Demo.checkThenAdd b1 100 1 502).2 = None /\
  (Demo.checkThenAdd b2 100 1 503).2 = None /\
  (Demo.checkThenAdd b3 100 1 504).2 = Some "too many bids" /\
  (Demo.checkThenAdd b2 100 1 501).2 = Some "bid already exists".
Proof. vm_compute. repeat split. Qed.

(** ** Witnesses *)


Lemma simBid_bestBid_increasing_witness :
  bestBid (srSim Demo.resB) !! 42%N = Some (srRuntime Demo.resA) \/
  exists t t',
    bestBid (srSim Demo.resB) !! 42%N = Some (srRuntime Demo.resB) /\
    42%N = ParentHash (bid (newBidRuntime Demo.bidB)) /\
    totalReward (srRuntime Demo.resA) = Some t /\
    totalReward (srRuntime Demo.resB) = Some t' /\
    t < t'.
Proof.
  apply (@simBid_bestBid_increasing Demo.params Demo.worker Demo.engine
           Demo.executor Demo.quiet Demo.afterA (newBidRuntime Demo.bidB)
           Demo.resB 42%N (srRuntime Demo.resA)); vm_compute; reflexivity.
Defined.

Lemma calcRewardAfterBEP95_floor_witness :
  calcRewardAfterBEP95 1000000 = 990000 /\
  expectedRewardFromBuilder (newBidRuntime Demo.bidA) = 990010.
Proof.
  destruct (calcRewardAfterBEP95_floor 1000000 (newBidRuntime Demo.bidA))
    as (_ & Hdiv & _ & Hexp & _); [lia|].
  split; [rewrite Hdiv; reflexivity|rewrite Hexp; reflexivity].
Defined.

Lemma validReward_total_ge_expected_witness :
  exists p,
    packedBlockRewardPreBEP95Builder (srRuntime Demo.resA) = Some p /\
    totalRewardFromBuilder (srRuntime Demo.resA) =
      Some (calcRewardAfterBEP95 p + directBribe (srRuntime Demo.resA)) /\
    calcRewardAfterBEP95 (GasFee (bid (srRuntime Demo.resA))) +
      NontaxableFee (bid (srRuntime Demo.resA))
    <= calcRewardAfterBEP95 p + directBribe (srRuntime Demo.resA).
Proof.
  apply (validReward_total_ge_expected (srRuntime Demo.resA)).
  vm_compute. reflexivity.
Defined.

Lemma CheckPending_verdict_witness :
  (CheckPending Demo.twoBids 100 1 501).2 = Some "bid already exists" /\
  (CheckPending Demo.twoBids 100 1 503).2 = None.
Proof.
  split.
  - apply (CheckPending_verdict Demo.twoBids 100 1 501).
    refine (bool_decide_unpack _ _). vm_compute. exact I.
  - apply (CheckPending_verdict Demo.twoBids 100 1 503).
    + refine (bool_decide_unpack _ _). vm_compute. exact I.
    + vm_compute. reflexivity.
Defined.

Lemma simBid_no_time_witness :
  exists res,
    @simBid Demo.params Demo.worker Demo.lateEngine Demo.executor Demo.quiet
      Demo.afterA (newBidRuntime Demo.bidB) = Some res /\
    srErr res = None /\
    bestBid (srSim res) = bestBid Demo.afterA /\
    srEvents res =
      [EvLog "BidSimulator: abort commit, not enough time to simulate" None;
       EvDiscard Demo.freshEnv; EvCloseFinished Demo.bidB].
Proof.
  destruct (@simBid_no_time Demo.params Demo.worker Demo.lateEngine Demo.executor
              Demo.quiet Demo.afterA (newBidRuntime Demo.bidB) Demo.freshEnv
              (Demo.payBid 22) eq_refl eq_refl eq_refl eq_refl)
    as (res & Hres & Herr & _ & Hbest & _ & Hevents).
  - right. exists 0. split; [reflexivity|lia].
  - exists res. repeat split; assumption.
Defined.

Lemma simBid_unrevertible_failed_witness :
  srErr Demo.resC = Some "invalid tx in bid, no revertible transaction failed" /\
  srSuccess Demo.resC = false /\
  In (EvReportIssue (srRuntime Demo.resC)
        "invalid tx in bid, no revertible transaction failed")
     (srEvents Demo.resC) /\
  In (EvLog "BidSimulator: simulation failed"
        (Some "invalid tx in bid, no revertible transaction failed"))
     (srEvents Demo.resC) /\
  In (EvLog "BidSimulator: failed to commit tx"
        (Some "no revertible transaction failed")) (srEvents Demo.resC) /\
  bestBid (srSim Demo.resC) = bestBid Demo.afterA.
Proof.
  apply (@simBid_unrevertible_failed Demo.params Demo.worker Demo.engine
           Demo.executor Demo.quiet Demo.afterA (newBidRuntime Demo.bidC)
           Demo.resC (Demo.transfer 13 8 0)
           {| Status := ReceiptStatusFailed; rcBlobGasUsed := 0 |}).
  - vm_compute. reflexivity.
  - vm_compute. left. reflexivity.
  - reflexivity.
  - refine (bool_decide_unpack _ _). vm_compute. exact I.
Defined.

Lemma updatePackReward_frozen_witness :
  exists r',
    updatePackReward 65534%N false Demo.atCheckpoint = Some r' /\
    packedBlockRewardPreBEP95Final r' = Some 1000000 /\
    packedBlockRewardPreBEP95Builder r' = None.
Proof.
  destruct (updatePackReward_frozen (P:=Demo.params) (W:=Demo.worker)
              (E:=Demo.engine) (X:=Demo.executor)
              false Demo.atCheckpoint _ eq_refl)
    as (r' & Hupdate & Hfinal & Hbuilder & _).
  exists r'. split; [exact Hupdate|]. split; [exact Hfinal|exact Hbuilder].
Defined.

Lemma AddPending_needs_entry_witness :
  AddPending Demo.started 100 1 1001 = None /\
  sendBid Demo.started Demo.bidA 0 None = None.
Proof.
  destruct (AddPending_needs_entry Demo.started 100 1 1001)
    as (_ & Hnone & _ & _ & Hsend).
  split.
  - apply Hnone. reflexivity.
  - apply Hsend; [reflexivity|reflexivity|vm_compute; lia|reflexivity].
Defined.

Lemma CheckPending_inserts_entries_witness :
  exists byBuilder,
    pending (CheckPending Demo.started 100 1 1001).1 !! 100%N = Some byBuilder /\
    byBuilder !! 1%N = Some (∅ : gset N).
Proof.
  apply (CheckPending_inserts_entries Demo.started
           (CheckPending Demo.started 100 1 1001).1 100 1 1001
           (CheckPending Demo.started 100 1 1001).2).
  - reflexivity.
  - apply surjective_pairing.
Defined.

(** ** The message of an unrevertible failure *)

(** C7 as the spec words it fails on bid C: the error that the simulation
    ends with, and that goes to [reportIssue], is not
    "no revertible transaction failed" but that message wrapped. *)
Lemma simBid_unrevertible_message_counterexample :
  @simBid Demo.params Demo.worker Demo.engine Demo.executor Demo.quiet
    Demo.afterA (newBidRuntime Demo.bidC) = Some Demo.resC /\
  In (EvApplyTransaction (Demo.transfer 13 8 0)
        (inl {| Status := ReceiptStatusFailed; rcBlobGasUsed := 0 |}))
     (srEvents Demo.resC) /\
  txHash (Demo.transfer 13 8 0) ∈ UnRevertible Demo.bidC /\
  srErr Demo.resC <> Some "no revertible transaction failed" /\
  (forall r, ~ In (EvReportIssue r "no revertible transaction failed")
                  (srEvents Demo.resC)).
Proof.
  split; [vm_compute; reflexivity|].
  split; [vm_compute; left; reflexivity|].
  split; [refine (bool_decide_unpack _ _); vm_compute; exact I|].
  split; [vm_compute; discriminate|].
  intros r Hin. vm_compute in Hin.
  repeat (destruct Hin as [Hin|Hin]; [discriminate Hin|]).
  exact Hin.
Qed.

(** * The rest of the simulator *)

Section MoreFacts.

Context {P : Params} {W : bidWorker} {E : Engine} {X : Executor} {C : Channels}.

(** ** What a simulation touches *)

Lemma retabled_id b : retabled b (bestBid b) (newBidCh b) = b.
Proof. by destruct b. Qed.

Lemma recommit_shape b bd : exists ch, recommit b bd = retabled b (bestBid b) ch.
Proof.
  unfold recommit, trySend. repeat case_decide.
  - exists (newBidCh b). by rewrite retabled_id.
  - exists (newBidCh b ++ [{| pkgBid := bd; feedback := None |}]). by destruct b.
  - exists (newBidCh b). by rewrite retabled_id.
Qed.

Lemma compareWithBest_shape b r evs res :
  compareWithBest b r evs = Some res ->
  exists best ch, srSim res = retabled b best ch.
Proof.
  unfold compareWithBest, SetBestBid. intros Hc.
  destruct (GetBestBid b (ParentHash (bid r))) as [last|].
  - destruct (totalReward r) as [t'|]; [|done].
    destruct (totalReward last) as [t|]; [|done].
    destruct (0 <? big.Cmp t' t); simplify_eq; simpl.
    + exists (<[ParentHash (bid r) := r]> (bestBid b)), (newBidCh b).
      by destruct b.
    + destruct (recommit_shape b (bid last)) as [ch ->]. eauto.
  - simplify_eq. simpl.
    exists (<[ParentHash (bid r) := r]> (bestBid b)), (newBidCh b).
    by destruct b.
Qed.

Lemma simBidBody_shape b r payBidTx res :
  simBidBody b r payBidTx = Some res ->
  exists best ch, srSim res = retabled b best ch.
Proof.
  intros Hs.
  destruct (simBidBody_spec _ _ _ _ Hs) as (_ & _ & Herr & _).
  destruct (srErr res) as [msg|] eqn:Hmsg.
  { exists (bestBid b), (newBidCh b). rewrite retabled_id. apply Herr. eauto. }
  clear Herr. revert Hs Hmsg.
  unfold simBidBody, checkReward, settle, failed. intros Hs Hmsg.
  repeat case_match; simplify_eq; simpl in *; try discriminate;
    try (exists (bestBid b), (newBidCh b); by rewrite retabled_id).
  by eapply compareWithBest_shape.
Qed.

Lemma simBid_shape b r res :
  simBid b r = Some res ->
  (negb (isRunning b) || negb (receivingBid b) = true /\ srSim res = b /\
   srEvents res = [] /\ srRuntime res = r /\ srErr res = None /\
   srSuccess res = false) \/
  (isRunning b = true /\ receivingBid b = true /\
   exists best ch,
     srSim res =
       retabled (RemoveSimulatingBid b (ParentHash (bid r))) best ch).
Proof.
  unfold simBid. intros Hs.
  destruct (negb (isRunning b) || negb (receivingBid b)) eqn:Hguard.
  { left. by simplify_eq. }
  right. apply orb_false_elim in Hguard as [Hrun Hrecv].
  apply negb_false_iff in Hrun, Hrecv.
  split; [done|]. split; [done|].
  destruct (last (Txs (bid r))) as [payBidTx|]; [|done].
  destruct (simBidBody _ r payBidTx) as [res0|] eqn:Hbody; [|done].
  injection Hs as <-.
  apply simBidBody_shape in Hbody as (best & ch & Hshape).
  unfold simBidDeferred. simpl. rewrite Hshape.
  destruct (srSuccess res0).
  - destruct (recommit_shape
                (RemoveSimulatingBid
                   (retabled (SetSimulatingBid b (ParentHash (bid r)) r) best ch)
                   (ParentHash (bid r))) (bid (srRuntime res0))) as [ch' ->].
    exists best, ch'. unfold retabled, RemoveSimulatingBid, withNewBidCh,
      withBestBid, withSimulatingBid. simpl. by rewrite delete_insert_eq.
  - exists best, ch. unfold retabled, RemoveSimulatingBid, withNewBidCh,
      withBestBid, withSimulatingBid. simpl. by rewrite delete_insert_eq.
Qed.


(** X2: whatever its outcome, a simulation leaves the configuration, the
    two switches and the pending ledger as they were; of the simulation
    slot it changes the entry of the bid's parent hash only, which is gone
    when the routine has passed its guard; every other change is to the
    best-bid table and to [newBidCh]. *)
Theorem simBid_frame (b : bidSimulator) (r : BidRuntime) (res : simResult) :
  simBid b r = Some res ->
  config (srSim res) = config b /\
  running (srSim res) = running b /\
  bidReceiving (srSim res) = bidReceiving b /\
  pending (srSim res) = pending b /\
  (forall parentHash, parentHash <> ParentHash (bid r) ->
     simulatingBid (srSim res) !! parentHash = simulatingBid b !! parentHash) /\
  (isRunning b = true -> receivingBid b = true ->
     simulatingBid (srSim res) !! ParentHash (bid r) = None) /\
  bid (srRuntime res) = bid r.
Proof.
  intros Hs.
  pose proof (simBid_spec _ _ _ Hs) as (Hbid & _).
  apply simBid_shape in Hs
    as [(Hguard & -> & _)|(Hrun & Hrecv & best & ch & ->)].
  - repeat split; try done.
    intros Hrun Hrecv. by rewrite Hrun, Hrecv in Hguard.
  - simpl. repeat split; try done.
    + intros parentHash Hne. by rewrite lookup_delete_ne.
    + intros _ _. apply lookup_delete_eq.
Qed.

(** ** What a simulation releases and reports *)

Lemma commitTransaction_kinds r tx unRevertible r' res evs :
  commitTransaction r tx unRevertible = Some (r', res, evs) ->
  evs = [] \/ exists rs, evs = [EvApplyTransaction tx rs].
Proof.
  unfold commitTransaction. intros Hc.
  repeat case_match; simplify_eq; eauto.
Qed.

Lemma commitTransaction_effects r tx unRevertible r' res evs :
  commitTransaction r tx unRevertible = Some (r', res, evs) ->
  List.filter isEffect evs = [].
Proof.
  intros [->|[rs ->]]%commitTransaction_kinds; reflexivity.
Qed.

Lemma replayTxs_effects eoas bidTxLen txs : forall i r r' err evs,
  replayTxs eoas bidTxLen i txs r = Some (r', err, evs) ->
  List.filter isEffect evs = [].
Proof.
  induction txs as [|tx rest IH]; intros i r r' err evs Hr; simpl in Hr.
  - by simplify_eq.
  - destruct (poll i); [|by simplify_eq..].
    destruct (env r) as [e|]; [|done].
    case_decide; [by simplify_eq|].
    destruct (commitTransaction r tx _) as [[[r1 res] evs1]|] eqn:Hc; [|done].
    apply commitTransaction_effects in Hc.
    destruct res as [receipt|msg].
    + destruct (replayTxs eoas bidTxLen (S i) rest _) as [[[r3 err3] evs3]|] eqn:Hrest;
        [|done].
      simplify_eq. rewrite List.filter_app, Hc. simpl. by eapply IH.
    + simplify_eq. rewrite List.filter_app, Hc. reflexivity.
Qed.

Lemma compareWithBest_effects b r evs res :
  compareWithBest b r evs = Some res ->
  List.filter isEffect (srEvents res) =
  List.filter isEffect evs ++
    (if srSuccess res then replacedDiscard b (ParentHash (bid r)) else []).
Proof.
  unfold compareWithBest, SetBestBid, replacedDiscard, GetBestBid. intros Hc.
  destruct (bestBid b !! ParentHash (bid r)) as [last|].
  - destruct (totalReward r) as [t'|]; [|done].
    destruct (totalReward last) as [t|]; [|done].
    destruct (0 <? big.Cmp t' t); simplify_eq; simpl;
      rewrite !List.filter_app; f_equal;
      case_decide; simpl; try done; by destruct (env last).
  - simplify_eq. simpl. rewrite List.filter_app. simpl. done.
Qed.

Lemma settle_effects b r payBidTx evs res :
  settle b r payBidTx evs = Some res ->
  List.filter isEffect (srEvents res) =
  List.filter isEffect evs ++
    (if srSuccess res then replacedDiscard b (ParentHash (bid r)) else []).
Proof.
  unfold settle. intros Hs.
  destruct (env r) as [e|]; [|done].
  destruct (gasPool e) as [g|]; [|done].
  destruct (commitTransaction _ payBidTx true) as [[[r2 cres] evs1]|] eqn:Hc;
    [|done].
  pose proof (commitTransaction_effects _ _ _ _ _ _ Hc) as Hnone.
  pose proof (commitTransaction_frame _ _ _ _ _ _ Hc) as (Hbid & _).
  simpl in Hbid.
  destruct cres as [receipt|msg].
  - destruct (env r2) as [e2|]; [|done].
    destruct (MaxMessageSize <? _).
    + simplify_eq. simpl. rewrite !List.filter_app, Hnone. reflexivity.
    + apply compareWithBest_effects in Hs. rewrite Hs, Hbid.
      rewrite List.filter_app, Hnone, app_nil_r. reflexivity.
  - simplify_eq. simpl. rewrite !List.filter_app, Hnone. reflexivity.
Qed.

Lemma checkReward_effects b r payBidTx evs res :
  checkReward b r payBidTx evs = Some res ->
  List.filter isEffect (srEvents res) =
  List.filter isEffect evs ++
    (if srSuccess res then replacedDiscard b (ParentHash (bid r)) else []).
Proof.
  unfold checkReward. intros Hc.
  destruct (updatePackReward SystemAddress true r) as [r1|] eqn:Hu; [|done].
  destruct (updatePackReward_Some _ _ _ Hu) as [e He].
  destruct (updatePackReward_spec true r e He)
    as (r1' & Hu' & Hf & Hb & Hbid & Henv & Hbribe).
  rewrite Hu in Hu'. injection Hu' as <-.
  destruct (validReward r1) as [[|]|]; [| |done].
  - destruct (greedyMerge b r1) as [r2|] eqn:Hg; [|done].
    destruct (greedyMerge_spec b r1 r2 e Hg) as (Hb2 & _); [by rewrite Henv|done|].
    apply settle_effects in Hc. by rewrite Hc, Hb2, Hbid.
  - simplify_eq. simpl. by rewrite app_nil_r.
Qed.

Lemma simBidBody_effects b r payBidTx res :
  simBidBody b r payBidTx = Some res ->
  List.filter isEffect (srEvents res) =
  if srSuccess res then replacedDiscard b (ParentHash (bid r)) else [].
Proof.
  unfold simBidBody. intros Hb.
  destruct (prepareWork _ _) as [e0|msg]; [|by simplify_eq].
  destruct (noTime _); [by simplify_eq|].
  destruct (_ <? GasUsed (bid r)); [by simplify_eq|].
  destruct (replayTxs _ _ _ _ _) as [[[r2 [msg|]] evs]|] eqn:Hr; [| |done].
  - simplify_eq. simpl. by eapply replayTxs_effects.
  - pose proof (replayTxs_frame _ _ _ _ _ _ _ _ Hr) as (Hbid & _).
    apply checkReward_effects in Hb. rewrite Hb, Hbid.
    by rewrite (replayTxs_effects _ _ _ _ _ _ _ _ Hr).
Qed.

(** X3: a simulation that has passed its guard releases and reports as
    follows, in this order and nothing else.  When it fails or loses, it
    discards its own environment, once, if it has one; when it wins, it
    discards none of its own, and [SetBestBid] discards the environment of
    the bid it replaces.  It hands the error to [reportIssue] exactly when
    an error is set, and it closes [finished] once, last.  A winning
    simulation has no error. *)
Theorem simBid_effects (b : bidSimulator) (r : BidRuntime) (res : simResult) :
  isRunning b = true -> receivingBid b = true ->
  simBid b r = Some res ->
  List.filter isEffect (srEvents res) =
    (if srSuccess res then replacedDiscard b (ParentHash (bid r))
     else match env (srRuntime res) with
          | Some e => [EvDiscard e]
          | None => []
          end) ++
    match srErr res with
    | Some msg => [EvReportIssue (srRuntime res) msg]
    | None => []
    end ++
    [EvCloseFinished (bid r)] /\
  (srSuccess res = true -> srErr res = None).
Proof.
  intros Hrun Hrecv Hs. unfold simBid in Hs. rewrite Hrun, Hrecv in Hs.
  simpl in Hs.
  destruct (last (Txs (bid r))) as [payBidTx|]; [|done].
  destruct (simBidBody _ r payBidTx) as [res0|] eqn:Hbody; [|done].
  injection Hs as <-.
  pose proof (simBidBody_spec _ _ _ _ Hbody) as (Hbid & Hout & _).
  apply simBidBody_effects in Hbody.
  assert (Hexcl : srSuccess res0 = true -> srErr res0 = None).
  { intros Hsucc. destruct Hout as [[Hf _]|(Hn & _)]; [congruence|done]. }
  split; [|exact Hexcl].
  unfold simBidDeferred. simpl.
  rewrite !List.filter_app, Hbody, Hbid. simpl.
  unfold replacedDiscard. simpl.
  destruct (srSuccess res0) eqn:Hsucc.
  - rewrite (Hexcl eq_refl). simpl.
    destruct (env (srRuntime res0)); simpl; by rewrite ?app_nil_r.
  - destruct (env (srRuntime res0)), (srErr res0); simpl; reflexivity.
Qed.

(** ** What the best-bid table holds *)

Lemma validReward_ext r r' :
  bid r' = bid r -> directBribe r' = directBribe r ->
  packedBlockRewardPreBEP95Builder r' = packedBlockRewardPreBEP95Builder r ->
  validReward r' = validReward r.
Proof.
  intros Hb Hd Hp. unfold validReward, directBribeBNB. by rewrite Hb, Hd, Hp.
Qed.

Lemma settle_bribe b r payBidTx evs res :
  settle b r payBidTx evs = Some res ->
  directBribe (srRuntime res) = directBribe r.
Proof.
  unfold settle. intros Hs.
  destruct (env r) as [e|]; [|done].
  destruct (gasPool e) as [g|]; [|done].
  destruct (commitTransaction _ payBidTx true) as [[[r2 cres] evs1]|] eqn:Hc;
    [|done].
  pose proof (commitTransaction_frame _ _ _ _ _ _ Hc) as (_ & _ & _ & Hd & _).
  simpl in Hd.
  destruct cres as [receipt|msg]; [|by simplify_eq].
  destruct (env r2) as [e2|]; [|done].
  destruct (MaxMessageSize <? _); [by simplify_eq|].
  apply compareWithBest_spec in Hs as (-> & _). done.
Qed.

Lemma checkReward_valid b r payBidTx evs res :
  checkReward b r payBidTx evs = Some res ->
  srErr res = None ->
  validReward (srRuntime res) = Some true.
Proof.
  unfold checkReward. intros Hc Herr.
  destruct (updatePackReward SystemAddress true r) as [r1|] eqn:Hu; [|done].
  destruct (updatePackReward_Some _ _ _ Hu) as [e He].
  destruct (updatePackReward_spec true r e He)
    as (r1' & Hu' & Hf & Hb & Hbid & Henv & Hbribe).
  rewrite Hu in Hu'. injection Hu' as <-.
  destruct (validReward r1) as [[|]|] eqn:Hv; [| |done].
  - destruct (greedyMerge b r1) as [r2|] eqn:Hg; [|done].
    destruct (greedyMerge_spec b r1 r2 e Hg) as (Hb2 & Hd2 & Hpb2 & _);
      [by rewrite Henv|done|].
    pose proof (settle_bribe _ _ _ _ _ Hc) as Hd3.
    apply settle_spec in Hc as (Hb3 & Hpb3 & _).
    rewrite <- Hv. apply validReward_ext; congruence.
  - by simplify_eq.
Qed.

Lemma simBid_valid b r res :
  simBid b r = Some res -> srSuccess res = true ->
  validReward (srRuntime res) = Some true.
Proof.
  unfold simBid. intros Hs Hsucc.
  destruct (negb (isRunning b) || negb (receivingBid b)); [by simplify_eq|].
  destruct (last (Txs (bid r))) as [payBidTx|]; [|done].
  destruct (simBidBody _ r payBidTx) as [res0|] eqn:Hbody; [|done].
  injection Hs as <-. simpl in *.
  pose proof (simBidBody_spec _ _ _ _ Hbody) as (_ & Hout & _).
  assert (Herr : srErr res0 = None).
  { destruct Hout as [[Hf _]|(Hn & _)]; [congruence|done]. }
  revert Hbody. unfold simBidBody.
  destruct (prepareWork _ _) as [e0|msg]; [|intros; by simplify_eq].
  destruct (noTime _); [intros; by simplify_eq|].
  destruct (_ <? GasUsed (bid r)); [intros; by simplify_eq|].
  destruct (replayTxs _ _ _ _ _) as [[[r2 [msg|]] evs]|]; [| |done].
  - intros; by simplify_eq.
  - intros Hc. by eapply checkReward_valid.
Qed.

Lemma validReward_covers r :
  validReward r = Some true ->
  exists t, totalRewardFromBuilder r = Some t /\ expectedRewardFromBuilder r <= t.
Proof.
  intros (p & Hp & Hbribe & Hgas)%validReward_true.
  unfold totalRewardFromBuilder, expectedRewardFromBuilder, directBribeBNB,
    uint256.ToBig, big.Add.
  rewrite Hp. eexists. split; [reflexivity|].
  pose proof (calcRewardAfterBEP95_mono _ _ Hgas). lia.
Qed.

Lemma simBid_bestBidValid b r res :
  bestBidValid b -> simBid b r = Some res -> bestBidValid (srSim res).
Proof.
  intros Hinv Hs.
  pose proof (simBid_spec _ _ _ Hs) as (Hbid & Hout & Hpacked & _).
  intros parentHash best.
  destruct Hout as [[_ ->]|(_ & Hsucc & -> & _)]; [apply Hinv|].
  destruct (decide (ParentHash (bid (srRuntime res)) = parentHash)) as [<-|Hne].
  - rewrite lookup_insert_eq. intros [= <-].
    split; [done|]. split; [by eapply simBid_valid|]. by apply Hpacked.
  - rewrite lookup_insert_ne by done. apply Hinv.
Qed.


(** ** What a simulation puts back into the channel *)

Lemma recommit_cases b bd :
  recommit b bd = b \/
  (newBidCh b = [] /\
   recommit b bd = withNewBidCh b [{| pkgBid := bd; feedback := None |}]).
Proof.
  unfold recommit, trySend, newBidChCap.
  destruct (newBidCh b) as [|pkg rest] eqn:Hch.
  - right. split; [done|].
    repeat case_decide; simpl in *; try lia; done.
  - left. repeat case_decide; simpl in *; try lia; done.
Qed.

Lemma compareWithBest_channel b r evs res :
  compareWithBest b r evs = Some res ->
  newBidCh (srSim res) = newBidCh b \/
  (srSuccess res = false /\ newBidCh b = [] /\
   exists best, bestBid b !! ParentHash (bid r) = Some best /\
     newBidCh (srSim res) = [{| pkgBid := bid best; feedback := None |}]).
Proof.
  unfold compareWithBest, SetBestBid, GetBestBid. intros Hc.
  destruct (bestBid b !! ParentHash (bid r)) as [last|] eqn:Hlast.
  - destruct (totalReward r) as [t'|]; [|done].
    destruct (totalReward last) as [t|]; [|done].
    destruct (0 <? big.Cmp t' t); simplify_eq; simpl; [by left|].
    destruct (recommit_cases b (bid last)) as [->|[Hnil ->]]; [by left|].
    right. eauto.
  - simplify_eq. by left.
Qed.

Lemma settle_channel b r payBidTx evs res :
  settle b r payBidTx evs = Some res ->
  newBidCh (srSim res) = newBidCh b \/
  (srSuccess res = false /\ newBidCh b = [] /\
   exists best, bestBid b !! ParentHash (bid r) = Some best /\
     newBidCh (srSim res) = [{| pkgBid := bid best; feedback := None |}]).
Proof.
  unfold settle. intros Hs.
  destruct (env r) as [e|]; [|done].
  destruct (gasPool e) as [g|]; [|done].
  destruct (commitTransaction _ payBidTx true) as [[[r2 cres] evs1]|] eqn:Hc;
    [|done].
  pose proof (commitTransaction_frame _ _ _ _ _ _ Hc) as (Hbid & _).
  simpl in Hbid.
  destruct cres as [receipt|msg]; [|left; by simplify_eq].
  destruct (env r2) as [e2|]; [|done].
  destruct (MaxMessageSize <? _); [left; by simplify_eq|].
  apply compareWithBest_channel in Hs. by rewrite Hbid in Hs.
Qed.

Lemma checkReward_channel b r payBidTx evs res :
  checkReward b r payBidTx evs = Some res ->
  newBidCh (srSim res) = newBidCh b \/
  (srSuccess res = false /\ newBidCh b = [] /\
   exists best, bestBid b !! ParentHash (bid r) = Some best /\
     newBidCh (srSim res) = [{| pkgBid := bid best; feedback := None |}]).
Proof.
  unfold checkReward. intros Hc.
  destruct (updatePackReward SystemAddress true r) as [r1|] eqn:Hu; [|done].
  destruct (updatePackReward_Some _ _ _ Hu) as [e He].
  destruct (updatePackReward_spec true r e He)
    as (r1' & Hu' & Hf & Hb & Hbid & Henv & Hbribe).
  rewrite Hu in Hu'. injection Hu' as <-.
  destruct (validReward r1) as [[|]|]; [| |done].
  - destruct (greedyMerge b r1) as [r2|] eqn:Hg; [|done].
    destruct (greedyMerge_spec b r1 r2 e Hg) as (Hb2 & _); [by rewrite Henv|done|].
    apply settle_channel in Hc. by rewrite Hb2, Hbid in Hc.
  - left. by simplify_eq.
Qed.

Lemma simBidBody_channel b r payBidTx res :
  simBidBody b r payBidTx = Some res ->
  newBidCh (srSim res) = newBidCh b \/
  (srSuccess res = false /\ srErr res = None /\ newBidCh b = [] /\
   exists best, bestBid b !! ParentHash (bid r) = Some best /\
     newBidCh (srSim res) = [{| pkgBid := bid best; feedback := None |}]).
Proof.
  intros Hs.
  destruct (simBidBody_spec _ _ _ _ Hs) as (_ & _ & Herr & _).
  destruct (srErr res) as [msg|] eqn:Hmsg.
  { left. rewrite Herr by eauto. done. }
  clear Herr. revert Hs. unfold simBidBody.
  destruct (prepareWork _ _) as [e0|msg]; [|intros; left; by simplify_eq].
  destruct (noTime _); [intros; left; by simplify_eq|].
  destruct (_ <? GasUsed (bid r)); [intros; left; by simplify_eq|].
  destruct (replayTxs _ _ _ _ _) as [[[r2 [msg|]] evs]|] eqn:Hr; [| |done].
  - intros; left; by simplify_eq.
  - pose proof (replayTxs_frame _ _ _ _ _ _ _ _ Hr) as (Hbid & _).
    intros Hc. apply checkReward_channel in Hc. rewrite Hbid in Hc. simpl in Hc.
    destruct Hc as [Hsame|(Hf & Hnil & Hbest)]; [by left|]. right. eauto.
Qed.

(** X5: a simulation puts at most one package into [newBidCh], only when
    the channel is empty and only when it ends without error: the
    package carries the bid that the table then holds for the parent hash
    (the simulated bid when it won, the standing best bid when it lost),
    and no feedback channel. *)
Theorem simBid_recommits (b : bidSimulator) (r : BidRuntime) (res : simResult) :
  simBid b r = Some res ->
  newBidCh (srSim res) = newBidCh b \/
  (newBidCh b = [] /\ srErr res = None /\
   exists best,
     bestBid (srSim res) !! ParentHash (bid r) = Some best /\
     newBidCh (srSim res) = [{| pkgBid := bid best; feedback := None |}]).
Proof.
  intros Hs0. pose proof Hs0 as Hs. unfold simBid in Hs.
  destruct (negb (isRunning b) || negb (receivingBid b)); [left; by simplify_eq|].
  destruct (last (Txs (bid r))) as [payBidTx|]; [|done].
  destruct (simBidBody _ r payBidTx) as [res0|] eqn:Hbody; [|done].
  injection Hs as Hres.
  pose proof (simBidBody_spec _ _ _ _ Hbody) as (Hbid & Hout & _).
  pose proof (simBidDeferred_spec (ParentHash (bid r)) res0)
    as (Hr & He & Hsucc & Hbest & _).
  rewrite Hres in Hr, He, Hsucc, Hbest.
  apply simBidBody_channel in Hbody
    as [Hsame|(Hf & Herr & Hnil & best & Hb & Hch)]; simpl in *.
  - rewrite <- Hres. unfold simBidDeferred. simpl.
    destruct (srSuccess res0) eqn:Hs1; [|by left].
    destruct (recommit_cases
                (RemoveSimulatingBid (srSim res0) (ParentHash (bid r)))
                (bid (srRuntime res0))) as [->|[Hnil ->]]; [by left|].
    simpl in *. right. rewrite <- Hsame. split; [done|].
    destruct Hout as [[Hf _]|(Hn & _ & Hins & _)]; [congruence|].
    split; [done|]. exists (srRuntime res0). split; [|done].
    rewrite Hins, Hbid. apply lookup_insert_eq.
  - right. split; [done|]. split; [congruence|].
    exists best. rewrite Hbest.
    destruct Hout as [[_ ->]|(_ & Ht & _)]; [|congruence].
    split; [done|]. rewrite <- Hres. unfold simBidDeferred. simpl.
    by rewrite Hf.
Qed.

(** ** The arbiter on a bid that comes back *)

Lemma judge_recommit b a exiting parentHash best :
  bestBidValid b ->
  simulatingBid b !! parentHash = None ->
  bestBid b !! parentHash = Some best ->
  exists t, totalRewardFromBuilder best = Some t /\
    judge b a exiting (newBidRuntime (bid best)) =
      Some {| lrArbiter := a; lrReplyErr := Some (discardError t);
              lrEvents := [] |}.
Proof.
  intros Hinv Hsim Hbest.
  destruct (Hinv _ _ Hbest) as (Hparent & Hvalid & _).
  destruct (validReward_covers _ Hvalid) as (t & Ht & Hle).
  exists t. split; [done|].
  unfold judge, GetSimulatingBid, GetBestBid. simpl.
  rewrite Hparent, Hsim, Hbest.
  unfold isExpectedBetterThanBestBid. rewrite Ht.
  assert (Hcmp : (0 <? big.Cmp (expectedRewardFromBuilder (newBidRuntime (bid best))) t)
                 = false).
  { apply not_true_is_false. intros Hgt%big_Cmp_gt.
    unfold expectedRewardFromBuilder in *. simpl in Hgt. lia. }
  by rewrite Hcmp.
Qed.

(** X6: the bid that a simulation puts back into [newBidCh] never starts
    another simulation.  On tables that hold valid bids, when the channel
    was empty before the simulation, the next turn of [newBidLoop] after it
    commits nothing: it has nothing to take, or it takes the bid that came
    back, finds it no better than the best bid, and drops it without a
    reply. *)
Theorem recommit_is_dropped (b : bidSimulator) (r : BidRuntime) (res : simResult)
    (a : arbiter) (exiting : bool) :
  bestBidValid b ->
  isRunning b = true -> receivingBid b = true ->
  newBidCh b = [] ->
  simBid b r = Some res ->
  exists b' out,
    newBidLoop (srSim res) a exiting = Some (b', out) /\
    lrArbiter out = a /\ lrEvents out = [] /\
    newBidCh b' = [] /\ bestBid b' = bestBid (srSim res) /\
    (newBidCh (srSim res) <> [] ->
     exists best t,
       bestBid (srSim res) !! ParentHash (bid r) = Some best /\
       totalRewardFromBuilder best = Some t /\
       lrReplyErr out = Some (discardError t)).
Proof.
  intros Hinv Hrun Hrecv Hnil Hs.
  pose proof (simBid_bestBidValid _ _ _ Hinv Hs) as Hinv'.
  pose proof (simBid_recommits _ _ _ Hs)
    as [Hsame|(_ & _ & best & Hbest & Hch)].
  - unfold newBidLoop. rewrite Hsame, Hnil.
    eexists _, _. split; [reflexivity|]. simpl.
    rewrite Hsame, Hnil. repeat split; try done.
  - pose proof (simBid_shape _ _ _ Hs)
      as [(Hguard & _)|(_ & _ & tbl & ch & Hshape)].
    { by rewrite Hrun, Hrecv in Hguard. }
    assert (Hslot : simulatingBid (withNewBidCh (srSim res) [])
                      !! ParentHash (bid r) = None).
    { rewrite Hshape. simpl. apply lookup_delete_eq. }
    assert (Hrunning : isRunning (withNewBidCh (srSim res) []) = true).
    { rewrite Hshape. exact Hrun. }
    destruct (judge_recommit (withNewBidCh (srSim res) []) a exiting
                (ParentHash (bid r)) best) as (t & Ht & Hjudge);
      [exact Hinv'|exact Hslot|exact Hbest|].
    unfold newBidLoop, handleNewBid. rewrite Hch, Hrunning. simpl.
    rewrite Hjudge. simpl.
    eexists _, _. split; [reflexivity|]. simpl.
    repeat split; try done. intros _. eauto.
Qed.

(** ** Signals *)

Lemma replayTxs_applied_before_signal eoas bidTxLen txs : forall k i r r' err evs,
  poll (i + k) <> NoSignal ->
  replayTxs eoas bidTxLen i txs r = Some (r', err, evs) ->
  (length (List.filter isApply evs) <= k)%nat.
Proof.
  induction txs as [|tx rest IH]; intros k i r r' err evs Hsig Hr; simpl in Hr.
  - simplify_eq. simpl. lia.
  - destruct (poll i) eqn:Hpoll; [|simplify_eq; simpl; lia..].
    destruct k as [|k]; [by rewrite Nat.add_0_r in Hsig|].
    destruct (env r) as [e|]; [|done].
    case_decide; [simplify_eq; simpl; lia|].
    destruct (commitTransaction r tx _) as [[[r1 res] evs1]|] eqn:Hc; [|done].
    apply commitTransaction_kinds in Hc.
    destruct res as [receipt|msg].
    + destruct (replayTxs eoas bidTxLen (S i) rest _) as [[[r3 err3] evs3]|] eqn:Hrest;
        [|done].
      simplify_eq. rewrite List.filter_app, length_app.
      apply (IH k) in Hrest; [|by rewrite Nat.add_succ_comm].
      destruct Hc as [->|[rs ->]]; simpl; lia.
    + simplify_eq. rewrite List.filter_app, length_app.
      destruct Hc as [->|[rs ->]]; simpl; lia.
Qed.

Lemma simBidDeferred_applies parentHash res :
  List.filter isApply (srEvents (simBidDeferred parentHash res)) =
  List.filter isApply (srEvents res).
Proof.
  unfold simBidDeferred. simpl. rewrite !List.filter_app.
  destruct (env (srRuntime res)), (srErr res), (srSuccess res); simpl;
    by rewrite app_nil_r.
Qed.

Lemma simBidBody_signalled b r payBidTx res :
  poll 0 <> NoSignal -> Txs (bid r) <> [] ->
  simBidBody b r payBidTx = Some res ->
  srSim res = b /\ srSuccess res = false /\
  List.filter isApply (srEvents res) = [] /\
  (forall e9,
     prepareWork (ParentHash (bid r)) etherbase = inl e9 ->
     noTime (Delay 0 (header e9)) = false ->
     GasUsed (bid r) <= default 0 (gasPool (initGasPool e9)) ->
     srErr res =
       Some (match poll 0 with
             | ExitSignal => "miner exit"
             | _ => "simulation abort due to better bid arrived"
             end)).
Proof.
  intros Hsig Hne. unfold simBidBody.
  destruct (prepareWork _ _) as [e0|msg] eqn:Hprep.
  - destruct (noTime _) eqn:Htime.
    { intros; simplify_eq. repeat split; try done.
      intros e9 [= <-] Hno. congruence. }
    destruct (_ <? GasUsed (bid r)) eqn:Hgas.
    { intros; simplify_eq. repeat split; try done.
      intros e9 [= <-] _ Hle. apply Z.ltb_lt in Hgas. lia. }
    destruct (Txs (bid r)) as [|tx0 rest]; [done|]. simpl.
    destruct (poll 0) eqn:Hpoll; [done| |];
      intros; simplify_eq; repeat split; done.
  - intros; simplify_eq. repeat split; done.
Qed.

(** X7: a simulation that finds a signal at its first look at the
    channels, the interrupt of a better bid or the exit of the miner,
    applies no transaction at all; it does not win, and it leaves the
    best-bid table and [newBidCh] as they were.  When it got as far as the
    replay, its error names the signal.  In general the replay applies at
    most [k] transactions when the signal is there at its look number
    [k]. *)
Theorem simBid_signalled (b : bidSimulator) (r : BidRuntime) (res : simResult) :
  poll 0 <> NoSignal ->
  simBid b r = Some res ->
  List.filter isApply (srEvents res) = [] /\
  srSuccess res = false /\
  bestBid (srSim res) = bestBid b /\
  newBidCh (srSim res) = newBidCh b /\
  (forall e9,
     isRunning b = true -> receivingBid b = true ->
     prepareWork (ParentHash (bid r)) etherbase = inl e9 ->
     noTime (Delay 0 (header e9)) = false ->
     GasUsed (bid r) <= default 0 (gasPool (initGasPool e9)) ->
     srErr res =
       Some (match poll 0 with
             | ExitSignal => "miner exit"
             | _ => "simulation abort due to better bid arrived"
             end)) /\
  (forall k eoas bidTxLen i txs r0 r' err evs,
     poll (i + k) <> NoSignal ->
     replayTxs eoas bidTxLen i txs r0 = Some (r', err, evs) ->
     (length (List.filter isApply evs) <= k)%nat).
Proof.
  intros Hsig Hs.
  assert (Hgen : forall k eoas bidTxLen i txs r0 r' err evs,
            poll (i + k) <> NoSignal ->
            replayTxs eoas bidTxLen i txs r0 = Some (r', err, evs) ->
            (length (List.filter isApply evs) <= k)%nat)
    by (intros; by eapply replayTxs_applied_before_signal).
  unfold simBid in Hs.
  destruct (negb (isRunning b) || negb (receivingBid b)) eqn:Hguard.
  { simplify_eq. simpl. repeat split; try done.
    intros e9 Hrun Hrecv. by rewrite Hrun, Hrecv in Hguard. }
  destruct (last (Txs (bid r))) as [payBidTx|] eqn:Hlast; [|done].
  assert (Hne : Txs (bid r) <> []).
  { intros Hnil. by rewrite Hnil in Hlast. }
  destruct (simBidBody _ r payBidTx) as [res0|] eqn:Hbody; [|done].
  injection Hs as <-.
  apply simBidBody_signalled in Hbody as (Hsim & Hsucc & Happ & Herr); [|done..].
  rewrite simBidDeferred_applies.
  unfold simBidDeferred. simpl. rewrite Hsucc, Hsim. simpl.
  repeat split; try done. intros e9 _ _. apply Herr.
Qed.

(** ** What the validator is tipped *)

Lemma containsAddress_In l a : containsAddress l a = true <-> In a l.
Proof.
  induction l as [|x l IH]; simpl; [split; [discriminate|intros []]|].
  case_decide as Heq.
  - split; [intros _; by left|done].
  - rewrite IH. split; [by right|]. intros [Hx|Hin]; [congruence|done].
Qed.

(** X8: [checkValidatorBribe] adds the value of a transaction to the direct
    bribe exactly when the list of accepted accounts holds the recipient,
    the receipt is successful and the value is positive; it adds the value
    once, however often the recipient is listed, and otherwise leaves the
    bribe alone.  So the direct bribe never goes down, and nothing else of
    the runtime changes. *)
Theorem checkValidatorBribe_counts (eoas : list Address) (tx : Transaction)
    (receipt : Receipt) (r : BidRuntime) :
  let r' := checkValidatorBribe eoas tx receipt r in
  (forall to v,
     txTo tx = Some to -> txValue tx = Some v -> In to eoas ->
     Status receipt = ReceiptStatusSuccessful -> 0 < v ->
     directBribe r' = directBribe r + v) /\
  (directBribe r' <> directBribe r ->
     exists to v,
       txTo tx = Some to /\ txValue tx = Some v /\ In to eoas /\
       Status receipt = ReceiptStatusSuccessful /\ 0 < v) /\
  directBribe r <= directBribe r' /\
  bid r' = bid r /\ env r' = env r /\
  packedBlockRewardPreBEP95Builder r' = packedBlockRewardPreBEP95Builder r /\
  packedBlockRewardPreBEP95Final r' = packedBlockRewardPreBEP95Final r.
Proof.
  pose proof (checkValidatorBribe_frame eoas tx receipt r) as (Hb & He & Hpb & Hpf).
  simpl. split; [|split; [|split; [|done]]].
  - intros to v Hto Hv Hin Hst Hpos.
    unfold checkValidatorBribe. rewrite Hto, Hv.
    destruct eoas as [|a eoas]; [done|].
    rewrite decide_True by done.
    assert (Hc : (0 <? big.Cmp v 0) = true) by (by apply big_Cmp_gt).
    rewrite Hc.
    assert (Hin' : containsAddress (a :: eoas) to = true)
      by (by apply containsAddress_In).
    by rewrite Hin'.
  - unfold checkValidatorBribe. intros Hne.
    destruct eoas as [|a eoas]; [done|].
    destruct (txTo tx) as [to|]; [|done].
    destruct (txValue tx) as [v|]; [|done].
    case_decide as Hst; [|done].
    destruct (0 <? big.Cmp v 0) eqn:Hc; [|done].
    destruct (containsAddress (a :: eoas) to) eqn:Hin; [|done].
    exists to, v. apply big_Cmp_gt in Hc. apply containsAddress_In in Hin. done.
  - unfold checkValidatorBribe.
    destruct eoas as [|a eoas]; [done|].
    destruct (txTo tx) as [to|]; [|done].
    destruct (txValue tx) as [v|]; [|done].
    case_decide as Hst; [|done].
    destruct (0 <? big.Cmp v 0) eqn:Hc; [|done].
    destruct (containsAddress (a :: eoas) to); [|done].
    apply big_Cmp_gt in Hc. simpl. unfold big.Add. lia.
Qed.

(** ** What a committed transaction leaves in the environment *)

Lemma commitTransaction_record r tx unRevertible r' res evs e :
  env r = Some e ->
  commitTransaction r tx unRevertible = Some (r', res, evs) ->
  exists e', env r' = Some e' /\
    match res with
    | inr _ =>
        envTxs e' = envTxs e /\ receipts e' = receipts e /\
        sidecars e' = sidecars e /\ tcount e' = tcount e /\
        envSize e' = envSize e /\ blobs e' = blobs e
    | inl receipt =>
        envTxs e' = envTxs e ++ [packedAs tx] /\
        receipts e' = receipts e ++ [receipt] /\
        tcount e' = wrapInt (tcount e + 1) /\
        envSize e' = wrap32 (envSize e + wrap32 (txSize tx)) /\
        sidecars e' =
          sidecars e ++
          match txType tx with
          | BlobTxType =>
              [{| scBlobs := default 0 (txSidecar tx);
                  scTxIndex := Z.of_nat (length (envTxs e)) |}]
          | LegacyTxType => []
          end
    end.
Proof.
  intros He. unfold commitTransaction, packedAs. rewrite He.
  destruct (blobCheck _ tx); [intros; simplify_eq; eexists; by split|].
  destruct (arReceipt _) as [receipt|msg] eqn:Hres.
  - destruct (unRevertible && _); [intros; simplify_eq; eexists; by split|].
    unfold recordTx. simpl.
    destruct (txType tx).
    + intros; simplify_eq. eexists. split; [reflexivity|]. simpl.
      by rewrite app_nil_r.
    + destruct (BlobGasUsed (header e)); [|done].
      intros; simplify_eq. eexists. split; [reflexivity|]. done.
  - intros; simplify_eq. eexists. by split.
Qed.

(** X9: [commitTransaction] keeps the books of the environment straight.
    A transaction that is refused, by the blob checks, by the executor or
    as a failed unrevertible transaction, is not recorded: the lists of
    transactions, receipts and sidecars, the counter, the size and the
    number of blobs are as before.  An accepted one adds one transaction
    and its receipt, and for a blob transaction one sidecar whose index
    is the place of the transaction.  So receipts stay paired with
    transactions and every sidecar points at a blob transaction. *)
Theorem commitTransaction_keeps_aligned (r : BidRuntime) (tx : Transaction)
    (unRevertible : bool) (r' : BidRuntime) (res : Receipt + string)
    (evs : list Event) (e : environment) :
  env r = Some e -> aligned e ->
  commitTransaction r tx unRevertible = Some (r', res, evs) ->
  exists e', env r' = Some e' /\ aligned e' /\
    match res with
    | inr _ =>
        envTxs e' = envTxs e /\ receipts e' = receipts e /\
        sidecars e' = sidecars e /\ tcount e' = tcount e /\
        envSize e' = envSize e /\ blobs e' = blobs e
    | inl receipt =>
        envTxs e' = envTxs e ++ [packedAs tx] /\
        receipts e' = receipts e ++ [receipt] /\
        tcount e' = wrapInt (tcount e + 1)
    end.
Proof.
  intros He [Hlen Hsc] Hc.
  destruct (commitTransaction_record _ _ _ _ _ _ _ He Hc) as (e' & He' & Hrec).
  exists e'. split; [done|].
  destruct res as [receipt|msg].
  - destruct Hrec as (Htxs & Hrcs & Htc & _ & Hsd).
    split; [|done]. split.
    + rewrite Htxs, Hrcs, !length_app, Hlen. done.
    + intros sc Hin. rewrite Hsd in Hin. rewrite Htxs.
      apply in_app_or in Hin as [Hin|Hin].
      * destruct (Hsc _ Hin) as (tx0 & Hlook & Hty & Hside).
        exists tx0. split; [|done]. by apply lookup_app_l_Some.
      * unfold packedAs. destruct (txType tx) eqn:Hty; [done|].
        destruct Hin as [<-|[]]. simpl.
        exists (WithoutBlobTxSidecar tx). split; [|done].
        rewrite Nat2Z.id. rewrite lookup_app_r by done.
        by rewrite Nat.sub_diag.
  - destruct Hrec as (Htxs & Hrcs & Hsd & Htc & Hsz & Hbl).
    split; [|done]. split; [by rewrite Htxs, Hrcs|].
    intros sc Hin. rewrite Hsd in Hin. rewrite Htxs. by apply Hsc.
Qed.

(** ** What a simulation packs *)

Lemma wrapInt_small z : 0 <= z < 2 ^ 63 -> wrapInt z = z.
Proof.
  intros Hz. unfold wrapInt.
  rewrite Z.mod_small by lia. lia.
Qed.

Lemma replayTxs_packs eoas bidTxLen txs : forall i r r' evs e,
  env r = Some e ->
  tcount e = Z.of_nat (length (envTxs e)) ->
  bidTxLen = Z.of_nat (length (envTxs e) + length txs) ->
  bidTxLen < 2 ^ 63 ->
  txs <> [] ->
  replayTxs eoas bidTxLen i txs r = Some (r', None, evs) ->
  exists e', env r' = Some e' /\
    envTxs e' = envTxs e ++ (packedAs <$> removelast txs) /\
    tcount e' = Z.of_nat (length (envTxs e')).
Proof.
  induction txs as [|tx rest IH]; intros i r r' evs e He Htc Hlen Hsmall Hne Hr;
    [done|].
  simpl in Hr. destruct (poll i); [|by simplify_eq..].
  rewrite He in Hr.
  destruct rest as [|tx1 rest].
  - rewrite decide_True in Hr by (simpl in Hlen; lia).
    simplify_eq. exists e. simpl. by rewrite app_nil_r.
  - rewrite decide_False in Hr by (simpl in Hlen; lia).
    destruct (commitTransaction r tx _) as [[[r1 res] evs1]|] eqn:Hc; [|done].
    destruct (commitTransaction_record _ _ _ _ _ _ _ He Hc) as (e1 & He1 & Hrec).
    destruct res as [receipt|msg]; [|by simplify_eq].
    destruct Hrec as (Htxs & _ & Htc1 & _).
    destruct (replayTxs eoas bidTxLen (S i) (tx1 :: rest) _)
      as [[[r3 err3] evs3]|] eqn:Hrest; [|done].
    injection Hr as Hr1 Hr2 Hr3. subst r3 err3 evs.
    pose proof (checkValidatorBribe_frame eoas tx receipt r1) as (_ & Hce & _).
    assert (Htc1' : tcount e1 = Z.of_nat (length (envTxs e1))).
    { rewrite Htc1, Htc, Htxs, length_app. simpl.
      rewrite wrapInt_small; simpl in *; lia. }
    assert (Hlen1 : bidTxLen = Z.of_nat (length (envTxs e1) + length (tx1 :: rest))).
    { rewrite Htxs, length_app. simpl in *. lia. }
    assert (He1' : env (checkValidatorBribe eoas tx receipt r1) = Some e1)
      by (by rewrite Hce).
    destruct (IH (S i) _ _ _ e1 He1' Htc1' Hlen1 Hsmall ltac:(done) Hrest)
      as (e' & He' & Htxs' & Htc').
    exists e'. split; [done|]. split; [|done].
    rewrite Htxs', Htxs, <- app_assoc. done.
Qed.

Lemma checkReward_packs b r payBidTx evs res e :
  GreedyMergeTx (config b) = false ->
  env r = Some e ->
  checkReward b r payBidTx evs = Some res ->
  srSuccess res = true ->
  exists e', env (srRuntime res) = Some e' /\
    envTxs e' = envTxs e ++ [packedAs payBidTx] /\
    tcount e' = wrapInt (tcount e + 1).
Proof.
  intros Hgreedy He. unfold checkReward.
  destruct (updatePackReward_spec true r e He)
    as (r1 & -> & _ & _ & _ & Henv & _).
  destruct (validReward r1) as [[|]|]; [| |done]; [|intros; by simplify_eq].
  unfold greedyMerge. rewrite Hgreedy.
  unfold settle. rewrite Henv, He.
  destruct (gasPool e) as [g|]; [|done].
  destruct (commitTransaction _ payBidTx true) as [[[r2 cres] evs1]|] eqn:Hc;
    [|done].
  destruct (commitTransaction_record
              (withEnv r1 (withGasPool e (Some (AddGas g PayBidTxGasLimit))))
              payBidTx true r2 cres evs1
              (withGasPool e (Some (AddGas g PayBidTxGasLimit))) eq_refl Hc)
    as (e2 & He2 & Hrec).
  destruct cres as [receipt|msg]; [|intros; by simplify_eq].
  rewrite He2.
  destruct (MaxMessageSize <? _); [intros; by simplify_eq|].
  intros Hcmp _. apply compareWithBest_spec in Hcmp as (-> & _).
  exists e2. destruct Hrec as (Htxs & _ & Htc & _). done.
Qed.

(** X10: without greedy merge, on an environment that [prepareWork] hands
    over empty, a winning simulation has packed exactly the transactions
    of the bid, in the order of the bid, each as [commitTransaction]
    appends it, and its counter is their number: the replay loop commits
    all but the last, and the last, the pay-bid transaction, is committed
    after the reward check. *)
Theorem simBid_packs_the_bid (b : bidSimulator) (r : BidRuntime) (res : simResult)
    (e0 : environment) :
  GreedyMergeTx (config b) = false ->
  prepareWork (ParentHash (bid r)) etherbase = inl e0 ->
  envTxs e0 = [] -> tcount e0 = 0 ->
  Z.of_nat (length (Txs (bid r))) < 2 ^ 63 ->
  simBid b r = Some res ->
  srSuccess res = true ->
  exists e, env (srRuntime res) = Some e /\
    envTxs e = packedAs <$> Txs (bid r) /\
    tcount e = Z.of_nat (length (Txs (bid r))).
Proof.
  intros Hgreedy Hprep Htxs0 Htc0 Hsmall Hs Hsucc. unfold simBid in Hs.
  destruct (negb (isRunning b) || negb (receivingBid b)); [by simplify_eq|].
  destruct (last (Txs (bid r))) as [payBidTx|] eqn:Hlast; [|done].
  destruct (simBidBody _ r payBidTx) as [res0|] eqn:Hbody; [|done].
  injection Hs as <-. simpl in *.
  revert Hbody. unfold simBidBody. rewrite Hprep.
  destruct (noTime _); [intros; by simplify_eq|].
  destruct (_ <? GasUsed (bid r)); [intros; by simplify_eq|].
  destruct (replayTxs _ _ _ _ _) as [[[r2 [msg|]] evs]|] eqn:Hr; [| |done];
    [intros; by simplify_eq|].
  assert (Hne : Txs (bid r) <> []) by (intros Hnil; by rewrite Hnil in Hlast).
  assert (Hinit : envTxs (initGasPool e0) = [] /\ tcount (initGasPool e0) = 0).
  { unfold initGasPool. by destruct (gasPool e0). }
  destruct Hinit as [Hinit Hinitc].
  assert (Htc1 : tcount (initGasPool e0) =
                 Z.of_nat (length (envTxs (initGasPool e0))))
    by (by rewrite Hinit, Hinitc).
  assert (Hlen1 : Z.of_nat (length (Txs (bid r))) =
                  Z.of_nat (length (envTxs (initGasPool e0)) + length (Txs (bid r))))
    by (by rewrite Hinit).
  assert (Henv1 : env (withEnv r (initGasPool e0)) = Some (initGasPool e0))
    by reflexivity.
  destruct (replayTxs_packs _ _ _ _ _ _ _ (initGasPool e0) Henv1
              Htc1 Hlen1 Hsmall Hne Hr)
    as (e2 & He2 & Htxs2 & Htc2).
  intros Hc.
  destruct (checkReward_packs (SetSimulatingBid b (ParentHash (bid r)) r)
              r2 payBidTx evs res0 e2 Hgreedy He2 Hc Hsucc)
    as (e3 & He3 & Htxs3 & Htc3).
  exists e3. split; [done|].
  apply last_Some in Hlast as [txs' Heq].
  rewrite Htxs3, Htxs2, Hinit, Heq, removelast_last, fmap_app. simpl.
  split; [done|].
  rewrite Htc3, Htc2, Htxs2, Hinit, Heq, removelast_last. simpl.
  rewrite length_fmap, length_app. simpl.
  rewrite Heq, length_app in Hsmall. simpl in Hsmall.
  rewrite wrapInt_small; lia.
Qed.

End MoreFacts.

(** * The janitor *)

Section JanitorFacts.

Context {CH : Chain}.

Lemma sweep_lookup blockNumber (m : gmap Hash BidRuntime) parentHash v :
  sweep blockNumber m !! parentHash = Some v <->
  m !! parentHash = Some v /\
  (sub64 blockNumber TriesInMemory < BlockNumber (bid v))%N.
Proof.
  unfold sweep. rewrite map_lookup_filter_Some. unfold staleAt. simpl.
  split; intros [Hm Hs]; (split; [done|]); lia.
Qed.

Lemma sweep_size blockNumber (m : gmap Hash BidRuntime) :
  (length (sweepDiscards blockNumber m) + size (sweep blockNumber m) = size m)%nat.
Proof.
  unfold sweepDiscards, sweep.
  rewrite length_fmap, length_map_to_list.
  rewrite <- (map_filter_union_complement
                (fun kv : Hash * BidRuntime => staleAt blockNumber kv.2) m) at 3.
  rewrite map_size_disj_union by apply map_disjoint_filter_complement.
  done.
Qed.

Lemma sweepDiscards_In blockNumber (m : gmap Hash BidRuntime) d :
  In d (sweepDiscards blockNumber m) ->
  exists parentHash v, d = env v /\ m !! parentHash = Some v /\
    sweep blockNumber m !! parentHash = None.
Proof.
  unfold sweepDiscards. rewrite <- list_elem_of_In, list_elem_of_fmap.
  intros ([parentHash v] & -> & Hin).
  apply elem_of_map_to_list, map_lookup_filter_Some in Hin as [Hm Hstale].
  exists parentHash, v. split; [done|]. split; [done|].
  unfold sweep. apply map_lookup_filter_None. right.
  intros v' Hv'. rewrite Hm in Hv'. injection Hv' as <-.
  intros Hnot. apply Hnot. exact Hstale.
Qed.

(** X11: the janitor only removes.  After [clearFn] the best-bid table
    holds exactly the old entries that are not filed under the parent hash
    of the new head and whose block number is above the head's number less
    [TriesInMemory] ([uint64] subtraction), each unchanged; the simulation
    slot holds the old entries above that bound; the pending ledger has
    lost the head's block number and nothing else; the channel and the
    switches are as before. *)
Theorem clearFn_prunes (b : bidSimulator) (parentHash : Hash) (blockNumber : N) :
  let b' := (clearFn b parentHash blockNumber).1 in
  (forall p v, bestBid b' !! p = Some v <->
     bestBid b !! p = Some v /\ p <> parentHash /\
     (sub64 blockNumber TriesInMemory < BlockNumber (bid v))%N) /\
  (forall p v, simulatingBid b' !! p = Some v <->
     simulatingBid b !! p = Some v /\
     (sub64 blockNumber TriesInMemory < BlockNumber (bid v))%N) /\
  (forall bn, pending b' !! bn =
     if decide (bn = blockNumber) then None else pending b !! bn) /\
  newBidCh b' = newBidCh b /\ running b' = running b /\
  bidReceiving b' = bidReceiving b /\ config b' = config b.
Proof.
  simpl. split; [|split; [|split; [|done]]].
  - intros p v. rewrite sweep_lookup, lookup_delete_Some.
    intuition congruence.
  - intros p v. apply sweep_lookup.
  - intros bn. case_decide as Heq.
    + subst. apply lookup_delete_eq.
    + by apply lookup_delete_ne.
Qed.

(** X12: [clearFn] calls [discard] once for every entry it removes from
    the best-bid table and from the simulation slot, on the environment of
    that entry, and on nothing else: the calls and the entries that stay
    add up to the entries there were. *)
Theorem clearFn_discards_evicted (b : bidSimulator) (parentHash : Hash)
    (blockNumber : N) :
  let b' := (clearFn b parentHash blockNumber).1 in
  let discards := (clearFn b parentHash blockNumber).2 in
  (length discards + size (bestBid b') + size (simulatingBid b')
   = size (bestBid b) + size (simulatingBid b))%nat /\
  (forall d, In d discards ->
     exists p v, d = env v /\
       ((bestBid b !! p = Some v /\ bestBid b' !! p = None) \/
        (simulatingBid b !! p = Some v /\ simulatingBid b' !! p = None))).
Proof.
  simpl. split.
  - rewrite !length_app.
    pose proof (sweep_size blockNumber (delete parentHash (bestBid b))) as H1.
    pose proof (sweep_size blockNumber (simulatingBid b)) as H2.
    pose proof (map_size_delete parentHash (bestBid b)) as H3.
    destruct (bestBid b !! parentHash) as [v|] eqn:Hv; simpl in *.
    + assert (size (bestBid b) <> 0)%nat.
      { intros Hz. apply map_size_empty_iff in Hz. rewrite Hz in Hv.
        by rewrite lookup_empty in Hv. }
      lia.
    + lia.
  - intros d Hin. apply in_app_or in Hin as [Hin|Hin].
    + destruct (bestBid b !! parentHash) as [v|] eqn:Hv; [|done].
      destruct Hin as [<-|[]]. exists parentHash, v. split; [done|]. left.
      split; [done|]. apply eq_None_not_Some. intros [v' Hv'].
      apply sweep_lookup in Hv' as [Hv' _]. by rewrite lookup_delete_eq in Hv'.
    + apply in_app_or in Hin as [Hin|Hin].
      * apply sweepDiscards_In in Hin as (p & v & -> & Hm & Hnone).
        apply lookup_delete_Some in Hm as [_ Hm]. eauto 10.
      * apply sweepDiscards_In in Hin as (p & v & -> & Hm & Hnone). eauto 10.
Qed.

(** X13: the ledger entry that [CheckPending] makes for a block does not
    outlive the chain head of that block number: when [clearFn] runs for the
    same number between the check and the add, [AddPending] assigns into a
    nil map and panics, and so does [sendBid]; a head of another number
    leaves the entry in place. *)
Theorem AddPending_after_clearFn (b : bidSimulator) (parentHash : Hash)
    (blockNumber headNumber : N) (builder : Address) (h : Hash) :
  let checked := (CheckPending b blockNumber builder h).1 in
  let cleared := (clearFn checked parentHash headNumber).1 in
  (is_Some (AddPending cleared blockNumber builder h) <->
   headNumber <> blockNumber) /\
  (forall bd replyCh reply,
     BlockNumber bd = blockNumber -> Builder bd = builder ->
     headNumber = blockNumber ->
     (length (newBidCh b) < newBidChCap)%nat ->
     sendBid cleared bd replyCh reply = None).
Proof.
  cbv zeta.
  assert (Hentry : Pending.entry
            (pending (clearFn (CheckPending b blockNumber builder h).1
                        parentHash headNumber).1) blockNumber builder =
          if decide (headNumber = blockNumber) then None
          else Some (Pending.hashesOf (pending b) blockNumber builder)).
  { unfold clearFn. cbn [fst pending]. unfold Pending.entry at 1.
    case_decide as Heq.
    - subst. by rewrite lookup_delete_eq.
    - rewrite lookup_delete_ne by done.
      apply (CheckPending_entry_eq b blockNumber builder h). }
  split.
  - unfold AddPending. unfold Pending.entry in Hentry.
    destruct (pending _ !! blockNumber) as [m|].
    + destruct (m !! builder); case_decide; split; intros; try done;
        by (eexists || congruence).
    + case_decide; split; intros [x Hx] || intros; try done.
  - intros bd replyCh reply <- <- -> Hroom. unfold sendBid.
    rewrite CheckPending_pending. simpl.
    rewrite decide_True by done.
    unfold AddPending. simpl. by rewrite lookup_delete_eq.
Qed.

(** X14: on a chain whose head is below [TriesInMemory] the [uint64]
    subtraction in [clearFn] wraps around, and the bound lands just under
    2^64: the janitor then removes every best bid whose block number is at
    most 2^64 - (TriesInMemory - head), whatever its parent, the bids for
    the coming blocks among them. *)
Theorem clearFn_wraps (b : bidSimulator) (parentHash : Hash) (blockNumber : N)
    (p : Hash) (v : BidRuntime) :
  (blockNumber < TriesInMemory)%N ->
  (TriesInMemory <= 2 ^ 64)%N ->
  bestBid b !! p = Some v ->
  (BlockNumber (bid v) <= 2 ^ 64 - (TriesInMemory - blockNumber))%N ->
  sub64 blockNumber TriesInMemory = (2 ^ 64 - (TriesInMemory - blockNumber))%N /\
  bestBid (clearFn b parentHash blockNumber).1 !! p = None.
Proof.
  intros Hlt Hmax Hv Hle.
  assert (Hsub : sub64 blockNumber TriesInMemory
                 = (2 ^ 64 - (TriesInMemory - blockNumber))%N).
  { unfold sub64.
    replace ((Z.of_N blockNumber - Z.of_N TriesInMemory) mod 2 ^ 64)
      with (Z.of_N blockNumber - Z.of_N TriesInMemory + 2 ^ 64).
    - lia.
    - apply Z.mod_unique with (q := -1); lia. }
  split; [done|].
  simpl. apply eq_None_not_Some. intros [v' Hv'].
  apply sweep_lookup in Hv' as [Hv' Hgt].
  apply lookup_delete_Some in Hv' as [_ Hv'].
  rewrite Hv in Hv'. injection Hv' as <-. lia.
Qed.

End JanitorFacts.

(** * The pending ledger, once more *)

Lemma CheckPending_reads b blockNumber builder bidHash bn bu :
  Pending.hashesOf (pending ((CheckPending b blockNumber builder bidHash).1)) bn bu
  = Pending.hashesOf (pending b) bn bu.
Proof.
  rewrite CheckPending_pending. simpl. rewrite !hashesOf_entry.
  destruct (decide ((bn, bu) = (blockNumber, builder))) as [[= -> ->]|Hne].
  - rewrite entry_ensureBuilder_eq, entry_ensureBlock. done.
  - by rewrite entry_ensureBuilder_ne, entry_ensureBlock.
Qed.

Lemma CheckPending_accepts b blockNumber builder bidHash :
  (CheckPending b blockNumber builder bidHash).2 = None <->
  (bidHash ∉ Pending.hashesOf (pending b) blockNumber builder) /\
  (size (Pending.hashesOf (pending b) blockNumber builder) < 3)%nat.
Proof.
  rewrite CheckPending_decides. repeat case_decide; split; try done;
    (intros [? ?]; done || lia) || (intros _; split; [done|lia]).
Qed.

(** X15: a bid that is added after [CheckPending] has let it through keeps
    the quota: when no builder has more than three bids recorded for a
    block, [AddPending] after an accepting [CheckPending] returns, records
    the hash as one more bid of the builder for the block, and still no
    builder has more than three. *)
Theorem checked_add_keeps_quota (b b1 : bidSimulator) (blockNumber : N)
    (builder : Address) (h : Hash) :
  quotaKept b ->
  CheckPending b blockNumber builder h = (b1, None) ->
  exists b2, AddPending b1 blockNumber builder h = Some b2 /\
    quotaKept b2 /\
    Pending.hashesOf (pending b2) blockNumber builder =
      {[h]} ∪ Pending.hashesOf (pending b) blockNumber builder /\
    size (Pending.hashesOf (pending b2) blockNumber builder) =
      S (size (Pending.hashesOf (pending b) blockNumber builder)).
Proof.
  intros Hquota Hcheck.
  assert (Hb1 : b1 = (CheckPending b blockNumber builder h).1) by (by rewrite Hcheck).
  assert (Hok : (CheckPending b blockNumber builder h).2 = None) by (by rewrite Hcheck).
  apply CheckPending_accepts in Hok as [Hfresh Hsize].
  assert (Hentry : Pending.entry (pending b1) blockNumber builder =
                   Some (Pending.hashesOf (pending b) blockNumber builder)).
  { rewrite Hb1. apply CheckPending_entry_eq. }
  destruct (AddPending b1 blockNumber builder h) as [b2|] eqn:Hadd.
  2:{ unfold AddPending, Pending.entry in *.
      destruct (pending b1 !! blockNumber) as [m|]; [|done].
      by destruct (m !! builder). }
  exists b2. split; [done|].
  assert (Hreads : forall bn bu,
            Pending.hashesOf (pending b2) bn bu =
            if decide ((bn, bu) = (blockNumber, builder))
            then {[h]} ∪ Pending.hashesOf (pending b) blockNumber builder
            else Pending.hashesOf (pending b) bn bu).
  { intros bn bu. rewrite hashesOf_entry, (AddPending_entry _ _ _ _ _ bn bu Hadd).
    case_decide; simpl.
    - by rewrite Hb1, CheckPending_reads.
    - by rewrite <- hashesOf_entry, Hb1, CheckPending_reads. }
  assert (Hsz : size ({[h]} ∪ Pending.hashesOf (pending b) blockNumber builder) =
                S (size (Pending.hashesOf (pending b) blockNumber builder))).
  { rewrite size_union by (by apply disjoint_singleton_l).
    by rewrite size_singleton. }
  split; [|split].
  - intros bn bu. rewrite Hreads. case_decide.
    + rewrite Hsz. unfold maxBidPerBuilderPerBlock. lia.
    + apply Hquota.
  - rewrite Hreads. by rewrite decide_True.
  - rewrite Hreads. rewrite decide_True; done.
Qed.

(** X16: [sendBid] puts the bid at the end of [newBidCh] with its feedback
    channel and records its hash in the ledger, without a look at the
    quota, whenever the channel has room and the ledger has the entry; it
    does so also when no reply comes in time and the caller is told that
    the service is busy.  With a full channel it leaves everything as it
    was and answers busy. *)
Theorem sendBid_records (b b' : bidSimulator) (bd : Bid) (replyCh : nat)
    (reply : option (option string)) (out : sendResult) :
  sendBid b bd replyCh reply = Some (b', out) ->
  ((length (newBidCh b) < newBidChCap)%nat /\
   newBidCh b' = newBidCh b ++ [{| pkgBid := bd; feedback := Some replyCh |}] /\
   Pending.hashesOf (pending b') (BlockNumber bd) (Builder bd) =
     {[bidHash bd]} ∪ Pending.hashesOf (pending b) (BlockNumber bd) (Builder bd) /\
   bestBid b' = bestBid b /\ simulatingBid b' = simulatingBid b /\
   out = match reply with Some r => Replied r | None => MevBusy end) \/
  ((newBidChCap <= length (newBidCh b))%nat /\ b' = b /\ out = MevBusy).
Proof.
  unfold sendBid. case_decide as Hroom; [|intros [= <- <-]; right; split; [lia|done]].
  destruct (AddPending _ _ _ _) as [b2|] eqn:Hadd; [|done].
  intros Hout. left. split; [done|].
  pose proof (AddPending_entry _ _ _ _ _ (BlockNumber bd) (Builder bd) Hadd) as He.
  rewrite decide_True in He by done.
  apply AddPending_Some in Hadd as (m & hs & _ & _ & ->).
  assert (b' = withPending
                 (withNewBidCh b
                    (newBidCh b ++ [{| pkgBid := bd; feedback := Some replyCh |}]))
                 (pending b')) as Hb'.
  { destruct reply; injection Hout as <- _; reflexivity. }
  split; [by rewrite Hb'|]. split.
  { rewrite hashesOf_entry.
    replace (pending b') with
      (<[BlockNumber bd := <[Builder bd := {[bidHash bd]} ∪ hs]> m]> (pending b))
      by (destruct reply; injection Hout as <- _; reflexivity).
    simpl in He. by rewrite He. }
  split; [by rewrite Hb'|]. split; [by rewrite Hb'|].
  destruct reply; by injection Hout as _ <-.
Qed.

(** * The arbiter, once more *)

Section ArbiterFacts.

Context {P : Params}.

Lemma judge_cases b a exiting r res :
  judge b a exiting r = Some res ->
  (lrArbiter res = a /\ lrEvents res = [] /\ is_Some (lrReplyErr res)) \/
  (lrArbiter res = (commit a exiting commitInterruptBetterBid r).1 /\
   lrEvents res = (commit a exiting commitInterruptBetterBid r).2 /\
   lrReplyErr res = None).
Proof.
  unfold judge. intros Hj.
  destruct (GetSimulatingBid b (ParentHash (bid r))) as [simulating|].
  - destruct (isExpectedBetterThanSimulatingBid r simulating).
    + right. destruct (commit a exiting commitInterruptBetterBid r).
      by simplify_eq.
    + left. simplify_eq. simpl. eauto.
  - destruct (GetBestBid b (ParentHash (bid r))) as [best|].
    + destruct (isExpectedBetterThanBestBid r best) as [[|]|]; [| |done].
      * right. destruct (commit a exiting commitInterruptBetterBid r).
        by simplify_eq.
      * destruct (totalRewardFromBuilder best); [|done].
        left. simplify_eq. simpl. eauto.
    + right. destruct (commit a exiting commitInterruptBetterBid r).
      by simplify_eq.
Qed.

Lemma commit_events a exiting reason r :
  (commit a exiting reason r).1 =
    {| interruptCh := Some (nextCh a); nextCh := S (nextCh a) |} /\
  (commit a exiting reason r).2 =
    match interruptCh a with
    | Some ch => [EvInterrupt ch reason]
    | None => []
    end ++
    (if exiting then []
     else [EvSimBidReq (nextCh a) r; EvLog "BidSimulator: commit" None]).
Proof.
  unfold commit. simpl. split; [done|].
  destruct exiting; by rewrite ?app_nil_r.
Qed.

(** X17: the arbiter answers a bid at most once.  A running arbiter that
    has taken a bid with a feedback channel sends on that channel once,
    the verdict it has reached; for a bid without feedback channel, and
    when the simulator is not running, it sends nothing, and a simulator
    that is not running does nothing at all with the bid. *)
Theorem handleNewBid_feedback_once (b : bidSimulator) (a : arbiter)
    (exiting : bool) (newBid : newBidPackage) (res : loopResult) :
  handleNewBid b a exiting newBid = Some res ->
  List.filter isFeedback (lrEvents res) =
    (if isRunning b then
       match feedback newBid with
       | Some ch => [EvFeedback ch (lrReplyErr res)]
       | None => []
       end
     else []) /\
  (isRunning b = false ->
   lrArbiter res = a /\ lrEvents res = [] /\ lrReplyErr res = None).
Proof.
  unfold handleNewBid. destruct (isRunning b); simpl.
  2:{ intros [= <-]. done. }
  destruct (judge b a exiting _) as [res0|] eqn:Hj; [|done].
  assert (Hnone : List.filter isFeedback (lrEvents res0) = []).
  { apply judge_cases in Hj as [(_ & -> & _)|(_ & -> & _)]; [done|].
    destruct (commit_events a exiting commitInterruptBetterBid
                (newBidRuntime (pkgBid newBid))) as [_ ->].
    rewrite List.filter_app. by destruct (interruptCh a), exiting. }
  destruct (feedback newBid) as [ch|]; intros [= <-]; simpl.
  - split; [|done]. by rewrite List.filter_app, Hnone.
  - done.
Qed.

(** X18: the interrupt channels are used once.  When the arbiter commits,
    the only channel it signals is the one it held, with the better-bid
    reason, and it holds that channel no longer; the request to simulate
    carries a channel made for it, which is the one the arbiter holds
    next.  When it does not commit, it signals nothing and keeps its
    channel. *)
Theorem handleNewBid_channels (b : bidSimulator) (a : arbiter) (exiting : bool)
    (newBid : newBidPackage) (res : loopResult) :
  arbiterOk a ->
  handleNewBid b a exiting newBid = Some res ->
  arbiterOk (lrArbiter res) /\
  (nextCh a <= nextCh (lrArbiter res))%nat /\
  (forall ch reason, In (EvInterrupt ch reason) (lrEvents res) ->
     interruptCh a = Some ch /\ reason = commitInterruptBetterBid /\
     interruptCh (lrArbiter res) = Some (nextCh a) /\ (ch < nextCh a)%nat) /\
  (forall ch r, In (EvSimBidReq ch r) (lrEvents res) ->
     ch = nextCh a /\ interruptCh (lrArbiter res) = Some ch /\
     r = newBidRuntime (pkgBid newBid)) /\
  (lrArbiter res = a \/
   lrArbiter res = {| interruptCh := Some (nextCh a); nextCh := S (nextCh a) |}).
Proof.
  intros Hok. unfold handleNewBid. destruct (isRunning b); simpl.
  2:{ intros [= <-]. simpl. repeat split; try done; auto. }
  destruct (judge b a exiting _) as [res0|] eqn:Hj; [|done].
  intros Hsome.
  assert (Hres : lrArbiter res = lrArbiter res0 /\
                 forall ev, (forall ch e1, ev <> EvFeedback ch e1) ->
                   (forall m e1, ev <> EvLog m e1) ->
                   In ev (lrEvents res) -> In ev (lrEvents res0)).
  { destruct (feedback newBid) as [ch|]; simplify_eq; simpl.
    - split; [done|]. intros ev Hf Hl Hin.
      apply in_app_or in Hin as [Hin|[<-|[<-|[]]]]; [done| |].
      + by destruct (Hf _ _ eq_refl).
      + by destruct (Hl _ _ eq_refl).
    - split; [done|]. auto. }
  destruct Hres as [Harb Hin].
  rewrite Harb.
  destruct (commit_events a exiting commitInterruptBetterBid
              (newBidRuntime (pkgBid newBid))) as [Hc1 Hc2].
  apply judge_cases in Hj as [(Ha & Hev & _)|(Ha & Hev & _)]; rewrite Ha.
  - split; [done|]. split; [done|].
    split; [intros ch reason Hi; apply Hin in Hi; [by rewrite Hev in Hi|done..]|].
    split; [intros ch r Hi; apply Hin in Hi; [by rewrite Hev in Hi|done..]|].
    by left.
  - rewrite Hc1. simpl.
    split; [intros ch Hch; simpl in Hch; injection Hch as <-; simpl; lia|].
    split; [lia|].
    split; [|split; [|by right]].
    + intros ch reason Hi. apply Hin in Hi; [|done..].
      rewrite Hev, Hc2 in Hi. apply in_app_or in Hi as [Hi|Hi].
      * destruct (interruptCh a) as [ch0|] eqn:Hch; [|done].
        destruct Hi as [[= <- <-]|[]]. repeat split; try done. by apply Hok.
      * destruct exiting; [done|]. simpl in Hi. intuition discriminate.
    + intros ch r Hi. apply Hin in Hi; [|done..].
      rewrite Hev, Hc2 in Hi. apply in_app_or in Hi as [Hi|Hi].
      * destruct (interruptCh a); [|done]. simpl in Hi. intuition discriminate.
      * destruct exiting; [done|].
        destruct Hi as [[= <- <-]|[[=]|[]]]. done.
Qed.

End ArbiterFacts.

(** * The registry of builders *)

Section RegistryFacts.

Context {D : Dialer}.

(** X19: the registry keeps what it is told.  [AddBuilder] leaves the
    sentry's client and every other builder alone; when it returns no
    error the builder exists afterwards, with the sentry's client when
    there is one, with no client when the url is empty, and else with the
    client that was dialed; when the dial fails it returns the error and
    changes nothing, so that an earlier registration of the builder
    stays.  After [RemoveBuilder] the builder does not exist, and the
    others are as before. *)
Theorem AddBuilder_registers (reg : registry) (builder : Address) (url : string) :
  let reg' := (AddBuilder reg builder url).1 in
  let err := (AddBuilder reg builder url).2 in
  sentryCli reg' = sentryCli reg /\
  (forall other, other <> builder ->
     builders reg' !! other = builders reg !! other) /\
  match err with
  | None =>
      ExistBuilder reg' builder = true /\
      builders reg' !! builder =
        Some match sentryCli reg with
             | Some cli => Some cli
             | None =>
                 if decide (url = EmptyString) then None
                 else match DialOptions url with
                      | inl cli => Some cli
                      | inr _ => None
                      end
             end
  | Some msg =>
      reg' = reg /\ sentryCli reg = None /\ url <> EmptyString /\
      DialOptions url = inr msg
  end /\
  ExistBuilder (RemoveBuilder reg' builder).1 builder = false /\
  (forall other, other <> builder ->
     ExistBuilder (RemoveBuilder reg' builder).1 other = ExistBuilder reg other) /\
  (RemoveBuilder reg' builder).2 = None.
Proof.
  unfold AddBuilder, RemoveBuilder, ExistBuilder, withBuilder.
  destruct (sentryCli reg) as [cli|] eqn:Hs; simpl;
    [|case_decide as Hurl; simpl;
      [|destruct (DialOptions url) as [cli|msg] eqn:Hd; simpl]].
  all: repeat split; try done; try (intros other Hne).
  all: rewrite ?lookup_delete_eq, ?lookup_insert_eq; try done.
  all: try (rewrite ?lookup_delete_ne, ?lookup_insert_ne by done; done).
  all: try (by apply bool_decide_eq_true_2).
  all: by apply bool_decide_eq_false_2, is_Some_None.
Qed.

Lemma dial_with_sentry cli configured : forall reg,
  sentryCli reg = Some cli ->
  let reg' := foldl (fun acc v => (AddBuilder acc v.1 v.2).1) reg configured in
  sentryCli reg' = Some cli /\
  forall x, builders reg' !! x =
    if decide (x ∈ configured.*1) then Some (Some cli) else builders reg !! x.
Proof.
  induction configured as [|[y url] rest IH]; intros reg Hs; cbv zeta.
  - split; [done|]. intros x.
    rewrite decide_False; [done|]. apply not_elem_of_nil.
  - assert (Hadd : (AddBuilder reg y url).1 = withBuilder reg y (Some cli)).
    { unfold AddBuilder. by rewrite Hs. }
    cbn [foldl fst snd]. rewrite Hadd.
    destruct (IH (withBuilder reg y (Some cli)) Hs) as [Hs' Hb'].
    split; [done|]. intros x. rewrite Hb'.
    rewrite fmap_cons. cbn [fst].
    destruct (decide (x ∈ rest.*1)) as [Hin|Hnin].
    + rewrite decide_True; [done|]. apply elem_of_cons. by right.
    + destruct (decide (x = y)) as [->|Hne].
      * rewrite decide_True by (apply elem_of_cons; by left).
        simpl. apply lookup_insert_eq.
      * rewrite decide_False.
        -- simpl. by rewrite lookup_insert_ne.
        -- intros [?|?]%elem_of_cons; done.
Qed.

(** X20: with a sentry that can be dialed, [dialSentryAndBuilders] gives
    every configured builder the sentry's client, whatever the builder's
    own url, and dials no builder; builders that are registered but not
    configured keep the client they had. *)
Theorem dialSentryAndBuilders_with_sentry (reg : registry) (sentryURL : string)
    (configured : list (Address * string)) (cli : nat) :
  sentryURL <> EmptyString ->
  DialOptions sentryURL = inl cli ->
  sentryCli (dialSentryAndBuilders reg sentryURL configured) = Some cli /\
  forall x,
    builders (dialSentryAndBuilders reg sentryURL configured) !! x =
    if decide (x ∈ configured.*1) then Some (Some cli) else builders reg !! x.
Proof.
  intros Hurl Hdial. unfold dialSentryAndBuilders.
  rewrite decide_False by done. rewrite Hdial.
  apply (dial_with_sentry cli configured
           {| sentryCli := Some cli; builders := builders reg |} eq_refl).
Qed.

End RegistryFacts.

(** * The loops and the switches *)

Section LoopFacts.

Context {P : Params} {W : bidWorker} {E : Engine} {X : Executor} {C : Channels}.
Context {CH : Chain}.

Lemma settle_env b r payBidTx evs res :
  settle b r payBidTx evs = Some res -> is_Some (env (srRuntime res)).
Proof.
  unfold settle. intros Hs.
  destruct (env r) as [e|]; [|done].
  destruct (gasPool e) as [g|]; [|done].
  destruct (commitTransaction _ payBidTx true) as [[[r2 cres] evs1]|] eqn:Hc;
    [|done].
  pose proof (commitTransaction_frame _ _ _ _ _ _ Hc) as (_ & _ & _ & _ & He2).
  destruct cres as [receipt|msg]; [|by simplify_eq].
  destruct (env r2) as [e2|] eqn:Hr2; [|done].
  destruct (MaxMessageSize <? _); [simplify_eq; simpl; by rewrite Hr2|].
  apply compareWithBest_spec in Hs as (-> & _). by rewrite Hr2.
Qed.

Lemma checkReward_env b r payBidTx evs res :
  checkReward b r payBidTx evs = Some res -> is_Some (env (srRuntime res)).
Proof.
  unfold checkReward. intros Hc.
  destruct (updatePackReward SystemAddress true r) as [r1|] eqn:Hu; [|done].
  destruct (updatePackReward_Some _ _ _ Hu) as [e He].
  destruct (updatePackReward_spec true r e He)
    as (r1' & Hu' & _ & _ & _ & Henv & _).
  rewrite Hu in Hu'. injection Hu' as <-.
  destruct (validReward r1) as [[|]|]; [| |done].
  - destruct (greedyMerge b r1) as [r2|]; [|done]. by eapply settle_env.
  - simplify_eq. simpl. rewrite Henv, He. eauto.
Qed.

Lemma simBid_env b r res msg :
  simBid b r = Some res -> srErr res = Some msg ->
  (prepareWork (ParentHash (bid r)) etherbase = inr msg /\
   env (srRuntime res) = None) \/
  ((exists e0, prepareWork (ParentHash (bid r)) etherbase = inl e0) /\
   is_Some (env (srRuntime res))).
Proof.
  unfold simBid. intros Hs Herr.
  destruct (negb (isRunning b) || negb (receivingBid b)); [by simplify_eq|].
  destruct (last (Txs (bid r))) as [payBidTx|]; [|done].
  destruct (simBidBody _ r payBidTx) as [res0|] eqn:Hbody; [|done].
  injection Hs as <-. simpl in *.
  revert Hbody. unfold simBidBody.
  destruct (prepareWork _ _) as [e0|m].
  - intros Hbody. right. split; [eauto|].
    destruct (noTime _); [by simplify_eq|].
    destruct (_ <? GasUsed (bid r)); [simplify_eq; simpl; eauto|].
    destruct (replayTxs _ _ _ _ _) as [[[r2 [m|]] evs]|] eqn:Hr; [| |done].
    + apply replayTxs_frame in Hr as (_ & _ & _ & He).
      simplify_eq. simpl. apply He. simpl. eauto.
    + by eapply checkReward_env.
  - intros [= <-]. simpl in *. left. by simplify_eq.
Qed.

(** X21: what becomes of the issue that a failed simulation hands to
    [reportIssue].  [reportIssue] sends nothing when the builder has no
    client in the registry, and one report, in the name of the coinbase of
    the runtime's header, when it has.  It reads that header from the
    runtime's environment, and there is none when the error is the one of
    [prepareWork] (which hands back no environment with its error): then,
    and only then, [reportIssue] on a builder with a client dereferences
    nil and panics. *)
Theorem reportIssue_after_simBid (b : bidSimulator) (r : BidRuntime)
    (res : simResult) (msg : string) (reg : registry) :
  simBid b r = Some res ->
  srErr res = Some msg ->
  In (EvReportIssue (srRuntime res) msg) (srEvents res) /\
  (reportIssue reg (srRuntime res) msg = None <->
   (exists cli, builders reg !! Builder (bid r) = Some (Some cli)) /\
   prepareWork (ParentHash (bid r)) etherbase = inr msg) /\
  (forall out, reportIssue reg (srRuntime res) msg = Some out ->
     match builders reg !! Builder (bid r) with
     | Some (Some cli) =>
         exists e, env (srRuntime res) = Some e /\
           out = [(cli, {| issValidator := Coinbase (header e);
                           issBuilder := Builder (bid r);
                           issBidHash := bidHash (bid r);
                           issMessage := msg |})]
     | _ => out = []
     end).
Proof.
  intros Hs Herr.
  pose proof (simBid_spec _ _ _ Hs) as (Hbid & _ & _ & Hrep & _).
  split; [by apply Hrep|].
  pose proof (simBid_env _ _ _ _ Hs Herr) as Henv.
  unfold reportIssue. rewrite Hbid.
  destruct (builders reg !! Builder (bid r)) as [[cli|]|] eqn:Hcli.
  - destruct Henv as [[Hprep Hnone]|[[e0 Hprep] [e He]]].
    + rewrite Hnone. split; [|done]. split; [eauto|done].
    + rewrite He. split.
      * split; [done|]. intros [_ Hinr]. congruence.
      * intros out [= <-]. eauto.
  - split; [|by intros out [= <-]].
    split; [done|]. by intros [[cli [=]] _].
  - split; [|by intros out [= <-]].
    split; [done|]. by intros [[cli [=]] _].
Qed.

(** X22: what the switches switch.  A stopped simulator judges no bid,
    simulates no request and prunes nothing, yet [CheckPending] and
    [sendBid] work on it as on a running one, so that bids go on filling
    the channel and the ledger.  With only the receiving of bids turned
    off, the arbiter works as before, commits and acknowledges, and it is
    [simBid] that returns at once: such a bid is acknowledged and never
    simulated. *)
Theorem stop_and_stopReceivingBid (b : bidSimulator) (a : arbiter) (exiting : bool)
    (newBid : newBidPackage) (req : simBidReq) (r : BidRuntime)
    (parentHash : Hash) (blockNumber : N) (builder : Address) (h : Hash)
    (bd : Bid) (replyCh : nat) (reply : option (option string)) :
  handleNewBid (stop b) a exiting newBid =
    Some {| lrArbiter := a; lrReplyErr := None; lrEvents := [] |} /\
  mainLoop (stop b) req =
    Some {| srSim := stop b; srRuntime := reqBid req; srErr := None;
            srSuccess := false; srEvents := [] |} /\
  clearLoop (stop b) parentHash blockNumber = (stop b, []) /\
  CheckPending (stop b) blockNumber builder h =
    (stop (CheckPending b blockNumber builder h).1,
     (CheckPending b blockNumber builder h).2) /\
  sendBid (stop b) bd replyCh reply =
    (fun out : bidSimulator * sendResult => (stop out.1, out.2)) <$>
      sendBid b bd replyCh reply /\
  handleNewBid (stopReceivingBid b) a exiting newBid =
    handleNewBid b a exiting newBid /\
  simBid (stopReceivingBid b) r =
    Some {| srSim := stopReceivingBid b; srRuntime := r; srErr := None;
            srSuccess := false; srEvents := [] |}.
Proof.
  split; [done|]. split; [done|]. split; [done|]. split.
  { unfold CheckPending, stop, withRunning, withPending. cbv zeta.
    cbn [pending]. repeat case_decide; reflexivity. }
  split.
  { destruct b as [cfg run recv ch pend best sim].
    unfold sendBid, AddPending, stop, withRunning, withNewBidCh, withPending.
    cbn [newBidCh pending].
    case_decide; [|reflexivity].
    destruct (pend !! BlockNumber bd) as [m|]; [|reflexivity].
    destruct (m !! Builder bd); [|reflexivity].
    destruct reply; reflexivity. }
  split; [done|].
  unfold simBid. simpl. by rewrite orb_true_r.
Qed.

End LoopFacts.

(** ** The small world again *)


(** An empty table holds only valid bids. *)
Lemma started_bestBidValid : bestBidValid Demo.started.
Proof. intros parentHash best Hbest. simpl in Hbest. by rewrite lookup_empty in Hbest. Qed.


Lemma simBid_frame_witness :
  config (srSim Demo.resB) = Demo.cfg /\
  pending (srSim Demo.resB) = pending Demo.afterA /\
  simulatingBid (srSim Demo.resB) !! 42%N = None /\
  bid (srRuntime Demo.resB) = Demo.bidB.
Proof.
  destruct (@simBid_frame Demo.params Demo.worker Demo.engine Demo.executor
              Demo.quiet Demo.afterA (newBidRuntime Demo.bidB) Demo.resB)
    as (Hcfg & _ & _ & Hpending & _ & Hslot & Hbid).
  - vm_compute. reflexivity.
  - split; [exact Hcfg|]. split; [exact Hpending|].
    split; [apply Hslot; reflexivity|exact Hbid].
Defined.

Lemma simBid_effects_witness :
  List.filter isEffect (srEvents Demo.resB) =
    match env (srRuntime Demo.resA) with
    | Some e => [EvDiscard e; EvCloseFinished Demo.bidB]
    | None => []
    end.
Proof.
  destruct (@simBid_effects Demo.params Demo.worker Demo.engine Demo.executor
              Demo.quiet Demo.afterA (newBidRuntime Demo.bidB) Demo.resB
              eq_refl eq_refl) as [Heffects _].
  - vm_compute. reflexivity.
  - rewrite Heffects. vm_compute. reflexivity.
Defined.


Lemma simBid_recommits_witness :
  newBidCh (srSim Demo.resA) = newBidCh Demo.started \/
  (newBidCh Demo.started = [] /\ srErr Demo.resA = None /\
   exists best,
     bestBid (srSim Demo.resA) !! 42%N = Some best /\
     newBidCh (srSim Demo.resA) = [{| pkgBid := bid best; feedback := None |}]).
Proof.
  apply (@simBid_recommits Demo.params Demo.worker Demo.engine Demo.executor
           Demo.quiet Demo.started (newBidRuntime Demo.bidA) Demo.resA).
  vm_compute. reflexivity.
Defined.

Lemma recommit_is_dropped_witness :
  newBidCh (srSim Demo.resA) = [{| pkgBid := Demo.bidA; feedback := None |}] /\
  exists b' out,
    @newBidLoop Demo.params (srSim Demo.resA) Demo.arb false = Some (b', out) /\
    lrArbiter out = Demo.arb /\ lrEvents out = [] /\
    newBidCh b' = [] /\ bestBid b' = bestBid (srSim Demo.resA) /\
    exists t, lrReplyErr out = Some (discardError t).
Proof.
  split; [vm_compute; reflexivity|].
  destruct (@recommit_is_dropped Demo.params Demo.worker Demo.engine
              Demo.executor Demo.quiet Demo.started (newBidRuntime Demo.bidA)
              Demo.resA Demo.arb false started_bestBidValid
              eq_refl eq_refl eq_refl)
    as (b' & out & Hloop & Harb & Hevents & Hch & Hbest & Hreply).
  - vm_compute. reflexivity.
  - exists b', out. repeat (split; [assumption|]).
    destruct Hreply as (best & t & _ & _ & Hreply).
    + vm_compute. discriminate.
    + exists t. exact Hreply.
Defined.

Lemma simBid_signalled_witness :
  List.filter isApply (srEvents Cases.resInterrupted) = [] /\
  srSuccess Cases.resInterrupted = false /\
  bestBid (srSim Cases.resInterrupted) = bestBid Demo.afterA /\
  newBidCh (srSim Cases.resInterrupted) = newBidCh Demo.afterA /\
  srErr Cases.resInterrupted =
    Some "simulation abort due to better bid arrived".
Proof.
  destruct (@simBid_signalled Demo.params Demo.worker Demo.engine Demo.executor
              Cases.interrupted Demo.afterA (newBidRuntime Demo.bidB)
              Cases.resInterrupted)
    as (Happly & Hsuccess & Hbest & Hch & Herr & _).
  - simpl. discriminate.
  - vm_compute. reflexivity.
  - repeat (split; [assumption|]).
    apply (Herr Demo.freshEnv); try reflexivity. vm_compute. discriminate.
Defined.

Lemma commitTransaction_keeps_aligned_witness :
  exists r' receipt evs e',
    @commitTransaction Demo.params Demo.executor Demo.atCheckpoint
      (Demo.transfer 11 7 10) false = Some (r', inl receipt, evs) /\
    env r' = Some e' /\ aligned e' /\
    envTxs e' = [Demo.transfer 11 7 10] /\
    receipts e' = [receipt] /\
    tcount e' = 1.
Proof.
  destruct (@commitTransaction Demo.params Demo.executor
              Demo.atCheckpoint (Demo.transfer 11 7 10) false)
    as [[[r' [receipt|msg]] evs]|] eqn:Hcommit;
    [|vm_compute in Hcommit; discriminate Hcommit
     |vm_compute in Hcommit; discriminate Hcommit].
  assert (Haligned : aligned
            (withGasPool
               (withState Demo.freshEnv
                  (Demo.credit (state Demo.freshEnv) 65534%N 1000000))
               (Some 24000000))).
  { split; [reflexivity|]. intros sc []. }
  destruct (@commitTransaction_keeps_aligned Demo.params Demo.executor
              Demo.atCheckpoint (Demo.transfer 11 7 10) false
              r' (inl receipt) evs _ eq_refl Haligned Hcommit)
    as (e' & Henv & Hal & Htxs & Hreceipts & Hcount).
  exists r', receipt, evs, e'. repeat (split; [assumption || reflexivity|]).
  exact Hcount.
Defined.

Lemma simBid_packs_the_bid_witness :
  exists e, env (srRuntime Cases.resPlain) = Some e /\
    envTxs e = Txs Demo.bidA /\ tcount e = 2.
Proof.
  apply (@simBid_packs_the_bid Demo.params Demo.worker Demo.engine
           Demo.executor Demo.quiet Cases.plain (newBidRuntime Demo.bidA)
           Cases.resPlain Demo.freshEnv); vm_compute; reflexivity.
Defined.

Lemma clearFn_wraps_witness :
  @sub64 100 128 = (2 ^ 64 - 28)%N /\
  bestBid (@clearFn Cases.chain Cases.twoParents 42%N 100%N).1 !! 43%N = None.
Proof.
  apply (@clearFn_wraps Cases.chain Cases.twoParents 42%N 100%N 43%N
           (srRuntime Demo.resB)).
  - vm_compute. reflexivity.
  - vm_compute. discriminate.
  - vm_compute. reflexivity.
  - vm_compute. discriminate.
Defined.

Lemma checked_add_keeps_quota_witness :
  exists b1 b2,
    CheckPending Demo.started 100%N 1%N 1001%N = (b1, None) /\
    AddPending b1 100%N 1%N 1001%N = Some b2 /\
    quotaKept b2 /\
    Pending.hashesOf (pending b2) 100%N 1%N =
      {[1001%N]} ∪ Pending.hashesOf (pending Demo.started) 100%N 1%N /\
    size (Pending.hashesOf (pending b2) 100%N 1%N) =
      S (size (Pending.hashesOf (pending Demo.started) 100%N 1%N)).
Proof.
  assert (Hquota : quotaKept Demo.started).
  { intros blockNumber builder. rewrite hashesOf_entry.
    unfold Pending.entry. simpl. rewrite lookup_empty.
    change (default ∅ None) with (∅ : gset N). rewrite size_empty.
    unfold maxBidPerBuilderPerBlock. lia. }
  destruct (CheckPending Demo.started 100%N 1%N 1001%N) as [b1 [msg|]]
    eqn:Hcheck; [vm_compute in Hcheck; discriminate Hcheck|].
  destruct (checked_add_keeps_quota Demo.started b1 100%N 1%N 1001%N
              Hquota Hcheck) as (b2 & Hadd & Hkept & Hset & Hsize).
  exists b1, b2. repeat (split; [assumption || reflexivity|]). exact Hsize.
Defined.

Lemma sendBid_records_witness :
  exists b' out,
    sendBid (CheckPending Demo.started 100%N 1%N 1001%N).1 Demo.bidA 3%nat
      (Some None) = Some (b', out) /\
    newBidCh b' = [{| pkgBid := Demo.bidA; feedback := Some 3%nat |}] /\
    out = Replied None.
Proof.
  destruct (sendBid (CheckPending Demo.started 100%N 1%N 1001%N).1 Demo.bidA
              3%nat (Some None)) as [[b' out]|] eqn:Hsend;
    [|vm_compute in Hsend; discriminate Hsend].
  exists b', out. split; [reflexivity|].
  destruct (sendBid_records _ b' Demo.bidA 3%nat (Some None) out Hsend)
    as [(_ & Hch & _ & _ & _ & Hout)|(Hfull & _)].
  - split; [exact Hch|exact Hout].
  - vm_compute in Hfull. lia.
Defined.

Lemma handleNewBid_feedback_once_witness :
  exists res,
    @handleNewBid Demo.params Demo.simulatingA Demo.arb false
      {| pkgBid := Demo.bidB; feedback := Some 3%nat |} = Some res /\
    List.filter isFeedback (lrEvents res) = [EvFeedback 3 (lrReplyErr res)].
Proof.
  destruct (@handleNewBid Demo.params Demo.simulatingA Demo.arb false
              {| pkgBid := Demo.bidB; feedback := Some 3%nat |})
    as [res|] eqn:Hres; [|vm_compute in Hres; discriminate Hres].
  exists res. split; [reflexivity|].
  apply (@handleNewBid_feedback_once Demo.params Demo.simulatingA Demo.arb
           false {| pkgBid := Demo.bidB; feedback := Some 3%nat |} res Hres).
Defined.

Lemma handleNewBid_channels_witness :
  exists res,
    @handleNewBid Demo.params Demo.simulatingA Demo.arb false
      {| pkgBid := Demo.bidB; feedback := Some 3%nat |} = Some res /\
    arbiterOk (lrArbiter res) /\
    (nextCh Demo.arb <= nextCh (lrArbiter res))%nat /\
    (lrArbiter res = Demo.arb \/
     lrArbiter res = {| interruptCh := Some 1%nat; nextCh := 2%nat |}).
Proof.
  assert (Hok : arbiterOk Demo.arb).
  { intros ch Hch. simpl in Hch. injection Hch as <-. simpl. lia. }
  destruct (@handleNewBid Demo.params Demo.simulatingA Demo.arb false
              {| pkgBid := Demo.bidB; feedback := Some 3%nat |})
    as [res|] eqn:Hres; [|vm_compute in Hres; discriminate Hres].
  destruct (@handleNewBid_channels Demo.params Demo.simulatingA Demo.arb
              false {| pkgBid := Demo.bidB; feedback := Some 3%nat |} res
              Hok Hres) as (Hok' & Hnext & _ & _ & Hcases).
  exists res. split; [reflexivity|]. split; [exact Hok'|].
  split; [exact Hnext|exact Hcases].
Defined.

Lemma dialSentryAndBuilders_with_sentry_witness :
  sentryCli (@dialSentryAndBuilders Cases.dialer Cases.noRegistry "sentry"
               [(3%N, "down")]) = Some 6%nat /\
  builders (@dialSentryAndBuilders Cases.dialer Cases.noRegistry "sentry"
              [(3%N, "down")]) !! 3%N = Some (Some 6%nat).
Proof.
  destruct (@dialSentryAndBuilders_with_sentry Cases.dialer Cases.noRegistry
              "sentry" [(3%N, "down")] 6%nat) as [Hsentry Hbuilders].
  - discriminate.
  - reflexivity.
  - split; [exact Hsentry|]. rewrite Hbuilders. reflexivity.
Defined.

Lemma reportIssue_after_simBid_witness :
  In (EvReportIssue (srRuntime Cases.resBroken) "parent not found")
     (srEvents Cases.resBroken) /\
  reportIssue Cases.oneBuilder (srRuntime Cases.resBroken) "parent not found"
    = None.
Proof.
  destruct (@reportIssue_after_simBid Demo.params Cases.brokenWorker
              Demo.engine Demo.executor Demo.quiet Demo.started
              (newBidRuntime Demo.bidC) Cases.resBroken "parent not found"
              Cases.oneBuilder) as (Hin & Hnone & _).
  - vm_compute. reflexivity.
  - vm_compute. reflexivity.
  - split; [exact Hin|]. apply Hnone. split; [|reflexivity].
    exists 5%nat. vm_compute. reflexivity.
Defined.
